(** * TestStoreApi: token authentication and the cart / checkout / payment flow

    A shallow embedding of the three Express services of the repository that
    decide the behaviour the specification talks about:

    - [Storefront]: the storefront with local token verification and the
      reduced cart (source: [src/unnamed/part_004]);
    - [Backend]: the storefront with delegated token verification, validated
      cart, list, remove and the checkout flag (source: the [index.js] that
      follows the compose file in [src/docker-compose-mock.yml]);
    - [Management]: the admin gateway (source: the [index.js] that follows
      the Dockerfile in [src/management-api/Dockerfile]).

    Conventions of the embedding.

    - Strings are sequences of 8-bit code units ([string]); header values
      are decoded as latin-1 by Node, so this is exact for headers.
    - A JavaScript number that holds an integer is the integer itself ([Z]).
      Where the engine turns text into a number the value is rounded to the
      nearest double ([round_double]); where it prints a number the decimal
      or exponent rendering of [Number::toString] is produced
      ([Number_toString]).  [-0] is identified with [0]: the handlers cannot
      tell them apart (both are falsy and both print as [0]).
    - [global.carts] and [global.checkoutCompleted] are plain objects used
      as maps from user names to values ([Globals]): a finite map ([gmap])
      of own properties under a prototype.  A user name can be the name of
      a property that the object inherits ([constructor], [toString], ...),
      and [__proto__] names the prototype itself.
    - Calls to other services ([axios]) are explicit nodes of an interaction
      tree ([io]); the reply is supplied by the environment. *)

From Stdlib Require Import ZArith String Ascii List Lia Bool.
From Stdlib Require Import DecimalString DecimalN.
From stdpp Require Import gmap strings.

Import ListNotations.
Open Scope string_scope.
Open Scope Z_scope.

(** ** JavaScript values and built-ins *)

Module JS.

(** Numbers: [NInt z] is a finite number with integer value [z];
    [NFrac n d] a finite number that is not an integer (the fraction [n/d]
    in lowest terms, [d > 1]); [NNaN]; [NInf negative]. *)
Inductive jsnum : Type :=
| NInt (z : Z)
| NFrac (num : Z) (den : positive)
| NNaN
| NInf (negative : bool).

(** Values as [JSON.parse] and the handlers produce them.  An object is the
    list of its own properties (distinct keys). *)
#[warnings="-register-all"]
Inductive jsval : Type :=
| JUndefined
| JNull
| JBool (b : bool)
| JNum (n : jsnum)
| JStr (s : string)
| JArr (items : list jsval)
| JObj (fields : list (string * jsval)).

(** [ToBoolean]: what [!v] and [v || w] test. *)
Definition truthy (v : jsval) : bool :=
  match v with
  | JUndefined | JNull => false
  | JBool b => b
  | JNum (NInt z) => negb (z =? 0)
  | JNum NNaN => false
  | JNum (NFrac _ _) | JNum (NInf _) => true
  | JStr s => negb (String.eqb s "")
  | JArr _ | JObj _ => true
  end.

(** [v.k] for a property name [k] that no primitive or array carries:
    [None] stands for the [TypeError] raised on [undefined] and [null]. *)
Definition get_field (v : jsval) (k : string) : option jsval :=
  match v with
  | JUndefined | JNull => None
  | JObj fields =>
      match find (fun kv => String.eqb (fst kv) k) fields with
      | Some kv => Some (snd kv)
      | None => Some JUndefined
      end
  | _ => Some JUndefined
  end.

(** [Number.isInteger(v)]. *)
Definition Number_isInteger (v : jsval) : bool :=
  match v with
  | JNum (NInt _) => true
  | _ => false
  end.

(** *** Characters *)

Definition code (c : ascii) : nat := nat_of_ascii c.

Definition in_range (lo hi : nat) (c : ascii) : bool :=
  (Nat.leb lo (code c)) && (Nat.leb (code c) hi).

(** White space and line terminators that [Number] and [parseInt] strip:
    TAB, LF, VT, FF, CR, SP and NBSP. *)
Definition is_ws (c : ascii) : bool :=
  in_range 9 13 c || Nat.eqb (code c) 32 || Nat.eqb (code c) 160.

Definition is_digit (c : ascii) : bool := in_range 48 57 c.
Definition is_hex (c : ascii) : bool :=
  is_digit c || in_range 65 70 c || in_range 97 102 c.
Definition is_octal (c : ascii) : bool := in_range 48 55 c.
Definition is_binary (c : ascii) : bool := in_range 48 49 c.
Definition is_sign (c : ascii) : bool :=
  Ascii.eqb c "+" || Ascii.eqb c "-".
Definition is_exp (c : ascii) : bool :=
  Ascii.eqb c "e" || Ascii.eqb c "E".

Definition nonempty {A : Type} (l : list A) : bool :=
  match l with
  | [] => false
  | _ :: _ => true
  end.

Fixpoint span {A : Type} (p : A -> bool) (l : list A) : list A * list A :=
  match l with
  | [] => ([], [])
  | x :: r =>
      if p x then let (a, b) := span p r in (x :: a, b) else ([], l)
  end.

Fixpoint drop_while {A : Type} (p : A -> bool) (l : list A) : list A :=
  match l with
  | [] => []
  | x :: r => if p x then drop_while p r else l
  end.

Definition trim (l : list ascii) : list ascii :=
  rev (drop_while is_ws (rev (drop_while is_ws l))).

(** *** [Number(s)] is not [NaN]: the grammar [StringNumericLiteral] *)

Definition exponent_ok (l : list ascii) : bool :=
  match l with
  | [] => true
  | c :: r =>
      is_exp c &&
      (let digits :=
         match r with
         | s :: r' => if is_sign s then r' else r
         | [] => r
         end in
       nonempty digits && forallb is_digit digits)
  end.

Definition unsigned_decimal_ok (l : list ascii) : bool :=
  if String.eqb (string_of_list_ascii l) "Infinity" then true
  else
    let (d1, r1) := span is_digit l in
    match r1 with
    | "."%char :: r =>
        let (d2, r2) := span is_digit r in
        (nonempty d1 || nonempty d2) && exponent_ok r2
    | _ => nonempty d1 && exponent_ok r1
    end.

Definition non_decimal_ok (l : list ascii) : bool :=
  match l with
  | "0"%char :: x :: r =>
      nonempty r &&
      ((Ascii.eqb x "x" || Ascii.eqb x "X") && forallb is_hex r
       || (Ascii.eqb x "o" || Ascii.eqb x "O") && forallb is_octal r
       || (Ascii.eqb x "b" || Ascii.eqb x "B") && forallb is_binary r)
  | _ => false
  end.

Definition numeric_string (s : string) : bool :=
  let l := trim (list_ascii_of_string s) in
  match l with
  | [] => true
  | c :: r =>
      non_decimal_ok l || unsigned_decimal_ok (if is_sign c then r else l)
  end.

(** [isNaN(s)] on a string [s]. *)
Definition isNaN (s : string) : bool := negb (numeric_string s).

(** *** Doubles *)

(** The value of the double nearest to the natural number [m] (ties to the
    even significand); [None] when [m] rounds to [Infinity]. *)
Definition round_double (m : Z) : option Z :=
  if m <? 2 ^ 53 then Some m
  else
    let e := Z.log2 m - 52 in
    let q := m / 2 ^ e in
    let r := m mod 2 ^ e in
    let half := 2 ^ (e - 1) in
    let q' := if (half <? r) || ((r =? half) && Z.odd q) then q + 1 else q in
    let v := q' * 2 ^ e in
    if v <? 2 ^ 1024 then Some v else None.

(** *** [parseInt(s, 10)] *)

Fixpoint trim_start (s : string) : string :=
  match s with
  | String c r => if is_ws c then trim_start r else s
  | EmptyString => s
  end.

(** The longest prefix of decimal digits, most significant first. *)
Fixpoint digits_prefix (s : string) : Decimal.uint :=
  match s with
  | String c r =>
      match uint_of_char c (Some (digits_prefix r)) with
      | Some u => u
      | None => Decimal.Nil
      end
  | EmptyString => Decimal.Nil
  end.

Definition parseInt (s : string) : jsnum :=
  let t := trim_start s in
  let (negative, body) :=
    match t with
    | String "-" r => (true, r)
    | String "+" r => (false, r)
    | _ => (false, t)
    end in
  match digits_prefix body with
  | Decimal.Nil => NNaN
  | u =>
      match round_double (Z.of_uint u) with
      | Some v => NInt (if negative then - v else v)
      | None => NInf negative
      end
  end.

(** *** [Number::toString] on integer values *)

Definition decimal (a : Z) : string :=
  NilZero.string_of_uint (N.to_uint (Z.to_N a)).

Definition round_trips (a v : Z) : bool :=
  match round_double v with
  | Some x => x =? a
  | None => false
  end.

(** The decimal [s * 10^(n-k)] with the fewest significant digits [k] that
    reads back as the double [a], the closest one when there are two. *)
Fixpoint shortest_from (a : Z) (len : Z) (ks : list nat) : Z :=
  match ks with
  | [] => a
  | k :: ks' =>
      let p := 10 ^ (len - Z.of_nat k) in
      let lo := a / p * p in
      let hi := lo + p in
      match round_trips a lo, round_trips a hi with
      | true, true =>
          if a - lo <? hi - a then lo
          else if hi - a <? a - lo then hi
          else if Z.even (lo / p) then lo else hi
      | true, false => lo
      | false, true => hi
      | false, false => shortest_from a len ks'
      end
  end.

Definition shortest_decimal (a : Z) : Z :=
  shortest_from a (Z.of_nat (String.length (decimal a))) (seq 1 17).

Definition strip_zeros (l : list ascii) : list ascii :=
  drop_while (Ascii.eqb "0") l.

Definition exponent_form (a : Z) : string :=
  let digits := list_ascii_of_string (decimal (shortest_decimal a)) in
  let e := decimal (Z.of_nat (List.length digits) - 1) in
  match rev (strip_zeros (rev digits)) with
  | [] => "0"
  | d :: [] => String d ("e+" +:+ e)
  | d :: ds => String d ("." +:+ string_of_list_ascii ds +:+ "e+" +:+ e)
  end.

(** [String(z)], also what a template literal and [parseInt(z, 10)] apply
    to a number: the digits of the shortest decimal that reads back as the
    number, in full below [10^21] and in exponent notation from there on
    ([10^21] is a double, so a number is below it exactly when its
    rendering has at most 21 digits). *)
Definition Number_toString (z : Z) : string :=
  let a := Z.abs z in
  (if z <? 0 then "-" else "") +:+
  (if a <? 10 ^ 21 then decimal (shortest_decimal a) else exponent_form a).

End JS.

Import JS.

(** ** Requests, responses and calls to other services *)

Module Http.

(** The object literal [{ itemId, quantity }]. *)
Record line (A : Type) : Type := Line { itemId : A; quantity : A }.
Arguments Line {A} itemId quantity.
Arguments itemId {A} l.
Arguments quantity {A} l.

(** What the handlers read of a request: the two headers and the own
    properties of the parsed JSON body ([{}] when there is none). *)
Record request : Type := Request {
  authorization : option string;
  x_user : option string;
  body : list (string * jsval)
}.

(** [const { k } = req.body]. *)
Definition body_field (req : request) (k : string) : jsval :=
  match find (fun kv => String.eqb (fst kv) k) (body req) with
  | Some kv => snd kv
  | None => JUndefined
  end.

(** JSON bodies of the replies. *)
Inductive payload : Type :=
| Error (error : string)
| Message (message : string)
| Added (message : string) (cart : list (line jsval))
| Items (items : list (line jsval))
| Deleted (message : string) (deletedItem : option (line jsval)).

Record response : Type := Response { status : nat; json : payload }.

(** The reply of the last error-handling middleware of both storefronts to
    a handler that throws, and of the [catch] of the delegating middleware
    (whose [message] detail is left out). *)
Definition internal_error : response :=
  Response 500 (Error "Internal server error").

(** A header value that is not falsy: [!h] holds exactly when
    [present h = None]. *)
Definition present (h : option string) : option string :=
  match h with
  | Some s => if String.eqb s "" then None else Some s
  | None => None
  end.

(** [s.split(sep)] for a one-character separator. *)
Fixpoint split (sep : ascii) (s : string) : list string :=
  match s with
  | EmptyString => [""]
  | String c r =>
      if Ascii.eqb c sep then "" :: split sep r
      else
        match split sep r with
        | h :: t => String c h :: t
        | [] => [String c ""]
        end
  end.

(** [authHeader.split(' ')[1]]; [None] is [undefined]. *)
Definition providedToken (authHeader : string) : option string :=
  nth_error (split " " authHeader) 1.

(** [providedToken !== expected] is false. *)
Definition token_matches (provided : option string) (expected : string) : bool :=
  match provided with
  | Some t => String.eqb t expected
  | None => false
  end.

(** Requests sent with [axios]. *)
Inductive call : Type :=
| GetItem (path : string)
| VerifyToken (username : string) (token : option string)
| UserRole (username : option string).

(** [axios] resolves with the body of a 2xx reply and rejects with the
    status of any other reply, or with no reply at all. *)
Inductive reply : Type :=
| Resolved (data : jsval)
| Rejected (status : option nat).

(** A handler that may await other services. *)
Inductive io (A : Type) : Type :=
| Ret (a : A)
| Call (c : call) (k : reply -> io A).
Arguments Ret {A} a.
Arguments Call {A} c k.

Fixpoint bind {A B : Type} (m : io A) (f : A -> io B) : io B :=
  match m with
  | Ret a => f a
  | Call c k => Call c (fun r => bind (k r) f)
  end.

(** Running a handler against an environment that answers the calls. *)
Fixpoint run {A : Type} (answer : call -> reply) (m : io A) : A :=
  match m with
  | Ret a => a
  | Call c k => run answer (k (answer c))
  end.

(** The calls a handler makes, in order. *)
Fixpoint calls {A : Type} (answer : call -> reply) (m : io A) : list call :=
  match m with
  | Ret _ => []
  | Call c k => c :: calls answer (k (answer c))
  end.

End Http.

Import Http.

(** ** The dynamic token *)

Module Token.

(** The calendar fields of [new Date()] in UTC. *)
Record date : Type := Date {
  year : nat; month : nat; day : nat;
  hours : nat; minutes : nat; seconds : nat; milliseconds : nat
}.

Definition digits (n : nat) : string :=
  NilZero.string_of_uint (Nat.to_uint n).

Fixpoint zeros (n : nat) : string :=
  match n with
  | O => ""
  | S n' => String "0" (zeros n')
  end.

(** [n] in decimal, zero-padded on the left to at least [width] digits. *)
Definition pad (width n : nat) : string :=
  zeros (width - String.length (digits n)) +:+ digits n.

(** [Date.prototype.toISOString]: four-digit years up to 9999, the
    expanded six-digit form with a sign after that. *)
Definition toISOString (d : date) : string :=
  (if Z.of_nat (year d) <=? 9999 then pad 4 (year d)
   else "+" +:+ pad 6 (year d))
  +:+ "-" +:+ pad 2 (month d) +:+ "-" +:+ pad 2 (day d)
  +:+ "T" +:+ pad 2 (hours d) +:+ ":" +:+ pad 2 (minutes d)
  +:+ ":" +:+ pad 2 (seconds d) +:+ "." +:+ pad 3 (milliseconds d) +:+ "Z".

(** [s.slice(0, 10)]. *)
Definition slice_0_10 (s : string) : string := substring 0 10 s.

(** The process environment and the clock. *)
Record env : Type := Env {
  TOKEN_SECRET : option string;
  now : date
}.

(** [process.env.TOKEN_SECRET || 'default_secret']. *)
Definition secret (e : env) : string :=
  match TOKEN_SECRET e with
  | Some s => if String.eqb s "" then "default_secret" else s
  | None => "default_secret"
  end.

Definition currentDate (e : env) : string :=
  slice_0_10 (toISOString (now e)).

(** String concatenation turns [undefined] into its name. *)
Definition name_of (username : option string) : string :=
  match username with
  | Some u => u
  | None => "undefined"
  end.

Section Digest.

(** [crypto.createHash('sha256').update(s).digest('hex')]. *)
Variable sha256 : string -> string.

Definition generateDynamicToken (e : env) (username : option string) : string :=
  sha256 (name_of username +:+ currentDate e +:+ secret e).

End Digest.

End Token.

Import Token.

(** ** Plain objects used as maps from user names *)

Module Globals.

(** The functions every plain object inherits from [Object.prototype],
    each with its [length].  [__proto__], the accessor of the prototype
    itself, is treated apart in [lookup] and [assign]. *)
Definition Object_prototype : list (string * nat) :=
  [("constructor", 1); ("__defineGetter__", 2); ("__defineSetter__", 2);
   ("hasOwnProperty", 1); ("__lookupGetter__", 1); ("__lookupSetter__", 1);
   ("isPrototypeOf", 1); ("propertyIsEnumerable", 1); ("toString", 0);
   ("valueOf", 0); ("toLocaleString", 0)]%nat.

(** [Object.prototype[k]] for a name other than [__proto__]: the [length]
    of the function found, if any. *)
Definition inherited_function (k : string) : option nat :=
  snd <$> find (fun kv => String.eqb (fst kv) k) Object_prototype.

Section Values.

(** The type of the two fields of a cart line. *)
Context {A : Type}.

(** What [global.carts[k]] can evaluate to: [undefined]; an array of cart
    lines; a built-in function (with its [length]); the [length] of an
    array; one cart line; [Object.prototype]. *)
Inductive value : Type :=
| Undefined
| Array (lines : list (line A))
| Function (length : nat)
| Number (n : nat)
| Element (l : line A)
| ObjectPrototype.

(** [global.carts]: its own properties, and its prototype, which is
    [Object.prototype] ([None]) until an array is assigned to
    [global.carts['__proto__']]. *)
Record store : Type := Store {
  own : gmap string value;
  proto : option (list (line A))
}.

(** [{}]. *)
Definition empty : store := Store ∅ None.

(** [P[k]] for an array [P]: the element whose index is written [k]. *)
Fixpoint element_from (i : nat) (P : list (line A)) (k : string)
  : option (line A) :=
  match P with
  | [] => None
  | l :: rest =>
      if String.eqb (Token.digits i) k then Some l
      else element_from (S i) rest k
  end.

(** The functions of [Array.prototype] (its string-keyed properties other
    than [length]), each with its [length]: a table of the engine, which
    grew from one version of the engine to the next. *)
Variable Array_prototype : string -> option nat.

(** [Object.prototype[k]], for [k] other than [__proto__]. *)
Definition from_Object_prototype (k : string) : value :=
  match inherited_function k with
  | Some n => Function n
  | None => Undefined
  end.

(** [o[k]]: an own property, or what the prototype chain gives. *)
Definition lookup (o : store) (k : string) : value :=
  if String.eqb k "__proto__" then
    match proto o with
    | Some P => Array P
    | None => ObjectPrototype
    end
  else
    match own o !! k with
    | Some v => v
    | None =>
        match proto o with
        | Some P =>
            if String.eqb k "length" then Number (length P)
            else
              match element_from 0 P k with
              | Some l => Element l
              | None =>
                  match Array_prototype k with
                  | Some n => Function n
                  | None => from_Object_prototype k
                  end
              end
        | None => from_Object_prototype k
        end
    end.

(** [!!v]. *)
Definition to_boolean (v : value) : bool :=
  match v with
  | Undefined | Number O => false
  | _ => true
  end.

(** [v || []]. *)
Definition or_empty (v : value) : value :=
  if to_boolean v then v else Array [].

(** [v.length]; [None] is [undefined]. *)
Definition length_of (v : value) : option nat :=
  match v with
  | Array lines => Some (length lines)
  | Function n => Some n
  | _ => None
  end.

(** [o[k] = v].  Under [__proto__] the setter of [Object.prototype] runs:
    an array becomes the prototype of [o], [Object.prototype] is the
    prototype [o] has when it is read from [o], and a number is ignored;
    under any other name the property becomes an own property of [o]. *)
Definition assign (o : store) (k : string) (v : value) : store :=
  if String.eqb k "__proto__" then
    match v with
    | Array P => Store (own o) (Some P)
    | _ => o
    end
  else Store (<[k := v]> (own o)) (proto o).

(** The array [o[k]] after it was changed in place to hold [lines]. *)
Definition mutate (o : store) (k : string) (lines : list (line A)) : store :=
  assign o k (Array lines).

(** The three statements that append a line to the cart of [k]:
    [global.carts = global.carts || {}],
    [global.carts[k] = global.carts[k] || []] and
    [global.carts[k].push(l)], which throws when [global.carts[k]] is not
    an array.  The result is the store left behind and the array after the
    push, or [None] when [push] threw. *)
Definition append (carts : option store) (k : string) (l : line A)
  : store * option (list (line A)) :=
  let o := default empty carts in
  let v := or_empty (lookup o k) in
  let o := assign o k v in
  match v with
  | Array lines => (mutate o k (lines ++ [l])%list, Some (lines ++ [l])%list)
  | _ => (o, None)
  end.

(** The guard of checkout, [!global.carts || !global.carts[k] ||
    global.carts[k].length === 0]. *)
Definition nothing_to_check_out (carts : option store) (k : string) : bool :=
  match carts with
  | None => true
  | Some o =>
      negb (to_boolean (lookup o k)) ||
      match length_of (lookup o k) with
      | Some O => true
      | _ => false
      end
  end.

End Values.

Arguments value : clear implicits.
Arguments store : clear implicits.

End Globals.

(** ** The storefront of [src/unnamed/part_004] *)

Module Storefront.

(** [global.carts]: [None] until the first add creates it. *)
Record state : Type := State {
  carts : option (Globals.store jsval)
}.

Definition init : state := State None.

(** [next()] with [req.username] set, or the reply that ends the request. *)
Inductive verdict : Type :=
| Next (username : string)
| Reply (r : response).

Section Handlers.

Variable Array_prototype : string -> option nat.
Variable sha256 : string -> string.
Variable e : env.

Definition authMiddleware (req : request) : verdict :=
  match present (authorization req), present (x_user req) with
  | Some authHeader, Some username =>
      if token_matches (providedToken authHeader)
           (generateDynamicToken sha256 e (Some username))
      then Next username
      else Reply (Response 403 (Error "Invalid or expired token"))
  | _, _ =>
      Reply (Response 401 (Error "Missing Authorization or X-User header"))
  end.

(** [app.post('/cart', ...)] after the middleware; a handler that throws is
    answered by the error-handling middleware. *)
Definition post_cart (username : string) (req : request) (st : state)
  : response * state :=
  let itemId := body_field req "itemId" in
  let quantity := body_field req "quantity" in
  if negb (truthy itemId) || negb (truthy quantity) then
    (Response 400 (Error "Item ID and quantity are required"), st)
  else
    match Globals.append Array_prototype (carts st) username
            (Line itemId quantity) with
    | (o, Some cart) =>
        (Response 200 (Added "Item added to cart" cart), State (Some o))
    | (o, None) => (internal_error, State (Some o))
    end.

(** [app.post('/checkout', ...)] after the middleware. *)
Definition post_checkout (username : string) (st : state) : response * state :=
  match carts st with
  | Some o =>
      if Globals.nothing_to_check_out Array_prototype (carts st) username then
        (Response 400 (Error "Cart is empty"), st)
      else
        (Response 200 (Message "Checkout successful. Payment processed."),
         State (Some (Globals.assign o username (Globals.Array []))))
  | None => (Response 400 (Error "Cart is empty"), st)
  end.

(** [app.post('/payment', ...)] after the middleware. *)
Definition post_payment (username : string) (st : state) : response * state :=
  (Response 200 (Message "Payment processed successfully (simulated)."), st).

Inductive route : Type := PostCart | PostCheckout | PostPayment.

(** A privileged request: the middleware, then the handler. *)
Definition serve (r : route) (req : request) (st : state) : response * state :=
  match authMiddleware req with
  | Reply resp => (resp, st)
  | Next username =>
      match r with
      | PostCart => post_cart username req st
      | PostCheckout => post_checkout username st
      | PostPayment => post_payment username st
      end
  end.

End Handlers.

End Storefront.

(** ** The storefront of [src/docker-compose-mock.yml] *)

Module Backend.

(** [global.carts] is created by the first add that reaches it and is
    [None] before; [global.checkoutCompleted] starts as [{}] and holds the
    booleans the handlers assign.  The lines that reach [push] have passed
    [Number.isInteger], so their fields are integers. *)
Record state : Type := State {
  carts : option (Globals.store Z);
  checkoutCompleted : gmap string bool
}.

Definition init : state := State None ∅.

Inductive verdict : Type :=
| Next (username : string)
| Reply (r : response).

(** A handler touches the state in one step, after its last [await]. *)
Definition transition : Type := state -> response * state.

Definition answer_with (r : response) : transition := fun st => (r, st).

Definition authMiddleware (req : request) : io verdict :=
  match present (authorization req), present (x_user req) with
  | Some authHeader, Some username =>
      Call (VerifyToken username (providedToken authHeader)) (fun r =>
        match r with
        | Resolved data =>
            match get_field data "valid" with
            | Some valid =>
                if truthy valid then Ret (Next username)
                else Ret (Reply (Response 403 (Error "Invalid or expired token")))
            | None => Ret (Reply internal_error)
            end
        | Rejected _ => Ret (Reply internal_error)
        end)
  | _, _ =>
      Ret (Reply (Response 401 (Error "Missing Authorization or X-User header")))
  end.

(** [if (typeof v === 'string' && !isNaN(v)) v = parseInt(v, 10)]. *)
Definition coerce (v : jsval) : jsval :=
  match v with
  | JStr s => if negb (isNaN s) then JNum (parseInt s) else v
  | _ => v
  end.

(** [Number.isInteger(v) && !(v <= 0)], with the integer. *)
Definition positive_integer (v : jsval) : option Z :=
  match v with
  | JNum (NInt z) => if z <=? 0 then None else Some z
  | _ => None
  end.

Definition to_json (l : line Z) : line jsval :=
  Line (JNum (NInt (itemId l))) (JNum (NInt (quantity l))).

(** [error.response && error.response.status === 404]. *)
Definition is_404 (status : option nat) : bool :=
  match status with
  | Some n => Nat.eqb n 404
  | None => false
  end.

(** [!!global.checkoutCompleted[username]]: an own property, or what
    [Object.prototype] gives; its prototype never changes, the handlers
    assign booleans only. *)
Definition flag (st : state) (username : string) : bool :=
  if String.eqb username "__proto__" then true
  else
    match checkoutCompleted st !! username with
    | Some b => b
    | None =>
        match Globals.inherited_function username with
        | Some _ => true
        | None => false
        end
    end.

(** [global.checkoutCompleted[username] = b]; the setter of [__proto__]
    ignores a boolean. *)
Definition set_flag (username : string) (b : bool) (flags : gmap string bool)
  : gmap string bool :=
  if String.eqb username "__proto__" then flags else <[username := b]> flags.

(** [parseInt(n, 10)] on a stored number: the number is printed first. *)
Definition parseInt_number (z : Z) : jsval :=
  JNum (parseInt (Number_toString z)).

(** The function mapped over the cart by the list handler. *)
Definition parsed (item : line Z) : line jsval :=
  Line (parseInt_number (itemId item)) (parseInt_number (quantity item)).

(** [cart.findIndex(p)]; [None] is [-1]. *)
Fixpoint findIndex {A : Type} (p : A -> bool) (l : list A) : option nat :=
  match l with
  | [] => None
  | x :: r => if p x then Some O else option_map S (findIndex p r)
  end.

Section Handlers.

Variable Array_prototype : string -> option nat.

(** The three statements that append a line to the user's cart, with the
    array that the reply shows. *)
Definition push (username : string) (l : line Z) (st : state)
  : state * option (list (line Z)) :=
  let (o, cart) := Globals.append Array_prototype (carts st) username l in
  (State (Some o) (checkoutCompleted st), cart).

(** [app.post('/cart', ...)] after the middleware. *)
Definition post_cart (username : string) (req : request) : io transition :=
  let itemId := coerce (body_field req "itemId") in
  let quantity := coerce (body_field req "quantity") in
  if negb (truthy itemId) || negb (truthy quantity) then
    Ret (answer_with (Response 400 (Error "Item ID and quantity are required")))
  else
    match positive_integer itemId with
    | None =>
        Ret (answer_with
               (Response 400 (Error "Invalid item ID, must be a positive integer")))
    | Some i =>
        match positive_integer quantity with
        | None =>
            Ret (answer_with
                   (Response 400 (Error "Invalid quantity, must be a positive integer")))
        | Some q =>
            Call (GetItem ("/items/" +:+ Number_toString i)) (fun r =>
              match r with
              | Resolved data =>
                  if truthy data then
                    Ret (fun st =>
                           match push username (Line i q) st with
                           | (st', Some cart) =>
                               (Response 200
                                  (Added "Item added to cart" (map to_json cart)),
                                st')
                           | (st', None) =>
                               (Response 500
                                  (Error "Internal server error while validating item"),
                                st')
                           end)
                  else Ret (answer_with (Response 404 (Error "Item not found")))
              | Rejected status =>
                  if is_404 status then
                    Ret (answer_with (Response 404 (Error "Item not found")))
                  else
                    Ret (answer_with
                           (Response 500
                              (Error "Internal server error while validating item")))
              end)
        end
    end.

(** [global.carts[username] || []] when it is an array; [None] when it is
    not, and a method of arrays called on it throws. *)
Definition cart_array (o : Globals.store Z) (username : string)
  : option (list (line Z)) :=
  match Globals.or_empty (Globals.lookup Array_prototype o username) with
  | Globals.Array cart => Some cart
  | _ => None
  end.

(** [app.get('/cart/items', ...)] after the middleware. *)
Definition get_cart_items (username : string) : transition := fun st =>
  match carts st with
  | None => (internal_error, st)
  | Some o =>
      match cart_array o username with
      | Some cart => (Response 200 (Items (map parsed cart)), st)
      | None => (internal_error, st)
      end
  end.

(** [app.delete('/cart/items', ...)] after the middleware. *)
Definition delete_cart_items (username : string) (req : request) : transition :=
  fun st =>
  match positive_integer (coerce (body_field req "itemId")) with
  | None =>
      (Response 400 (Error "Invalid item ID, must be a positive integer"), st)
  | Some i =>
      match carts st with
      | None => (internal_error, st)
      | Some o =>
          match cart_array o username with
          | None => (internal_error, st)
          | Some cart =>
              match findIndex (fun item => itemId item =? i) cart with
              | None => (Response 400 (Error "Item not found in the cart"), st)
              | Some itemIndex =>
                  let deletedItem := cart !! itemIndex in
                  (Response 200
                     (Deleted "Item deleted from the cart" (to_json <$> deletedItem)),
                   State (Some (Globals.mutate o username (delete itemIndex cart)))
                         (checkoutCompleted st))
              end
          end
      end
  end.

(** [app.post('/checkout', ...)] after the middleware. *)
Definition post_checkout (username : string) : transition := fun st =>
  match carts st with
  | Some o =>
      if Globals.nothing_to_check_out Array_prototype (carts st) username then
        (Response 400 (Error "Cart is empty"), st)
      else
        (Response 200 (Message "Checkout successful. Ready for payment."),
         State (Some (Globals.assign o username (Globals.Array [])))
               (set_flag username true (checkoutCompleted st)))
  | None => (Response 400 (Error "Cart is empty"), st)
  end.

(** [app.post('/payment', ...)] after the middleware. *)
Definition post_payment (username : string) : transition := fun st =>
  if negb (flag st username) then
    (Response 400 (Error "Checkout not completed"), st)
  else
    (Response 200 (Message "Payment successful"),
     State (carts st) (set_flag username false (checkoutCompleted st))).

Inductive route : Type :=
| PostCart | GetCartItems | DeleteCartItems | PostCheckout | PostPayment.

Definition handler (r : route) (username : string) (req : request) : io transition :=
  match r with
  | PostCart => post_cart username req
  | GetCartItems => Ret (get_cart_items username)
  | DeleteCartItems => Ret (delete_cart_items username req)
  | PostCheckout => Ret (post_checkout username)
  | PostPayment => Ret (post_payment username)
  end.

(** A privileged request: the middleware, then the handler. *)
Definition serve (r : route) (req : request) : io transition :=
  bind (authMiddleware req) (fun v =>
    match v with
    | Reply resp => Ret (answer_with resp)
    | Next username => handler r username req
    end).

End Handlers.

End Backend.

(** ** The admin gateway of [src/management-api] *)

Module Management.

(** [next()], a reply, or the rejection nobody handles when the role store
    answers 2xx with [null]. *)
Inductive verdict : Type :=
| Next
| Reply (r : response)
| Unhandled.

(** [role === 'admin']. *)
Definition is_admin (role : jsval) : bool :=
  match role with
  | JStr s => String.eqb s "admin"
  | _ => false
  end.

(** [error.response?.status || 500]. *)
Definition error_status (status : option nat) : nat :=
  match status with
  | Some O | None => 500
  | Some n => n
  end.

Section Middleware.

Variable sha256 : string -> string.
Variable e : env.

Definition authMiddleware (req : request) : io verdict :=
  match present (authorization req) with
  | None => Ret (Reply (Response 401 (Error "Missing Authorization header")))
  | Some authHeader =>
      Call (UserRole (x_user req)) (fun r =>
        match r with
        | Rejected status =>
            let status := error_status status in
            Ret (Reply (Response status
                          (Error (if Nat.eqb status 404 then "User not found"
                                  else "Error retrieving user role"))))
        | Resolved data =>
            match get_field data "role" with
            | None => Ret Unhandled
            | Some role =>
                if negb (is_admin role) then
                  Ret (Reply (Response 403 (Error "Forbidden: Admins only")))
                else if token_matches (providedToken authHeader)
                          (generateDynamicToken sha256 e (x_user req))
                then Ret Next
                else Ret (Reply (Response 403 (Error "Forbidden: Invalid token")))
            end
        end)
  end.

End Middleware.

End Management.

(** ** Vocabulary of the specification *)

(** One character of the first string is replaced in the second. *)
Inductive mutation : string -> string -> Prop :=
| mutation_here (c c' : ascii) (s : string) :
    c <> c' -> mutation (String c s) (String c' s)
| mutation_later (c : ascii) (s s' : string) :
    mutation s s' -> mutation (String c s) (String c s').

(** A calendar day written [YYYY-MM-DD]. *)
Definition calendar_date (d : date) : string :=
  pad 4 (year d) +:+ "-" +:+ pad 2 (month d) +:+ "-" +:+ pad 2 (day d).

(** The functions of [Array.prototype] in Node 18, the engine named by the
    Dockerfile of the storefront, with the [length] of each: the table the
    closed examples are evaluated with. *)
Definition node18 (k : string) : option nat :=
  snd <$> find (fun kv => String.eqb (fst kv) k)
    [("constructor", 1); ("at", 1); ("concat", 1); ("copyWithin", 2);
     ("fill", 1); ("find", 1); ("findIndex", 1); ("findLast", 1);
     ("findLastIndex", 1); ("lastIndexOf", 1); ("pop", 0); ("push", 1);
     ("reverse", 0); ("shift", 0); ("unshift", 1); ("slice", 2); ("sort", 1);
     ("splice", 2); ("includes", 1); ("indexOf", 1); ("join", 1); ("keys", 0);
     ("entries", 0); ("values", 0); ("forEach", 1); ("filter", 1); ("flat", 0);
     ("flatMap", 1); ("map", 1); ("every", 1); ("some", 1); ("reduce", 1);
     ("reduceRight", 1); ("toLocaleString", 0); ("toString", 0)]%nat.



(** A user name under which a plain object inherits nothing: not
    [__proto__] and not the name of a function of [Object.prototype]. *)
Definition ordinary (username : string) : bool :=
  negb (String.eqb username "__proto__") &&
  match Globals.inherited_function username with
  | Some _ => false
  | None => true
  end.

(** The Checkout Flag of an identity: the boolean the handlers stored for
    it in [global.checkoutCompleted], false when they stored none. *)
Definition checkout_flag (st : Backend.state) (username : string) : bool :=
  default false (Backend.checkoutCompleted st !! username).

(** The lines of [Backend] seen as JSON numbers, in a value and in a whole
    store. *)
Definition value_to_json (v : Globals.value Z) : Globals.value jsval :=
  match v with
  | Globals.Undefined => Globals.Undefined
  | Globals.Array lines => Globals.Array (map Backend.to_json lines)
  | Globals.Function n => Globals.Function n
  | Globals.Number n => Globals.Number n
  | Globals.Element l => Globals.Element (Backend.to_json l)
  | Globals.ObjectPrototype => Globals.ObjectPrototype
  end.

Definition store_to_json (o : Globals.store Z) : Globals.store jsval :=
  Globals.Store (value_to_json <$> Globals.own o)
    (map Backend.to_json <$> Globals.proto o).

(** The two storefronts hold the same carts: the same store, the lines of
    [Backend] seen as JSON numbers. *)
Definition same_carts (sb : Backend.state) (ss : Storefront.state) : Prop :=
  Storefront.carts ss = store_to_json <$> Backend.carts sb.

Section Carts.

Variable Array_prototype : string -> option nat.

(** What [global.carts[username]] evaluates to in [Backend], with [{}]
    for a [global.carts] that does not exist yet. *)
Definition entry (st : Backend.state) (username : string) : Globals.value Z :=
  Globals.lookup Array_prototype (default Globals.empty (Backend.carts st))
    username.

(** The Cart of an identity: the lines of the array the store gives for
    it, empty when it gives no array. *)
Definition cart (st : Backend.state) (username : string) : list (line Z) :=
  match entry st username with
  | Globals.Array lines => lines
  | _ => []
  end.



(** Two states hold the same for an identity: [global.carts] gives the
    same under its name, payment reads the same from
    [global.checkoutCompleted], and the flag stored for it is the same. *)
Definition same_for (username : string) (st st' : Backend.state) : Prop :=
  entry st' username = entry st username /\
  Backend.flag st' username = Backend.flag st username /\
  checkout_flag st' username = checkout_flag st username.

End Carts.

(** ** Sequences of requests *)

(** One request as the storefront sees it: the route, the request and how
    the other services answer while it is handled. *)
Record exchange : Type := Exchange {
  route_of : Backend.route;
  request_of : request;
  upstream_of : call -> reply
}.

(** The state after a sequence of requests, handled one after another. *)
Fixpoint replay (Array_prototype : string -> option nat) (xs : list exchange)
    (st : Backend.state) : Backend.state :=
  match xs with
  | [] => st
  | x :: rest =>
      replay Array_prototype rest
        (snd (run (upstream_of x)
                (Backend.serve Array_prototype (route_of x) (request_of x)) st))
  end.

(** A line with a positive item and a positive quantity. *)
Definition positive (x : line Z) : Prop := 0 < itemId x /\ 0 < quantity x.

(** The lines of a value are positive. *)
Definition positive_value (v : Globals.value Z) : Prop :=
  match v with
  | Globals.Array lines => Forall positive lines
  | Globals.Element l => positive l
  | _ => True
  end.

(** Every line the store holds is positive: the lines of the arrays and
    the single lines among its own properties, and the lines of the array
    that is its prototype, if one is. *)
Definition positive_store (o : Globals.store Z) : Prop :=
  (forall k v, Globals.own o !! k = Some v -> positive_value v) /\
  (forall P, Globals.proto o = Some P -> Forall positive P).

Definition positive_lines (st : Backend.state) : Prop :=
  forall o, Backend.carts st = Some o -> positive_store o.

(** ** Handlers that relay to another service *)

Module Flow.

(** What [axios] hands back: the reply of a 2xx answer, the reply of any
    other answer (as [error.response]), or no reply at all. *)
Inductive result : Type :=
| Ok (status : nat) (data : jsval)
| Err (status : nat) (data : jsval)
| NoResponse.

(** An [axios] request: [url] is the path below the base URL. *)
Record outgoing : Type := Outgoing {
  method : string;
  url : string;
  data : jsval;
  params : jsval
}.

(** A handler that awaits: calls of type [C] answered in [R]. *)
Inductive prog (C R A : Type) : Type :=
| Done (a : A)
| Ask (c : C) (k : R -> prog C R A).
Arguments Done {C R A} a.
Arguments Ask {C R A} c k.

(** Running a handler; [oracle n c] answers the call [c] when it is the
    [n]-th call made.  The result comes with the calls made, in order. *)
Fixpoint exec {C R A : Type} (oracle : nat -> C -> R) (n : nat)
    (m : prog C R A) : A * list C :=
  match m with
  | Done a => (a, [])
  | Ask c k =>
      let (a, t) := exec oracle (S n) (k (oracle n c)) in (a, c :: t)
  end.

(** What is sent back: a status and a JSON body, or nothing when the
    handler's promise is rejected and nobody handles it. *)
Record answer : Type := Answer { status_code : nat; content : jsval }.

Inductive outcome : Type :=
| Sent (a : answer)
| Hang.

Definition defined (v : jsval) : bool :=
  match v with
  | JUndefined => false
  | _ => true
  end.

(** An object literal as it is serialized: properties that are [undefined]
    are left out. *)
Definition object (fields : list (string * jsval)) : jsval :=
  JObj (List.filter (fun kv => defined (snd kv)) fields).

(** [v || w]. *)
Definition or_else (v w : jsval) : jsval := if truthy v then v else w.

(** [{ error: msg }]. *)
Definition error_body (msg : string) : jsval := JObj [("error", JStr msg)].

(** The view the handlers of the claims have of [axios]. *)
Definition forget (r : result) : reply :=
  match r with
  | Ok _ d => Resolved d
  | Err s _ => Rejected (Some s)
  | NoResponse => Rejected None
  end.

(** A handler of the claims inside a handler that also makes other
    calls. *)
Fixpoint lift {C A : Type} (m : io A) : prog (call + C) result A :=
  match m with
  | Ret a => Done a
  | Call c k => Ask (inl c) (fun r => lift (k (forget r)))
  end.

Definition json_line (l : line jsval) : jsval :=
  JObj [("itemId", itemId l); ("quantity", quantity l)].

(** The JSON of a reply of the claims. *)
Definition to_answer (r : response) : answer :=
  Answer (status r)
    match json r with
    | Error msg => error_body msg
    | Message msg => JObj [("message", JStr msg)]
    | Added msg cart =>
        JObj [("message", JStr msg); ("cart", JArr (map json_line cart))]
    | Items items => JArr (map json_line items)
    | Deleted msg item =>
        object [("message", JStr msg);
                ("deletedItem", default JUndefined (json_line <$> item))]
    end.

End Flow.

Import Flow.

(** ** Login, registration and the catalog relay of the storefronts *)

Module Relay.

(** [app.post('/login', ...)], the same in both storefronts. *)
Definition login (req : request) : prog outgoing result outcome :=
  let username := body_field req "username" in
  let password := body_field req "password" in
  if negb (truthy username) || negb (truthy password) then
    Done (Sent (Answer 400 (error_body "Username and password are required")))
  else
    Ask (Outgoing "post" "/users/validate"
           (object [("username", username); ("password", password)]) JUndefined)
      (fun r =>
         match r with
         | Ok _ data =>
             match get_field data "token" with
             | Some token => Done (Sent (Answer 200 (object [("token", token)])))
             | None =>
                 Done (Sent (Answer 500
                               (error_body "Internal server error during login")))
             end
         | Err status data =>
             if Nat.eqb status 401 then
               Done (Sent (Answer 401 (error_body "Invalid credentials")))
             else
               match get_field data "error" with
               | Some e =>
                   Done (Sent (Answer status
                                 (object [("error",
                                           or_else e
                                             (JStr "Error validating credentials"))])))
               | None => Done Hang
               end
         | NoResponse =>
             Done (Sent (Answer 500
                           (error_body "Internal server error during login")))
         end).

(** [app.post('/register', ...)] of the validating storefront. *)
Definition register (req : request) : prog outgoing result outcome :=
  let username := body_field req "username" in
  let firstname := body_field req "firstname" in
  let surname := body_field req "surname" in
  let password := body_field req "password" in
  if negb (truthy username) || negb (truthy firstname)
     || negb (truthy surname) || negb (truthy password) then
    Done (Sent (Answer 400
                  (error_body "Username, firstname, surname and password are required")))
  else
    let userData :=
      object [("username", username); ("role", JStr "user");
              ("firstname", firstname); ("surname", surname);
              ("password", password)] in
    Ask (Outgoing "post" "/users" userData JUndefined)
      (fun r =>
         match r with
         | Ok status data => Done (Sent (Answer status data))
         | Err _ data =>
             Done (Sent (Answer 500
                           (object [("error", JStr "Internal server error");
                                    ("message", data)])))
         | NoResponse => Done Hang
         end).

(** [app.get('/items/:id', ...)], the same in both storefronts. *)
Definition get_item (id : string) : prog outgoing result outcome :=
  Ask (Outgoing "get" ("/items/" +:+ id) JUndefined JUndefined)
    (fun r =>
       match r with
       | Ok _ data => Done (Sent (Answer 200 data))
       | Err status data =>
           if Nat.eqb status 404 then
             Done (Sent (Answer 404 (error_body "Item not found")))
           else
             match get_field data "error" with
             | Some e =>
                 Done (Sent (Answer status
                               (object [("error",
                                         or_else e
                                           (JStr "Error fetching item details"))])))
             | None => Done Hang
             end
       | NoResponse =>
           Done (Sent (Answer 500
                         (error_body "Internal server error fetching item details")))
       end).

End Relay.

(** ** Numbers that [parseInt] returns, and the arithmetic on them *)

Module Num.

(** An integer-valued double, an infinity or [NaN]. *)
Inductive inum : Type :=
| Fin (z : Z)
| Inf (negative : bool)
| NaN.

(** The double nearest to an integer of either sign. *)
Definition to_double (z : Z) : inum :=
  match round_double (Z.abs z) with
  | Some v => Fin (Z.sgn z * v)
  | None => Inf (z <? 0)
  end.

Definition hex_digit (c : ascii) : option Z :=
  let n := Z.of_nat (code c) in
  if is_digit c then Some (n - 48)
  else if in_range 65 70 c then Some (n - 55)
  else if in_range 97 102 c then Some (n - 87)
  else None.

(** The value of the longest prefix of hexadecimal digits, if there is
    one. *)
Fixpoint hex_prefix (acc : Z) (seen : bool) (s : string) : option Z :=
  match s with
  | String c r =>
      match hex_digit c with
      | Some d => hex_prefix (16 * acc + d) true r
      | None => if seen then Some acc else None
      end
  | EmptyString => if seen then Some acc else None
  end.

(** [parseInt(s)], with no radix: base 16 after [0x], base 10 otherwise. *)
Definition parseInt_any (s : string) : inum :=
  let t := trim_start s in
  let (negative, body) :=
    match t with
    | String "-" r => (true, r)
    | String "+" r => (false, r)
    | _ => (false, t)
    end in
  let magnitude :=
    match body with
    | String "0" (String x r) =>
        if Ascii.eqb x "x" || Ascii.eqb x "X" then hex_prefix 0 false r
        else
          match digits_prefix body with
          | Decimal.Nil => None
          | u => Some (Z.of_uint u)
          end
    | _ =>
        match digits_prefix body with
        | Decimal.Nil => None
        | u => Some (Z.of_uint u)
        end
    end in
  match magnitude with
  | Some m => to_double (if negative then - m else m)
  | None => NaN
  end.

(** [x || d] for a number [x]. *)
Definition or_default (x : inum) (d : Z) : inum :=
  match x with
  | NaN | Fin 0 => Fin d
  | _ => x
  end.

(** [Math.min(x, n)]. *)
Definition min_with (x : inum) (n : Z) : inum :=
  match x with
  | Fin z => Fin (Z.min z n)
  | Inf true => Inf true
  | Inf false => Fin n
  | NaN => NaN
  end.

(** [x - y] and [x * y]. *)
Definition sub (x y : inum) : inum :=
  match x, y with
  | NaN, _ | _, NaN => NaN
  | Fin a, Fin b => to_double (a - b)
  | Inf s, Fin _ => Inf s
  | Fin _, Inf s => Inf (negb s)
  | Inf s, Inf t => if Bool.eqb s t then NaN else Inf s
  end.

Definition mul (x y : inum) : inum :=
  match x, y with
  | NaN, _ | _, NaN => NaN
  | Fin a, Fin b => to_double (a * b)
  | Inf s, Fin b | Fin b, Inf s =>
      if b =? 0 then NaN else Inf (xorb s (b <? 0))
  | Inf s, Inf t => Inf (xorb s t)
  end.


Definition to_json (x : inum) : jsval :=
  match x with
  | Fin z => JNum (NInt z)
  | Inf s => JNum (NInf s)
  | NaN => JNum NNaN
  end.

End Num.

Import Num.

(** ** The data-access service of [src/unnamed/part_000] *)

Module Adapter.

(** What the service awaits: a client from the pool, a query, and a timer.
    [Release] is not awaited; its reply is ignored. *)
Inductive effect : Type :=
| Connect
| Query (text : string) (values : list jsval)
| Release
| Sleep (ms : Z).

(** The rows of a query (nothing for the other effects), or the error
    thrown, as [String(error)]. *)
Inductive dbreply : Type :=
| Rows (rows : list jsval)
| Fails (error : string).

Definition num_eq (a b : jsnum) : bool :=
  match a, b with
  | NInt x, NInt y => x =? y
  | NFrac n d, NFrac n' d' => (n =? n') && Pos.eqb d d'
  | NInf s, NInf t => Bool.eqb s t
  | _, _ => false
  end.

(** [a === b] for two values that are not the same object. *)
Definition strict_eq (a b : jsval) : bool :=
  match a, b with
  | JUndefined, JUndefined | JNull, JNull => true
  | JBool x, JBool y => Bool.eqb x y
  | JNum x, JNum y => num_eq x y
  | JStr x, JStr y => String.eqb x y
  | _, _ => false
  end.


Section Service.

(** [crypto.createHash('sha256').update(s).digest('hex')]. *)
Variable sha256 : string -> string.
Variable e : env.

(** The engine's [ToString] on the values whose rendering is not written
    out here (booleans, [null], objects, arrays, numbers that are not
    integers). *)
Variable ToString : jsval -> string.

(** [String(v)], as string concatenation and [parseInt] apply it. *)
Definition render (v : jsval) : string :=
  match v with
  | JStr s => s
  | JUndefined => "undefined"
  | JNum (NInt z) => Number_toString z
  | _ => ToString v
  end.

(** [generateDynamicToken(username)] on a value taken from a body. *)
Definition generateDynamicToken (username : jsval) : string :=
  Token.generateDynamicToken sha256 e (Some (render username)).

Definition internal : outcome :=
  Sent (Answer 500 (error_body "Internal Server Error")).

(** [app.post('/users/validate', ...)]. *)
Definition users_validate (body : jsval) : prog effect dbreply outcome :=
  match get_field body "username", get_field body "password" with
  | Some username, Some password =>
      Ask (Query "SELECT * FROM users WHERE username = $1;" [username])
        (fun r =>
           match r with
           | Rows [] =>
               Done (Sent (Answer 401 (error_body "Invalid credentials")))
           | Rows (user :: _) =>
               match get_field user "password", get_field user "id",
                     get_field user "username", get_field user "role" with
               | Some stored, Some id, Some name, Some role =>
                   if negb (strict_eq stored password) then
                     Done (Sent (Answer 401 (error_body "Invalid credentials")))
                   else
                     Done (Sent (Answer 200
                                   (object
                                      [("id", id); ("username", name);
                                       ("role", role);
                                       ("token",
                                        JStr (generateDynamicToken username))])))
               | _, _, _, _ => Done internal
               end
           | Fails _ => Done internal
           end)
  | _, _ => Done Hang
  end.

(** [app.post('/user/role', ...)]. *)
Definition user_role (body : jsval) : prog effect dbreply outcome :=
  match get_field body "username" with
  | Some username =>
      Ask (Query "SELECT role FROM users WHERE username = $1;" [username])
        (fun r =>
           match r with
           | Rows [] => Done (Sent (Answer 404 (error_body "User not found")))
           | Rows (row :: _) => Done (Sent (Answer 200 row))
           | Fails _ => Done internal
           end)
  | None => Done internal
  end.

(** [app.get('/items', ...)]: [page] and [limit] are the two values of
    [req.query]. *)
Definition page_of (page : jsval) : inum :=
  or_default (parseInt_any (render page)) 1.

Definition limit_of (limit : jsval) : inum :=
  match parseInt_any (render limit) with
  | NaN => Fin 10
  | n => min_with n 1000
  end.

Definition offset_of (page limit : jsval) : inum :=
  mul (sub (page_of page) (Fin 1)) (limit_of limit).

Definition get_items (page limit : jsval) : prog effect dbreply outcome :=
  Ask (Query "SELECT COUNT(*) FROM items" [])
    (fun r =>
       match r with
       | Rows (first :: _) =>
           match get_field first "count" with
           | Some count =>
               let total := JNum (parseInt (render count)) in
               Ask (Query "SELECT * FROM items ORDER BY id LIMIT $1 OFFSET $2"
                      [Num.to_json (limit_of limit);
                       Num.to_json (offset_of page limit)])
                 (fun r' =>
                    match r' with
                    | Rows rows =>
                        Done (Sent (Answer 200
                                      (JObj [("items", JArr rows);
                                             ("page", Num.to_json (page_of page));
                                             ("limit", Num.to_json (limit_of limit));
                                             ("total", total)])))
                    | Fails _ => Done internal
                    end)
           | None => Done internal
           end
       | Rows [] => Done internal
       | Fails _ => Done internal
       end).


(** The check of [app.post('/items/batch', ...)] on one element: [None] is
    the [TypeError] on [null]. *)
Definition batch_item_ok (item : jsval) : option bool :=
  match get_field item "name", get_field item "price" with
  | Some name, Some price => Some (truthy name && defined price)
  | _, _ => None
  end.







(** [waitForPostgres(retries, delay)]: [true] when it returns, [false]
    when it throws. *)
Fixpoint waitForPostgres (retries : nat) (delay : Z) : prog effect dbreply bool :=
  match retries with
  | O => Done false
  | S remaining =>
      Ask (Query "SELECT 1" [])
        (fun r =>
           match r with
           | Rows _ => Done true
           | Fails _ => Ask (Sleep delay) (fun _ => waitForPostgres remaining delay)
           end)
  end.

(** The seeding loop of [initializeDatabase]. *)
Section Seeding.

(** [parseFloat]. *)
Variable parseFloat : jsval -> jsval.

Record seed : Type := Seed {
  insertValues : list string;
  params : list jsval;
  paramIndex : nat
}.

Definition placeholder (n : nat) : string :=
  "($" +:+ Token.digits n +:+ ", $" +:+ Token.digits (n + 1)
  +:+ ", $" +:+ Token.digits (n + 2) +:+ ")".

(** One turn of the loop; [None] is the [TypeError] on [null]. *)
Definition seed_item (acc : seed) (item : jsval) : option seed :=
  match get_field item "name", get_field item "price",
        get_field item "description" with
  | Some name, Some price, Some description =>
      if negb (truthy name) || negb (defined price) then Some acc
      else
        Some (Seed (insertValues acc ++ [placeholder (paramIndex acc)])
                (params acc ++ [name; or_else description (JStr ""); parseFloat price])
                (paramIndex acc + 3))
  | _, _, _ => None
  end.

Fixpoint seed_items (acc : seed) (items : list jsval) : option seed :=
  match items with
  | [] => Some acc
  | item :: rest =>
      match seed_item acc item with
      | Some acc' => seed_items acc' rest
      | None => None
      end
  end.

Definition seed_start : seed := Seed [] [] 1.

End Seeding.

End Service.

End Adapter.

(** ** The routes of the admin gateway *)

Module Gateway.

(** The options of [forwardRequest]; [None] is [undefined]. *)
Record options : Type := Options {
  notFoundMsg : option string;
  fallbackMsg : option string;
  successStatus : option nat
}.

Definition text (msg : option string) : jsval :=
  match msg with
  | Some s => JStr s
  | None => JUndefined
  end.

(** [handleAxiosError(res, error, notFoundMsg, fallbackMsg)]. *)
Definition handleAxiosError (error : result) (o : options) : outcome :=
  match error with
  | Err status data =>
      if Nat.eqb status 404 && truthy (text (notFoundMsg o)) then
        Sent (Answer 404 (object [("error", text (notFoundMsg o))]))
      else
        match get_field data "error" with
        | Some e =>
            Sent (Answer status
                    (object [("error", or_else e (text (fallbackMsg o)))]))
        | None => Hang
        end
  | _ => Sent (Answer 500 (object [("error", text (fallbackMsg o))]))
  end.

(** [successStatus || response.status]. *)
Definition success_status (o : options) (status : nat) : nat :=
  match successStatus o with
  | Some O | None => status
  | Some n => n
  end.

(** [forwardRequest(method, endpoint, req, res, options)]. *)
Definition forwardRequest (method endpoint : string) (body query : jsval)
    (o : options) : prog outgoing result outcome :=
  Ask (Outgoing method endpoint body query)
    (fun r =>
       match r with
       | Ok status data => Done (Sent (Answer (success_status o status) data))
       | _ => Done (handleAxiosError r o)
       end).

(** The routes registered after the admin middleware. *)
Inductive route : Type :=
| GetUsers
| GetUser (id : string)
| PostUsers
| PutUser (id : string)
| PostItems
| PostItemsBatch
| PutItem (id : string).

Definition forward (r : route) (body query : jsval) : prog outgoing result outcome :=
  match r with
  | GetUsers =>
      forwardRequest "get" "/users" body query
        (Options None (Some "Error fetching users") None)
  | GetUser id =>
      forwardRequest "get" ("/users/" +:+ id) body query
        (Options (Some "User not found") (Some "Error fetching user") None)
  | PostUsers =>
      forwardRequest "post" "/users" body query
        (Options None (Some "Error creating user") (Some 201%nat))
  | PutUser id =>
      forwardRequest "put" ("/users/" +:+ id) body query
        (Options (Some "User not found") (Some "Error updating user") None)
  | PostItems =>
      forwardRequest "post" "/items" body query
        (Options None (Some "Error creating item") (Some 201%nat))
  | PostItemsBatch =>
      forwardRequest "post" "/items/batch" body query
        (Options None (Some "Error creating batch items") (Some 201%nat))
  | PutItem id =>
      forwardRequest "put" ("/items/" +:+ id) body query
        (Options (Some "Item not found") (Some "Error updating item") None)
  end.

(** The calls of the gateway: the role lookup of the middleware, then the
    forwarded request. *)
Definition relabel {A : Type} (m : prog outgoing result A)
  : prog (call + outgoing) result A :=
  (fix go (m : prog outgoing result A) : prog (call + outgoing) result A :=
     match m with
     | Done a => Done a
     | Ask c k => Ask (inr c) (fun r => go (k r))
     end) m.

Section Serve.

Variable sha256 : string -> string.
Variable e : env.

(** A request to the gateway: the middleware, then the route. *)
Definition serve (r : route) (req : request) (body query : jsval)
  : prog (call + outgoing) result outcome :=
  (fix after (m : prog (call + outgoing) result Management.verdict)
     : prog (call + outgoing) result outcome :=
     match m with
     | Done Management.Next => relabel (forward r body query)
     | Done (Management.Reply resp) => Done (Sent (to_answer resp))
     | Done Management.Unhandled => Done Hang
     | Ask c k => Ask c (fun x => after (k x))
     end) (lift (Management.authMiddleware sha256 e req)).

End Serve.

End Gateway.

(** ** The SOAP front of [src/items-gateway] *)

Module Soap.

(** The two requests the service sends to the storefront. *)
Inductive request : Type :=
| ItemById (id : jsnum)
| ItemsPage (page limit : inum).

(** What an operation gives back: its result, or the [Fault] it throws. *)
Inductive reply : Type :=
| Returns (value : jsval)
| Fault (faultstring : string) (errorcode : nat).

Definition internal : reply := Fault "Internal server error" 500.

(** The item object both operations build. *)
Definition item_of (d : jsval) : option jsval :=
  match get_field d "id", get_field d "name",
        get_field d "description", get_field d "price" with
  | Some id, Some name, Some description, Some price =>
      Some (JObj [("id", id); ("name", name);
                  ("description", or_else description (JStr ""));
                  ("price", price)])
  | _, _, _, _ => None
  end.

(** [GetItem(args)]. *)
Definition GetItem (args : jsval) : prog request result reply :=
  match get_field args "id" with
  | None => Done internal
  | Some id =>
      match id with
      | JNum n =>
          if negb (truthy id) then Done (Fault "Invalid item ID" 400)
          else
            Ask (ItemById n)
              (fun r =>
                 match r with
                 | Ok _ data =>
                     if negb (truthy data) then Done internal
                     else
                       match item_of data with
                       | Some item => Done (Returns (JObj [("item", item)]))
                       | None => Done internal
                       end
                 | Err status _ =>
                     if Nat.eqb status 404 then Done (Fault "Item not found" 404)
                     else Done internal
                 | NoResponse => Done internal
                 end)
      | _ => Done (Fault "Invalid item ID" 400)
      end
  end.


Section Operations.

(** The engine's [ToString], as in [Adapter.render]. *)
Variable ToString : jsval -> string.


End Operations.

End Soap.

(** ** One service answering another *)

(** A value after [JSON.stringify] and [JSON.parse]: what is not JSON
    becomes [null] inside arrays and is left out of objects. *)
Fixpoint wire (v : jsval) : jsval :=
  match v with
  | JUndefined | JNum NNaN | JNum (NInf _) => JNull
  | JArr items => JArr (map wire items)
  | JObj fields =>
      JObj ((fix props (l : list (string * jsval)) : list (string * jsval) :=
               match l with
               | [] => []
               | (k, x) :: rest =>
                   if defined x then (k, wire x) :: props rest else props rest
               end) fields)
  | _ => v
  end.

(** An answer as [axios] hands it to the caller. *)
Definition as_result (a : answer) : result :=
  if Nat.leb 200 (status_code a) && Nat.ltb (status_code a) 300
  then Ok (status_code a) (wire (content a))
  else Err (status_code a) (wire (content a)).

Section LoginOverHttp.

Variable sha256 : string -> string.
Variable e : env.
Variable ToString : jsval -> string.

(** What the data-access service, over the database [db], answers to a
    request for [/users/validate]; [None] when it never answers. *)
Definition validate_over_http (db : nat -> Adapter.effect -> Adapter.dbreply)
    (sent : outgoing) : option result :=
  match fst (exec db 0 (Adapter.users_validate sha256 e ToString (wire (data sent)))) with
  | Sent a => Some (as_result a)
  | Hang => None
  end.

End LoginOverHttp.

(** No character of the string is a space. *)
Definition no_space (s : string) : Prop :=
  forallb (fun c => negb (Ascii.eqb c " ")) (list_ascii_of_string s) = true.

(** The one answer to a failed credential check. *)
Definition invalid_credentials : outcome :=
  Sent (Answer 401 (error_body "Invalid credentials")).


(** What the data-access service, over the database [db], answers to the
    role lookup of the admin gateway for the user of the [X-User] header;
    [None] when it never answers. *)
Definition role_over_http (db : nat -> Adapter.effect -> Adapter.dbreply)
    (user : option string) : option result :=
  match fst (exec db 0
               (Adapter.user_role (wire (object [("username", Gateway.text user)])))) with
  | Sent a => Some (as_result a)
  | Hang => None
  end.

(** What a storefront, over the data-access service [upstream], answers to
    the SOAP service asking for the item [id]; the request of the SOAP
    service times out when the storefront never answers. *)
Definition item_over_http (ToString : jsval -> string)
    (upstream : nat -> outgoing -> result) (id : jsnum) : result :=
  match fst (exec upstream 0
               (Relay.get_item (Adapter.render ToString (JNum id)))) with
  | Sent a => as_result a
  | Hang => NoResponse
  end.
(** * Properties *)

(** ** The built-ins on known values *)

Example round_double_2p53_1 : round_double (2 ^ 53 + 1) = Some (2 ^ 53).
Proof. vm_compute. reflexivity. Qed.

Example round_double_1e23 :
  round_double (10 ^ 23) = Some 99999999999999991611392.
Proof. vm_compute. reflexivity. Qed.

Example toString_1e21 : Number_toString (10 ^ 21) = "1e+21".
Proof. vm_compute. reflexivity. Qed.

Example toString_1e23 : Number_toString 99999999999999991611392 = "1e+23".
Proof. vm_compute. reflexivity. Qed.

Example toString_2p70 :
  Number_toString (2 ^ 70) = "1.1805916207174113e+21".
Proof. vm_compute. reflexivity. Qed.

Example toString_small : Number_toString (-1204) = "-1204".
Proof. vm_compute. reflexivity. Qed.

Example toString_2p60 : Number_toString (2 ^ 60) = "1152921504606847000".
Proof. vm_compute. reflexivity. Qed.

Example parseInt_examples :
  parseInt "  42px" = NInt 42 /\ parseInt "1.5" = NInt 1 /\
  parseInt "1e3" = NInt 1 /\ parseInt "" = NNaN /\
  parseInt "-7" = NInt (-7) /\ parseInt "0x10" = NInt 0 /\
  parseInt ".5" = NNaN /\ parseInt "9007199254740993" = NInt (2 ^ 53).
Proof. vm_compute. repeat split; reflexivity. Qed.

Example numeric_string_examples :
  map numeric_string
    ["12"; " 12 "; "1.5"; "1e3"; ""; "0x1F"; ".5"; "5."; "-Infinity";
     "abc"; "12px"; "."; "1e"; "+0x10"; "1 2"; "e5"]
  = [true; true; true; true; true; true; true; true; true;
     false; false; false; false; false; false; false].
Proof. vm_compute. reflexivity. Qed.

Example split_examples :
  split " " "Bearer abc" = ["Bearer"; "abc"] /\
  split " " "Bearer" = ["Bearer"] /\
  split " " "Bearer  abc" = ["Bearer"; ""; "abc"] /\
  providedToken "Bearer abc def" = Some "abc" /\
  providedToken "abc" = None.
Proof. vm_compute. repeat split; reflexivity. Qed.

Example toISOString_example :
  toISOString (Date 2024 3 7 9 5 0 42) = "2024-03-07T09:05:00.042Z" /\
  slice_0_10 (toISOString (Date 2024 3 7 9 5 0 42)) = "2024-03-07".
Proof. vm_compute. split; reflexivity. Qed.

(** The scenario of the specification, through the whole gateway: add
    [(1, 2)], list, check out, pay, pay again. *)
Example end_to_end :
  let upstream := fun c =>
    match c with
    | VerifyToken _ _ => Resolved (JObj [("valid", JBool true)])
    | _ => Resolved (JObj [("id", JNum (NInt 1))])
    end in
  let req := Request (Some "Bearer 0123") (Some "alice")
               [("itemId", JNum (NInt 1)); ("quantity", JNum (NInt 2))] in
  let step := fun r st => run upstream (Backend.serve node18 r req) st in
  let (r1, s1) := step Backend.PostCart Backend.init in
  let (r2, s2) := step Backend.GetCartItems s1 in
  let (r3, s3) := step Backend.PostCheckout s2 in
  let (r4, s4) := step Backend.PostPayment s3 in
  let (r5, s5) := step Backend.PostPayment s4 in
  r1 = Response 200
         (Added "Item added to cart" [Line (JNum (NInt 1)) (JNum (NInt 2))]) /\
  r2 = Response 200 (Items [Line (JNum (NInt 1)) (JNum (NInt 2))]) /\
  map status [r3; r4; r5] = [200; 200; 400]%nat /\
  cart node18 s3 "alice" = [] /\ checkout_flag s3 "alice" = true /\
  checkout_flag s4 "alice" = false /\ s5 = s4.
Proof. vm_compute. repeat split; reflexivity. Qed.

(** The four ways the catalog's reply to an add is handled. *)
Ltac case_catalog_reply answer :=
  destruct (answer _) as [?data | ?status];
  [ destruct (truthy _) | destruct (Backend.is_404 _) ].

(** ** Token verification *)

Section TokenVerification.

Variable sha256 : string -> string.
Variable e : env.

Lemma token_matches_iff (provided : option string) (expected : string) :
  token_matches provided expected = true <-> provided = Some expected.
Proof.
  destruct provided as [t|]; simpl.
  - rewrite String.eqb_eq. split; congruence.
  - split; discriminate.
Qed.

Lemma present_Some (h : option string) (s : string) :
  present h = Some s <-> h = Some s /\ s <> "".
Proof.
  unfold present. destruct h as [t|].
  - destruct (String.eqb_spec t ""); split.
    + discriminate.
    + intros [[= ->] Hne]. contradiction.
    + intros [= ->]. auto.
    + intros [[= ->] _]. reflexivity.
  - split; [discriminate | intros [[=] _]].
Qed.

(** The middleware of [Storefront] lets a request through exactly when the
    token it presents is the one derived for its user. *)
Lemma storefront_auth_next (req : request) (authHeader username : string) :
  present (authorization req) = Some authHeader ->
  present (x_user req) = Some username ->
  Storefront.authMiddleware sha256 e req = Storefront.Next username <->
  providedToken authHeader = Some (generateDynamicToken sha256 e (Some username)).
Proof.
  intros Ha Hu. unfold Storefront.authMiddleware. rewrite Ha, Hu.
  rewrite <- token_matches_iff.
  destruct (token_matches _ _); split; congruence.
Qed.

Lemma storefront_auth_reject (req : request) (authHeader username : string) :
  present (authorization req) = Some authHeader ->
  present (x_user req) = Some username ->
  providedToken authHeader <> Some (generateDynamicToken sha256 e (Some username)) ->
  Storefront.authMiddleware sha256 e req =
  Storefront.Reply (Response 403 (Error "Invalid or expired token")).
Proof.
  intros Ha Hu Hne. unfold Storefront.authMiddleware. rewrite Ha, Hu.
  destruct (token_matches _ _) eqn:Hm; [|reflexivity].
  apply token_matches_iff in Hm. contradiction.
Qed.

End TokenVerification.

Lemma mutation_length (s s' : string) :
  mutation s s' -> String.length s = String.length s'.
Proof. induction 1; simpl; congruence. Qed.

Lemma mutation_neq (s s' : string) : mutation s s' -> s <> s'.
Proof. induction 1; congruence. Qed.

(** The first piece of a split is the whole string or a shorter one. *)
Lemma split_head (sep : ascii) (s : string) :
  exists h t, split sep s = h :: t /\
    (h = s \/ (String.length h < String.length s)%nat).
Proof.
  induction s as [|c r IH]; simpl.
  - exists "", []. auto.
  - destruct (Ascii.eqb c sep).
    + exists "", (split sep r). split; [reflexivity|]. right. simpl. lia.
    + destruct IH as (h & t & -> & [-> | Hlt]).
      * exists (String c r), t. auto.
      * exists (String c h), t. split; [reflexivity|]. right. simpl. lia.
Qed.

Lemma providedToken_bearer (t : string) :
  providedToken ("Bearer " +:+ t) = Some t \/
  exists h, providedToken ("Bearer " +:+ t) = Some h /\
            (String.length h < String.length t)%nat.
Proof.
  unfold providedToken.
  change (split " " ("Bearer " +:+ t)) with ("Bearer" :: split " " t).
  destruct (split_head " " t) as (h & tl & -> & [-> | Hlt]); cbn.
  - left. reflexivity.
  - right. exists h. auto.
Qed.

Lemma providedToken_mutation (expected t : string) :
  mutation expected t ->
  providedToken ("Bearer " +:+ t) <> Some expected.
Proof.
  intros Hm.
  destruct (providedToken_bearer t) as [-> | (h & -> & Hlt)].
  - intros [= ->]. exact (mutation_neq _ _ Hm eq_refl).
  - intros [= ->]. apply mutation_length in Hm. lia.
Qed.

(** *** The date a token is derived for *)

Lemma append_String (c : ascii) (a b : string) :
  String c a +:+ b = String c (a +:+ b).
Proof. reflexivity. Qed.

Lemma substring_append (a b : string) (n : nat) :
  substring 0 (String.length a + n) (a +:+ b) = a +:+ substring 0 n b.
Proof.
  induction a as [|c a IH].
  - reflexivity.
  - rewrite !append_String. simpl. rewrite IH. reflexivity.
Qed.

Lemma pad_4_length (y : nat) :
  Z.of_nat y <= 9999 -> String.length (pad 4 y) = 4%nat.
Proof.
  intros Hy.
  assert (Hall : forallb (fun y => Nat.eqb (String.length (pad 4 y)) 4)
                   (seq 0 (Z.to_nat 10000)) = true)
    by (vm_compute; reflexivity).
  rewrite forallb_forall in Hall.
  apply Nat.eqb_eq, Hall, in_seq. lia.
Qed.

Lemma pad_2_length (n : nat) :
  (n <= 99)%nat -> String.length (pad 2 n) = 2%nat.
Proof.
  intros Hn.
  assert (Hall : forallb (fun n => Nat.eqb (String.length (pad 2 n)) 2)
                   (seq 0 100) = true)
    by (vm_compute; reflexivity).
  rewrite forallb_forall in Hall.
  apply Nat.eqb_eq, Hall, in_seq. lia.
Qed.

Lemma append_assoc (a b c : string) : (a +:+ b) +:+ c = a +:+ (b +:+ c).
Proof.
  induction a as [|x a IH]; [reflexivity|].
  rewrite !append_String, IH. reflexivity.
Qed.

Lemma append_empty (a : string) : a +:+ "" = a.
Proof.
  induction a as [|x a IH]; [reflexivity|].
  rewrite append_String, IH. reflexivity.
Qed.

Lemma length_append (a b : string) :
  String.length (a +:+ b) = (String.length a + String.length b)%nat.
Proof.
  induction a as [|x a IH]; [reflexivity|].
  rewrite append_String. simpl. rewrite IH. reflexivity.
Qed.

Lemma substring_prefix (a b : string) :
  substring 0 (String.length a) (a +:+ b) = a.
Proof.
  rewrite <- (Nat.add_0_r (String.length a)), substring_append.
  destruct b; simpl; apply append_empty.
Qed.

(** Within the four-digit years the date that enters the token is the UTC
    calendar day, [YYYY-MM-DD]. *)
Lemma currentDate_calendar (e : env) :
  Z.of_nat (year (now e)) <= 9999 ->
  (month (now e) <= 99)%nat -> (day (now e) <= 99)%nat ->
  currentDate e = calendar_date (now e).
Proof.
  intros Hy Hm Hd.
  unfold currentDate, slice_0_10, toISOString.
  destruct (Z.leb_spec (Z.of_nat (year (now e))) 9999) as [_|]; [|lia].
  set (rest := "T" +:+ _).
  replace (pad 4 _ +:+ _) with (calendar_date (now e) +:+ rest)
    by (unfold calendar_date; rewrite !append_assoc; reflexivity).
  replace 10%nat with (String.length (calendar_date (now e))).
  - apply substring_prefix.
  - unfold calendar_date. rewrite !length_append.
    rewrite (pad_4_length _ Hy), (pad_2_length _ Hm), (pad_2_length _ Hd).
    reflexivity.
Qed.

(** Claim C1.  For a request that carries both headers, the storefront
    middleware lets it through exactly when the token it presents equals
    [sha256(identity + currentDate + secret)]; every other token, and in
    particular every one-character mutation of the derived token, is
    answered with the 403 reply (the middleware is a total function: it
    never fails); within the four-digit years [currentDate] is the UTC
    calendar day written [YYYY-MM-DD]. *)
Theorem storefront_token_verification
    (sha256 : string -> string) (e : env) (req : request)
    (authHeader username : string) :
  present (authorization req) = Some authHeader ->
  present (x_user req) = Some username ->
  let derived := sha256 (username +:+ currentDate e +:+ secret e) in
  (Storefront.authMiddleware sha256 e req = Storefront.Next username <->
   providedToken authHeader = Some derived) /\
  (providedToken authHeader <> Some derived ->
   Storefront.authMiddleware sha256 e req =
   Storefront.Reply (Response 403 (Error "Invalid or expired token"))) /\
  (forall t, mutation derived t -> authHeader = "Bearer " +:+ t ->
   Storefront.authMiddleware sha256 e req =
   Storefront.Reply (Response 403 (Error "Invalid or expired token"))) /\
  (Z.of_nat (year (now e)) <= 9999 ->
   (month (now e) <= 99)%nat -> (day (now e) <= 99)%nat ->
   currentDate e = calendar_date (now e)).
Proof.
  intros Ha Hu derived. repeat split.
  - apply (storefront_auth_next sha256 e req authHeader username Ha Hu).
  - apply (storefront_auth_next sha256 e req authHeader username Ha Hu).
  - apply (storefront_auth_reject sha256 e req authHeader username Ha Hu).
  - intros t Hm ->.
    apply (storefront_auth_reject sha256 e req _ username Ha Hu).
    apply providedToken_mutation, Hm.
  - apply currentDate_calendar.
Qed.

Lemma storefront_token_verification_witness :
  let e := Env None (Date 2024 3 7 9 5 0 42) in
  let req := Request (Some "Bearer alice2024-03-07default_secret")
               (Some "alice") [] in
  present (authorization req) = Some "Bearer alice2024-03-07default_secret" /\
  present (x_user req) = Some "alice" /\
  Storefront.authMiddleware (fun s => s) e req = Storefront.Next "alice".
Proof.
  intros e req. split; [reflexivity|]. split; [reflexivity|].
  apply (storefront_token_verification (fun s => s) e req
           "Bearer alice2024-03-07default_secret" "alice");
    reflexivity.
Defined.


(** ** Plain objects used as maps *)

Section Objects.

Context {A : Type}.
Variable Array_prototype : string -> option nat.

Lemma proto_name (k : string) : String.eqb k "__proto__" = false <-> k <> "__proto__".
Proof.
  destruct (String.eqb_spec k "__proto__"); split; congruence.
Qed.

Lemma lookup_assign (o : Globals.store A) (k : string) (v : Globals.value A) :
  k <> "__proto__" -> Globals.lookup Array_prototype (Globals.assign o k v) k = v.
Proof.
  intros Hk. apply proto_name in Hk.
  unfold Globals.lookup, Globals.assign. rewrite Hk. cbn.
  rewrite lookup_insert_eq. reflexivity.
Qed.

Lemma lookup_assign_ne (o : Globals.store A) (k k' : string) (v : Globals.value A) :
  k <> k' -> k <> "__proto__" ->
  Globals.lookup Array_prototype (Globals.assign o k v) k' = Globals.lookup Array_prototype o k'.
Proof.
  intros Hne Hk. apply proto_name in Hk.
  unfold Globals.lookup, Globals.assign. rewrite Hk. cbn.
  rewrite lookup_insert_ne by exact Hne. reflexivity.
Qed.

Lemma lookup_mutate (o : Globals.store A) (k : string) (lines : list (line A)) :
  Globals.lookup Array_prototype (Globals.mutate o k lines) k = Globals.Array lines.
Proof.
  unfold Globals.mutate. destruct (String.eqb_spec k "__proto__") as [->|Hk].
  - reflexivity.
  - apply lookup_assign, Hk.
Qed.

Lemma lookup_own (o : Globals.store A) (k : string) (v : Globals.value A) :
  k <> "__proto__" -> Globals.own o !! k = Some v -> Globals.lookup Array_prototype o k = v.
Proof.
  intros Hk Hv. apply proto_name in Hk.
  unfold Globals.lookup. rewrite Hk, Hv. reflexivity.
Qed.

(** Assigning twice under one name is assigning the second value. *)
Lemma mutate_assign (o : Globals.store A) (k : string) (v : Globals.value A)
    (lines : list (line A)) :
  (k = "__proto__" -> exists P, v = Globals.Array P \/ v = Globals.ObjectPrototype) ->
  Globals.mutate (Globals.assign o k v) k lines = Globals.mutate o k lines.
Proof.
  intros Hv. unfold Globals.mutate, Globals.assign.
  destruct (String.eqb_spec k "__proto__") as [->|Hk].
  - destruct (Hv eq_refl) as [P [-> | ->]]; [reflexivity|]. destruct o; reflexivity.
  - cbn. rewrite insert_insert_eq. reflexivity.
Qed.

(** [v || []] is an array exactly when [v] is one or is falsy. *)
Lemma or_empty_array (v : Globals.value A) (lines : list (line A)) :
  Globals.or_empty v = Globals.Array lines <->
  v = Globals.Array lines \/ (Globals.to_boolean v = false /\ lines = []).
Proof.
  unfold Globals.or_empty. split.
  - destruct v as [|l|n|[|n]|l|]; cbn; intros H; try discriminate;
      try (injection H as <-); auto.
  - intros [-> | [Hf ->]]; [reflexivity|]. rewrite Hf. reflexivity.
Qed.

(** What [global.carts['__proto__']] can be. *)
Lemma lookup_proto (o : Globals.store A) :
  exists P, Globals.lookup Array_prototype o "__proto__" = Globals.Array P \/
            Globals.lookup Array_prototype o "__proto__" = Globals.ObjectPrototype.
Proof.
  unfold Globals.lookup. cbn. destruct (Globals.proto o) as [P|].
  - exists P. auto.
  - exists []. auto.
Qed.

(** The three statements of an add, when [global.carts[k] || []] is an
    array. *)
Lemma append_array (carts : option (Globals.store A)) (k : string) (l : line A)
    (lines : list (line A)) :
  Globals.or_empty
    (Globals.lookup Array_prototype (default Globals.empty carts) k)
  = Globals.Array lines ->
  Globals.append Array_prototype carts k l =
  (Globals.mutate (default Globals.empty carts) k (lines ++ [l])%list,
   Some (lines ++ [l])%list).
Proof.
  intros H. unfold Globals.append. cbv zeta. rewrite H.
  rewrite mutate_assign; [reflexivity|].
  intros ->. exists lines. auto.
Qed.

(** ... and when it is not: the assignment is made and [push] throws. *)
Lemma append_throws (carts : option (Globals.store A)) (k : string) (l : line A) :
  (forall lines,
     Globals.or_empty
       (Globals.lookup Array_prototype (default Globals.empty carts) k)
     <> Globals.Array lines) ->
  Globals.append Array_prototype carts k l =
  (Globals.assign (default Globals.empty carts) k
     (Globals.lookup Array_prototype (default Globals.empty carts) k), None).
Proof.
  intros H. unfold Globals.append. cbv zeta.
  destruct (Globals.or_empty _) as [|lines|n|n|x|] eqn:Ho;
    try (exfalso; exact (H _ eq_refl));
    unfold Globals.or_empty in Ho;
    destruct (Globals.to_boolean _); try discriminate; rewrite Ho; reflexivity.
Qed.

Lemma append_Some (carts : option (Globals.store A)) (k : string) (l : line A)
    (o : Globals.store A) (cart : list (line A)) :
  Globals.append Array_prototype carts k l = (o, Some cart) ->
  exists lines,
    Globals.or_empty
      (Globals.lookup Array_prototype (default Globals.empty carts) k)
    = Globals.Array lines /\
    cart = (lines ++ [l])%list /\
    o = Globals.mutate (default Globals.empty carts) k (lines ++ [l])%list.
Proof.
  intros H.
  destruct (Globals.or_empty (Globals.lookup Array_prototype (default Globals.empty carts) k))
    as [|lines|n|n|x|] eqn:Ho;
    try (rewrite append_throws in H by (intros lines'; rewrite Ho; discriminate);
         discriminate).
  rewrite (append_array _ _ _ lines Ho) in H. injection H as <- <-.
  exists lines. auto.
Qed.

End Objects.

(** ** Checkout and payment *)

Section Checkout.

Variable Array_prototype : string -> option nat.

(** An array among the entries means the store exists. *)
Lemma entry_array_store (st : Backend.state) (u : string) (lines : list (line Z)) :
  entry Array_prototype st u = Globals.Array lines ->
  exists o, Backend.carts st = Some o /\
            Globals.lookup Array_prototype o u = Globals.Array lines.
Proof.
  unfold entry. destruct (Backend.carts st) as [o|];
    [intros H; exists o; split; [reflexivity | exact H]|].
  unfold Globals.lookup. cbn.
  destruct (String.eqb u "__proto__"); [discriminate|].
  rewrite lookup_empty. unfold Globals.from_Object_prototype.
  destruct (Globals.inherited_function u); discriminate.
Qed.


Lemma checkout_nonempty (st : Backend.state) (u : string)
    (x : line Z) (rest : list (line Z)) :
  entry Array_prototype st u = Globals.Array (x :: rest) ->
  exists o,
    Backend.carts st = Some o /\
    Backend.post_checkout Array_prototype u st =
    (Response 200 (Message "Checkout successful. Ready for payment."),
     Backend.State (Some (Globals.assign o u (Globals.Array [])))
       (Backend.set_flag u true (Backend.checkoutCompleted st))).
Proof.
  intros H. destruct (entry_array_store st u _ H) as (o & Ho & Hl).
  exists o. split; [exact Ho|].
  unfold Backend.post_checkout, Globals.nothing_to_check_out.
  rewrite Ho, Hl. reflexivity.
Qed.

Lemma set_flag_lookup (u : string) (b : bool) (flags : gmap string bool) :
  u <> "__proto__" -> Backend.set_flag u b flags !! u = Some b.
Proof.
  intros Hu. apply proto_name in Hu. unfold Backend.set_flag. rewrite Hu.
  apply lookup_insert_eq.
Qed.


End Checkout.




(** For a user name under which [global.checkoutCompleted] inherits
    nothing, what payment reads is the flag the handlers stored. *)
Lemma flag_ordinary (st : Backend.state) (u : string) :
  ordinary u = true -> Backend.flag st u = checkout_flag st u.
Proof.
  unfold ordinary, Backend.flag, checkout_flag.
  destruct (String.eqb u "__proto__"); [discriminate|].
  destruct (Globals.inherited_function u); [discriminate|]. intros _.
  destruct (Backend.checkoutCompleted st !! u); reflexivity.
Qed.

Lemma ordinary_not_proto (u : string) : ordinary u = true -> u <> "__proto__".
Proof.
  unfold ordinary. destruct (String.eqb_spec u "__proto__"); [discriminate|auto].
Qed.

Lemma payment_refused (st : Backend.state) (u : string) :
  Backend.flag st u = false ->
  Backend.post_payment u st =
  (Response 400 (Error "Checkout not completed"), st).
Proof. unfold Backend.post_payment. intros ->. reflexivity. Qed.

Lemma payment_accepted (st : Backend.state) (u : string) :
  Backend.flag st u = true ->
  Backend.post_payment u st =
  (Response 200 (Message "Payment successful"),
   Backend.State (Backend.carts st)
     (Backend.set_flag u false (Backend.checkoutCompleted st))).
Proof. unfold Backend.post_payment. intros ->. reflexivity. Qed.

(** Payment before any checkout: the storefront of [part_004] accepts it
    for everybody, and the other storefront accepts it for a user called
    [toString], under whose name [global.checkoutCompleted] inherits a
    function. *)
Lemma payment_without_checkout :
  Storefront.post_payment "alice" Storefront.init =
  (Response 200 (Message "Payment processed successfully (simulated)."),
   Storefront.init) /\
  checkout_flag Backend.init "toString" = false /\
  fst (Backend.post_payment "toString" Backend.init) =
  Response 200 (Message "Payment successful").
Proof. vm_compute. repeat split; reflexivity. Qed.

(** Claim C3, as the code has it.  In the storefront that keeps the flag,
    for an identity whose name is not the name of an inherited property,
    payment is refused with the 400 reply exactly when the Checkout Flag is
    false, and then changes nothing; otherwise it is answered 200 and
    clears the flag, whatever else the state holds.  Hence payment in the
    initial state is refused, and after a successful checkout the first
    payment succeeds and the one that follows it is refused.  The
    storefront of [part_004] has no flag: its payment is answered 200 in
    every state and changes nothing. *)
Theorem payment_requires_checkout (u : string) :
  ordinary u = true ->
  (forall st, status (fst (Backend.post_payment u st)) = 400%nat <->
              checkout_flag st u = false) /\
  (forall st, checkout_flag st u = false ->
     Backend.post_payment u st =
     (Response 400 (Error "Checkout not completed"), st)) /\
  (forall st, checkout_flag st u = true ->
     let (resp, st') := Backend.post_payment u st in
     resp = Response 200 (Message "Payment successful") /\
     checkout_flag st' u = false /\
     Backend.carts st' = Backend.carts st) /\
  Backend.post_payment u Backend.init =
  (Response 400 (Error "Checkout not completed"), Backend.init) /\
  (forall Array_prototype st x rest,
     entry Array_prototype st u = Globals.Array (x :: rest) ->
     let st1 := snd (Backend.post_checkout Array_prototype u st) in
     let (first, st2) := Backend.post_payment u st1 in
     let (second, st3) := Backend.post_payment u st2 in
     first = Response 200 (Message "Payment successful") /\
     second = Response 400 (Error "Checkout not completed") /\ st3 = st2) /\
  (forall st,
     Storefront.post_payment u st =
     (Response 200 (Message "Payment processed successfully (simulated)."), st)).
Proof.
  intros Hord. pose proof (ordinary_not_proto u Hord) as Hu.
  split; [|split; [|split; [|split; [|split]]]].
  - intros st. rewrite <- (flag_ordinary st u Hord).
    destruct (Backend.flag st u) eqn:Hf.
    + rewrite (payment_accepted st u Hf). simpl. split; discriminate.
    + rewrite (payment_refused st u Hf). simpl. split; reflexivity.
  - intros st Hf. apply payment_refused. rewrite flag_ordinary; assumption.
  - intros st Hf. rewrite payment_accepted by (rewrite flag_ordinary; assumption).
    unfold checkout_flag. cbn. rewrite set_flag_lookup by exact Hu. auto.
  - apply payment_refused. rewrite flag_ordinary by exact Hord. reflexivity.
  - intros Array_prototype st x rest H.
    destruct (checkout_nonempty Array_prototype st u x rest H) as (o & Ho & ->).
    cbn [snd].
    rewrite payment_accepted
      by (rewrite flag_ordinary by exact Hord; unfold checkout_flag; cbn;
          rewrite set_flag_lookup by exact Hu; reflexivity).
    rewrite payment_refused
      by (rewrite flag_ordinary by exact Hord; unfold checkout_flag; cbn;
          rewrite set_flag_lookup by exact Hu; reflexivity).
    auto.
  - reflexivity.
Qed.

Lemma payment_requires_checkout_witness :
  let st := Backend.State
              (Some (Globals.Store {[ "alice" := Globals.Array [Line 1 2] ]} None))
              ∅ in
  ordinary "alice" = true /\
  entry node18 st "alice" = Globals.Array [Line 1 2] /\
  let st1 := snd (Backend.post_checkout node18 "alice" st) in
  let (first, st2) := Backend.post_payment "alice" st1 in
  let (second, st3) := Backend.post_payment "alice" st2 in
  first = Response 200 (Message "Payment successful") /\
  second = Response 400 (Error "Checkout not completed") /\ st3 = st2.
Proof.
  intros st.
  assert (Hord : ordinary "alice" = true) by reflexivity.
  assert (H : entry node18 st "alice" = Globals.Array [Line 1 2])
    by (vm_compute; reflexivity).
  split; [exact Hord|]. split; [exact H|].
  exact (proj1 (proj2 (proj2 (proj2 (proj2
           (payment_requires_checkout "alice" Hord))))) node18 st _ _ H).
Defined.

(** ** Per-identity frame *)

Section Frame.

Variable Array_prototype : string -> option nat.

Lemma same_for_refl (v : string) (st : Backend.state) :
  same_for Array_prototype v st st.
Proof. repeat split. Qed.

Lemma set_flag_other (u v : string) (b : bool) (flags : gmap string bool) :
  u <> v -> Backend.set_flag u b flags !! v = flags !! v.
Proof.
  intros Hne. unfold Backend.set_flag.
  destruct (String.eqb u "__proto__"); [reflexivity|].
  apply lookup_insert_ne, Hne.
Qed.

(** A change of the flag of [u] and of what [global.carts] holds under the
    name [u], other than [__proto__], is not seen under another name. *)
Lemma same_for_assign (u v : string) (st : Backend.state)
    (x : Globals.value Z) (flags : gmap string bool) :
  u <> v -> u <> "__proto__" ->
  (forall w, w <> u -> flags !! w = Backend.checkoutCompleted st !! w) ->
  same_for Array_prototype v st
    (Backend.State
       (Some (Globals.assign (default Globals.empty (Backend.carts st)) u x))
       flags).
Proof.
  intros Hne Hu Hflags. unfold same_for, entry, Backend.flag, checkout_flag.
  cbn. rewrite (Hflags v) by congruence.
  rewrite lookup_assign_ne by assumption. auto.
Qed.

Lemma same_for_flags (u v : string) (st : Backend.state) (b : bool) :
  u <> v ->
  same_for Array_prototype v st
    (Backend.State (Backend.carts st)
       (Backend.set_flag u b (Backend.checkoutCompleted st))).
Proof.
  intros Hne. unfold same_for, entry, Backend.flag, checkout_flag. cbn.
  rewrite set_flag_other by exact Hne. auto.
Qed.

Lemma push_frame (u v : string) (l : line Z) (st : Backend.state) :
  u <> v -> u <> "__proto__" ->
  same_for Array_prototype v st (fst (Backend.push Array_prototype u l st)).
Proof.
  intros Hne Hu. unfold Backend.push.
  destruct (Globals.append Array_prototype (Backend.carts st) u l)
    as [o [cart|]] eqn:Ha; cbn [fst].
  - apply append_Some in Ha as (lines & _ & _ & ->).
    apply (same_for_assign u v st); auto.
  - destruct (Globals.or_empty
                (Globals.lookup Array_prototype
                   (default Globals.empty (Backend.carts st)) u))
      as [|lines|n|n|x|] eqn:Ho;
      try (rewrite append_throws in Ha
             by (intros lines'; rewrite Ho; discriminate);
           injection Ha as <-; apply (same_for_assign u v st); auto).
    rewrite (append_array _ _ _ _ lines Ho) in Ha. discriminate.
Qed.

Lemma post_cart_frame (u v : string) (req : request)
    (answer : call -> reply) (st : Backend.state) :
  u <> v -> u <> "__proto__" ->
  same_for Array_prototype v st
    (snd (run answer (Backend.post_cart Array_prototype u req) st)).
Proof.
  intros Hne Hu. unfold Backend.post_cart.
  destruct (negb _ || negb _); [apply same_for_refl|].
  destruct (Backend.positive_integer _) as [i|]; [|apply same_for_refl].
  destruct (Backend.positive_integer _) as [q|]; [|apply same_for_refl].
  cbn [run].
  case_catalog_reply answer; try apply same_for_refl.
  cbn [run]. cbv beta.
  pose proof (push_frame u v (Line i q) st Hne Hu) as H.
  destruct (Backend.push Array_prototype u (Line i q) st) as [st' [cart|]];
    exact H.
Qed.

Lemma get_cart_items_state (u : string) (st : Backend.state) :
  snd (Backend.get_cart_items Array_prototype u st) = st.
Proof.
  unfold Backend.get_cart_items. destruct (Backend.carts st); [|reflexivity].
  destruct (Backend.cart_array _ _ _); reflexivity.
Qed.

Lemma delete_cart_items_frame (u v : string) (req : request) (st : Backend.state) :
  u <> v -> u <> "__proto__" ->
  same_for Array_prototype v st
    (snd (Backend.delete_cart_items Array_prototype u req st)).
Proof.
  intros Hne Hu. unfold Backend.delete_cart_items.
  destruct (Backend.positive_integer _) as [i|]; [|apply same_for_refl].
  destruct (Backend.carts st) as [o|] eqn:Ho; [|apply same_for_refl].
  destruct (Backend.cart_array _ _ _) as [cart|]; [|apply same_for_refl].
  destruct (Backend.findIndex _ _) as [k|]; [|apply same_for_refl].
  cbn [snd]. unfold Globals.mutate.
  pose proof (same_for_assign u v st (Globals.Array (delete k cart))
                (Backend.checkoutCompleted st) Hne Hu (fun _ _ => eq_refl)) as H.
  rewrite Ho in H. exact H.
Qed.

Lemma post_checkout_frame (u v : string) (st : Backend.state) :
  u <> v -> u <> "__proto__" ->
  same_for Array_prototype v st
    (snd (Backend.post_checkout Array_prototype u st)).
Proof.
  intros Hne Hu. unfold Backend.post_checkout.
  destruct (Backend.carts st) as [o|] eqn:Ho; [|apply same_for_refl].
  destruct (Globals.nothing_to_check_out _ _ _); [apply same_for_refl|].
  cbn [snd].
  pose proof (same_for_assign u v st (Globals.Array [])
                (Backend.set_flag u true (Backend.checkoutCompleted st)) Hne Hu) as H.
  rewrite Ho in H. apply H.
  intros w Hw. apply set_flag_other. congruence.
Qed.

Lemma post_payment_frame (u v : string) (st : Backend.state) :
  u <> v ->
  same_for Array_prototype v st (snd (Backend.post_payment u st)).
Proof.
  intros Hne. unfold Backend.post_payment.
  destruct (negb _); [apply same_for_refl|].
  apply same_for_flags, Hne.
Qed.

Lemma serve_cases (r : Backend.route) (req : request)
    (answer : call -> reply) (st : Backend.state) :
  run answer (Backend.serve Array_prototype r req) st =
  match run answer (Backend.authMiddleware req) with
  | Backend.Reply resp => (resp, st)
  | Backend.Next username =>
      run answer (Backend.handler Array_prototype r username req) st
  end.
Proof.
  unfold Backend.serve, Backend.authMiddleware.
  destruct (present (authorization req)) as [a|]; [|reflexivity].
  destruct (present (x_user req)) as [u|]; [|reflexivity].
  cbn [bind run]. destruct (answer _) as [data|status]; [|reflexivity].
  destruct (get_field data "valid") as [valid|]; [|reflexivity].
  destruct (truthy valid); reflexivity.
Qed.

Lemma auth_next_user (req : request) (answer : call -> reply) (u : string) :
  run answer (Backend.authMiddleware req) = Backend.Next u ->
  present (x_user req) = Some u.
Proof.
  unfold Backend.authMiddleware.
  destruct (present (authorization req)) as [a|]; [|discriminate].
  destruct (present (x_user req)) as [w|]; [|discriminate].
  cbn [run]. destruct (answer _) as [data|status]; [|discriminate].
  destruct (get_field data "valid") as [valid|]; [|discriminate].
  destruct (truthy valid); [|discriminate].
  simpl. congruence.
Qed.

Lemma handler_frame (r : Backend.route) (u v : string) (req : request)
    (answer : call -> reply) (st : Backend.state) :
  u <> v -> u <> "__proto__" ->
  same_for Array_prototype v st
    (snd (run answer (Backend.handler Array_prototype r u req) st)).
Proof.
  intros Hne Hu. destruct r; cbn [Backend.handler run].
  - apply post_cart_frame; assumption.
  - rewrite get_cart_items_state. apply same_for_refl.
  - apply delete_cart_items_frame; assumption.
  - apply post_checkout_frame; assumption.
  - apply post_payment_frame; assumption.
Qed.

End Frame.

(** Claim C10, where it holds and where it fails.  An operation performed
    for an identity [u] other than [__proto__] leaves what the store holds
    for any other identity [v] as it was, whatever it is answered and
    whatever the catalog replies: the value [global.carts] gives under the
    name [v], the flag stored for [v] and what payment reads for [v]; this
    also holds of whole requests, whose identity is the [X-User] header.
    A checkout for the identity [__proto__] replaces the prototype of
    [global.carts] by an empty array, and with it what [global.carts]
    gives under names that are not its own properties: the checkout of a
    user called [map], refused before, is accepted afterwards. *)
Theorem other_identities_untouched (Array_prototype : string -> option nat)
    (u v : string) (Hne : u <> v) :
  (forall (r : Backend.route) (req : request) (answer : call -> reply)
          (st : Backend.state),
     u <> "__proto__" ->
     same_for Array_prototype v st
       (snd (run answer (Backend.handler Array_prototype r u req) st))) /\
  (forall (r : Backend.route) (req : request) (answer : call -> reply)
          (st : Backend.state),
     x_user req = Some u -> u <> "__proto__" ->
     same_for Array_prototype v st
       (snd (run answer (Backend.serve Array_prototype r req) st))) /\
  (forall (st : Backend.state) (o : Globals.store Z),
     Array_prototype "map" = Some 1%nat ->
     Backend.carts st = Some o ->
     Globals.proto o = None -> Globals.own o !! "map" = None ->
     let st' := snd (Backend.post_checkout Array_prototype "__proto__" st) in
     fst (Backend.post_checkout Array_prototype "__proto__" st) =
     Response 200 (Message "Checkout successful. Ready for payment.") /\
     entry Array_prototype st "map" = Globals.Undefined /\
     entry Array_prototype st' "map" = Globals.Function 1 /\
     fst (Backend.post_checkout Array_prototype "map" st) =
     Response 400 (Error "Cart is empty") /\
     fst (Backend.post_checkout Array_prototype "map" st') =
     Response 200 (Message "Checkout successful. Ready for payment.")).
Proof.
  split; [|split].
  - intros r req answer st Hu. apply handler_frame; assumption.
  - intros r req answer st Hx Hu. rewrite serve_cases.
    destruct (run answer (Backend.authMiddleware req)) as [w|resp] eqn:Ha;
      [|apply same_for_refl].
    apply auth_next_user in Ha. apply present_Some in Ha as [Hw _].
    assert (w = u) as -> by congruence. apply handler_frame; assumption.
  - intros st o Hmap Ho Hp Hown.
    unfold Backend.post_checkout, Globals.nothing_to_check_out, entry.
    rewrite Ho. unfold Globals.lookup. cbn. rewrite Hp, Hown. cbn.
    rewrite Hown, Hmap. cbn. auto.
Qed.

Lemma other_identities_untouched_witness :
  let st := Backend.State
              (Some (Globals.Store {[ "bob" := Globals.Array [Line 7 1] ]} None))
              {[ "bob" := true ]} in
  let st' := snd (Backend.post_checkout node18 "alice"
                    (fst (Backend.push node18 "alice" (Line 1 2) st))) in
  "alice" <> "bob" /\
  entry node18 st' "bob" = Globals.Array [Line 7 1] /\
  checkout_flag st' "bob" = true.
Proof.
  intros st st'.
  assert (Hne : "alice" <> "bob") by discriminate.
  split; [exact Hne|].
  destruct (proj1 (other_identities_untouched node18 "alice" "bob" Hne)
              Backend.PostCheckout (Request None None []) (fun _ => Rejected None)
              (fst (Backend.push node18 "alice" (Line 1 2) st)))
    as (He & _ & Hf); [discriminate|].
  split.
  - refine (eq_trans He _). vm_compute. reflexivity.
  - refine (eq_trans Hf _). vm_compute. reflexivity.
Defined.

(** The failing input of C10 on the engine of the Dockerfile: after an add
    by [alice], a checkout as [__proto__] turns the answer to a checkout as
    [map] from 400 into 200. *)
Example checkout_as_proto :
  let st := Backend.State
              (Some (Globals.Store {[ "alice" := Globals.Array [Line 1 2] ]} None))
              ∅ in
  let st' := snd (Backend.post_checkout node18 "__proto__" st) in
  status (fst (Backend.post_checkout node18 "__proto__" st)) = 200%nat /\
  status (fst (Backend.post_checkout node18 "map" st)) = 400%nat /\
  status (fst (Backend.post_checkout node18 "map" st')) = 200%nat /\
  entry node18 st' "alice" = Globals.Array [Line 1 2].
Proof. vm_compute. repeat split; reflexivity. Qed.

(** ** Numbers read from text *)

Lemma digits_prefix_string_of_uint (d : Decimal.uint) :
  digits_prefix (NilEmpty.string_of_uint d) = d.
Proof. induction d; simpl; congruence. Qed.

Lemma string_of_uint_head (d : Decimal.uint) :
  d <> Decimal.Nil ->
  exists c r, NilEmpty.string_of_uint d = String c r /\
    is_ws c = false /\ c <> "-"%char /\ c <> "+"%char.
Proof.
  destruct d; [congruence|..]; intros _; simpl;
    eexists _, _; (split; [reflexivity|]); repeat split; discriminate.
Qed.

Lemma to_uint_not_Nil (n : N) : N.to_uint n <> Decimal.Nil.
Proof.
  destruct n as [|p]; [discriminate|]. simpl.
  intros H. apply (f_equal Pos.of_uint) in H.
  rewrite DecimalPos.Unsigned.of_to in H. discriminate.
Qed.

Lemma parseInt_unsigned (c : ascii) (r : string) :
  is_ws c = false -> c <> "-"%char -> c <> "+"%char ->
  digits_prefix (String c r) <> Decimal.Nil ->
  parseInt (String c r) =
  match round_double (Z.of_uint (digits_prefix (String c r))) with
  | Some v => NInt v
  | None => NInf false
  end.
Proof.
  intros Hw Hm Hp Hnil. unfold parseInt. cbn [trim_start]. rewrite Hw.
  assert (Hsign : (match String c r with
                   | String "-" r' => (true, r')
                   | String "+" r' => (false, r')
                   | _ => (false, String c r)
                   end) = (false, String c r)).
  { destruct c as [[] [] [] [] [] [] [] []]; try reflexivity; congruence. }
  rewrite Hsign.
  destruct (digits_prefix (String c r)); [congruence|..]; reflexivity.
Qed.

Lemma decimal_NilEmpty (z : Z) :
  decimal z = NilEmpty.string_of_uint (N.to_uint (Z.to_N z)).
Proof.
  unfold decimal, NilZero.string_of_uint.
  pose proof (to_uint_not_Nil (Z.to_N z)) as Hnil.
  destruct (N.to_uint (Z.to_N z)); [congruence|..]; reflexivity.
Qed.

(** Reading back a decimal rendering. *)
Lemma parseInt_decimal (z : Z) :
  0 < z ->
  parseInt (decimal z) =
  match round_double z with
  | Some v => NInt v
  | None => NInf false
  end.
Proof.
  intros Hz. rewrite decimal_NilEmpty.
  pose proof (to_uint_not_Nil (Z.to_N z)) as Hnil.
  destruct (string_of_uint_head _ Hnil) as (c & r & Hcr & Hw & Hm & Hp).
  pose proof (digits_prefix_string_of_uint (N.to_uint (Z.to_N z))) as Hdp.
  rewrite Hcr in *.
  rewrite (parseInt_unsigned c r Hw Hm Hp) by (rewrite Hdp; exact Hnil).
  rewrite Hdp.
  assert (Hv : Z.of_uint (N.to_uint (Z.to_N z)) = z).
  { unfold Z.of_uint.
    change (Pos.of_uint (N.to_uint (Z.to_N z)))
      with (N.of_uint (N.to_uint (Z.to_N z))).
    rewrite DecimalN.Unsigned.of_to. lia. }
  rewrite Hv. reflexivity.
Qed.

Lemma round_trips_true (a v : Z) :
  round_trips a v = true -> round_double v = Some a.
Proof.
  unfold round_trips. destruct (round_double v) as [x|]; [|discriminate].
  intros H. apply Z.eqb_eq in H. congruence.
Qed.

(** The shortest decimal of a double reads back as the double. *)
Lemma shortest_from_round_trips (a len : Z) (ks : list nat) :
  round_double a = Some a ->
  round_double (shortest_from a len ks) = Some a.
Proof.
  intros Ha. induction ks as [|k ks IH]; simpl; [exact Ha|].
  set (p := 10 ^ (len - Z.of_nat k)).
  destruct (round_trips a (a / p * p)) eqn:Hlo;
    destruct (round_trips a (a / p * p + p)) eqn:Hhi;
    try (apply round_trips_true; assumption); [|exact IH].
  repeat match goal with |- context [if ?b then _ else _] => destruct b end;
    apply round_trips_true; assumption.
Qed.

Lemma parseInt_number_plain (z : Z) :
  0 < z < 10 ^ 21 -> round_double z = Some z ->
  Backend.parseInt_number z = JNum (NInt z).
Proof.
  intros [Hz Hlt] Hd. unfold Backend.parseInt_number, Number_toString.
  destruct (Z.ltb_spec z 0); [lia|].
  rewrite Z.abs_eq by lia.
  destruct (Z.ltb_spec z (10 ^ 21)); [|lia].
  change ("" +:+ ?s) with s.
  pose proof (shortest_from_round_trips z
                (Z.of_nat (String.length (decimal z))) (seq 1 17) Hd) as Hs.
  fold (shortest_decimal z) in Hs.
  assert (Hpos : 0 < shortest_decimal z).
  { destruct (Z.lt_ge_cases 0 (shortest_decimal z)) as [|Hle]; [assumption|].
    unfold round_double in Hs.
    destruct (Z.ltb_spec (shortest_decimal z) (2 ^ 53)) as [|Hge].
    - injection Hs as Hs. lia.
    - assert (0 < 2 ^ 53) by reflexivity. lia. }
  rewrite (parseInt_decimal _ Hpos), Hs. reflexivity.
Qed.

(** *** Which strings are numbers *)













(** *** Which strings are not *)













(** ** Adding to the cart *)

Lemma positive_integer_Some (v : jsval) (z : Z) :
  Backend.positive_integer v = Some z <-> v = JNum (NInt z) /\ 0 < z.
Proof.
  unfold Backend.positive_integer. split.
  - destruct v as [| |b|[n| | |]|s|l|f]; try discriminate.
    destruct (Z.leb_spec n 0); [discriminate|].
    intros [= ->]. auto.
  - intros [-> Hz]. destruct (Z.leb_spec z 0); [lia|reflexivity].
Qed.



Section Add.

Variable Array_prototype : string -> option nat.

(** The three statements of the add, when [global.carts[u] || []] is an
    array. *)
Lemma push_array (u : string) (l : line Z) (st : Backend.state)
    (lines : list (line Z)) :
  entry Array_prototype st u = Globals.Array lines \/
  (Globals.to_boolean (entry Array_prototype st u) = false /\ lines = []) ->
  Backend.push Array_prototype u l st =
  (Backend.State
     (Some (Globals.mutate (default Globals.empty (Backend.carts st)) u
              (lines ++ [l])%list))
     (Backend.checkoutCompleted st),
   Some (lines ++ [l])%list).
Proof.
  intros H. apply or_empty_array in H. unfold Backend.push.
  rewrite (append_array _ _ _ _ lines H). reflexivity.
Qed.

Lemma push_Some (u : string) (l : line Z) (st st' : Backend.state)
    (cart : list (line Z)) :
  Backend.push Array_prototype u l st = (st', Some cart) ->
  exists lines,
    (entry Array_prototype st u = Globals.Array lines \/
     (Globals.to_boolean (entry Array_prototype st u) = false /\ lines = [])) /\
    cart = (lines ++ [l])%list /\
    st' = Backend.State
            (Some (Globals.mutate (default Globals.empty (Backend.carts st)) u
                     (lines ++ [l])%list))
            (Backend.checkoutCompleted st).
Proof.
  unfold Backend.push.
  destruct (Globals.append Array_prototype (Backend.carts st) u l)
    as [o c] eqn:Ha.
  intros [= <- ->].
  apply append_Some in Ha as (lines & Ho & -> & ->).
  exists lines. split; [apply or_empty_array, Ho|]. auto.
Qed.

Lemma entry_mutate (u : string) (st : Backend.state) (flags : gmap string bool)
    (lines : list (line Z)) :
  entry Array_prototype
    (Backend.State
       (Some (Globals.mutate (default Globals.empty (Backend.carts st)) u lines))
       flags) u
  = Globals.Array lines.
Proof. unfold entry. cbn. apply lookup_mutate. Qed.

(** The cart of an identity when [global.carts[u] || []] is an array. *)
Lemma cart_or_empty (u : string) (st : Backend.state) (lines : list (line Z)) :
  entry Array_prototype st u = Globals.Array lines \/
  (Globals.to_boolean (entry Array_prototype st u) = false /\ lines = []) ->
  cart Array_prototype st u = lines.
Proof.
  unfold cart. intros [-> | [Hf ->]]; [reflexivity|].
  destruct (entry Array_prototype st u); try reflexivity; discriminate.
Qed.

End Add.




(** An add that is answered 200 has appended the validated line. *)
Lemma post_cart_success (Array_prototype : string -> option nat)
    (u : string) (req : request) (answer : call -> reply) (st : Backend.state) :
  status (fst (run answer (Backend.post_cart Array_prototype u req) st)) = 200%nat ->
  exists i q cart,
    Backend.positive_integer (Backend.coerce (body_field req "itemId")) = Some i /\
    Backend.positive_integer (Backend.coerce (body_field req "quantity")) = Some q /\
    Backend.push Array_prototype u (Line i q) st =
    (snd (run answer (Backend.post_cart Array_prototype u req) st), Some cart) /\
    fst (run answer (Backend.post_cart Array_prototype u req) st) =
    Response 200 (Added "Item added to cart" (map Backend.to_json cart)).
Proof.
  unfold Backend.post_cart.
  destruct (negb _ || negb _); [discriminate|].
  destruct (Backend.positive_integer (Backend.coerce (body_field req "itemId")))
    as [i|]; [|discriminate].
  destruct (Backend.positive_integer (Backend.coerce (body_field req "quantity")))
    as [q|]; [|discriminate].
  cbn [run]. intros Hs. exists i, q.
  case_catalog_reply answer; try discriminate Hs.
  cbn [run] in *. cbv beta in *.
  destruct (Backend.push Array_prototype u (Line i q) st) as [st' [cart|]];
    [|discriminate Hs].
  exists cart. auto.
Qed.

(** ** Listing the cart *)

Section Listing.

Variable Array_prototype : string -> option nat.

(** What a push that went through leaves behind. *)
Lemma cart_after_push (u : string) (l : line Z) (st st' : Backend.state)
    (c : list (line Z)) :
  Backend.push Array_prototype u l st = (st', Some c) ->
  c = (cart Array_prototype st u ++ [l])%list /\
  entry Array_prototype st' u = Globals.Array c /\
  cart Array_prototype st' u = c.
Proof.
  intros H. apply push_Some in H as (lines & He & -> & ->).
  rewrite (cart_or_empty Array_prototype u st lines He).
  split; [reflexivity|].
  unfold cart. rewrite entry_mutate. auto.
Qed.

Lemma list_of_array (u : string) (st : Backend.state) (c : list (line Z)) :
  entry Array_prototype st u = Globals.Array c ->
  Backend.get_cart_items Array_prototype u st =
  (Response 200 (Items (map Backend.parsed c)), st).
Proof.
  intros H. destruct (entry_array_store Array_prototype st u c H) as (o & Ho & Hl).
  unfold Backend.get_cart_items, Backend.cart_array. rewrite Ho, Hl. reflexivity.
Qed.

Lemma list_after_push (u : string) (l : line Z) (st st' : Backend.state)
    (c : list (line Z)) :
  Backend.push Array_prototype u l st = (st', Some c) ->
  Backend.get_cart_items Array_prototype u st' =
  (Response 200
     (Items (map Backend.parsed (cart Array_prototype st u) ++ [Backend.parsed l])%list),
   st').
Proof.
  intros H. destruct (cart_after_push u l st st' c H) as (-> & He & _).
  rewrite (list_of_array u st' _ He), map_app. reflexivity.
Qed.

End Listing.

(** Claim C4.  A successful add is a [push] of the validated line, and a
    push goes through exactly when [global.carts] gives an array or
    nothing under the name of the identity: the cart grows by exactly the
    new line, so two adds of the same item leave two lines, and the list
    that follows maps [parseInt] over the lines.  For a line whose fields
    are doubles below [10^21] the last listed element is the added line.
    At [10^21] and above a number prints in exponent notation and
    [parseInt] reads back its first digit only: after adding quantity
    [1e21] the add reply shows the line as stored, and the list shows
    quantity [1]. *)
Theorem list_after_add (Array_prototype : string -> option nat)
    (u : string) (st : Backend.state) :
  (forall req answer,
     status (fst (run answer (Backend.post_cart Array_prototype u req) st)) = 200%nat ->
     exists i q c,
       Backend.positive_integer (Backend.coerce (body_field req "itemId")) = Some i /\
       Backend.positive_integer (Backend.coerce (body_field req "quantity")) = Some q /\
       Backend.push Array_prototype u (Line i q) st =
       (snd (run answer (Backend.post_cart Array_prototype u req) st), Some c) /\
       fst (run answer (Backend.post_cart Array_prototype u req) st) =
       Response 200 (Added "Item added to cart" (map Backend.to_json c))) /\
  (forall l,
     (exists st' c, Backend.push Array_prototype u l st = (st', Some c)) <->
     (exists lines, entry Array_prototype st u = Globals.Array lines) \/
     Globals.to_boolean (entry Array_prototype st u) = false) /\
  (forall l st' c,
     Backend.push Array_prototype u l st = (st', Some c) ->
     c = (cart Array_prototype st u ++ [l])%list /\
     cart Array_prototype st' u = (cart Array_prototype st u ++ [l])%list) /\
  (forall l1 l2 st1 st2 c1 c2,
     Backend.push Array_prototype u l1 st = (st1, Some c1) ->
     Backend.push Array_prototype u l2 st1 = (st2, Some c2) ->
     cart Array_prototype st2 u = (cart Array_prototype st u ++ [l1; l2])%list) /\
  (forall l st' c,
     Backend.push Array_prototype u l st = (st', Some c) ->
     Backend.get_cart_items Array_prototype u st' =
     (Response 200
        (Items (map Backend.parsed (cart Array_prototype st u)
                ++ [Backend.parsed l])%list),
      st')) /\
  (forall i q st' c,
     0 < i < 10 ^ 21 -> 0 < q < 10 ^ 21 ->
     round_double i = Some i -> round_double q = Some q ->
     Backend.push Array_prototype u (Line i q) st = (st', Some c) ->
     exists items,
       fst (Backend.get_cart_items Array_prototype u st')
       = Response 200 (Items items) /\
       last items = Some (Backend.to_json (Line i q))) /\
  (let req := Request None None
                [("itemId", JNum (NInt 1)); ("quantity", JNum (NInt (10 ^ 21)))] in
   let answer := fun _ => Resolved (JObj [("id", JNum (NInt 1))]) in
   let (added, st') :=
     run answer (Backend.post_cart node18 "alice" req) Backend.init in
   added = Response 200
             (Added "Item added to cart"
                [Line (JNum (NInt 1)) (JNum (NInt (10 ^ 21)))]) /\
   fst (Backend.get_cart_items node18 "alice" st')
   = Response 200 (Items [Line (JNum (NInt 1)) (JNum (NInt 1))])).
Proof.
  split; [|split; [|split; [|split; [|split; [|split]]]]].
  - intros req answer. apply post_cart_success.
  - intros l. split.
    + intros (st' & c & H). apply push_Some in H as (lines & [He | [Hf _]] & _).
      * left. exists lines. exact He.
      * right. exact Hf.
    + intros [[lines He] | Hf].
      * rewrite (push_array Array_prototype u l st lines (or_introl He)). eauto.
      * rewrite (push_array Array_prototype u l st []
                   (or_intror (conj Hf eq_refl))). eauto.
  - intros l st' c H.
    destruct (cart_after_push Array_prototype u l st st' c H) as (Hc & _ & Hc').
    split; congruence.
  - intros l1 l2 st1 st2 c1 c2 H1 H2.
    destruct (cart_after_push Array_prototype u l1 st st1 c1 H1) as (-> & _ & Hc1).
    destruct (cart_after_push Array_prototype u l2 st1 st2 c2 H2) as (-> & _ & Hc2).
    rewrite Hc2, Hc1, <- app_assoc. reflexivity.
  - intros l st' c. apply list_after_push.
  - intros i q st' c Hi Hq Hdi Hdq H.
    rewrite (list_after_push Array_prototype u _ st st' c H). eexists. split.
    + reflexivity.
    + rewrite last_snoc. unfold Backend.parsed, Backend.to_json. simpl.
      rewrite (parseInt_number_plain i Hi Hdi), (parseInt_number_plain q Hq Hdq).
      reflexivity.
  - vm_compute. split; reflexivity.
Qed.

Lemma list_after_add_witness :
  0 < 1 < 10 ^ 21 /\ 0 < 2 < 10 ^ 21 /\
  round_double 1 = Some 1 /\ round_double 2 = Some 2 /\
  exists st' c items,
    Backend.push node18 "alice" (Line 1 2) Backend.init = (st', Some c) /\
    fst (Backend.get_cart_items node18 "alice" st') = Response 200 (Items items) /\
    last items = Some (Backend.to_json (Line 1 2)).
Proof.
  assert (H1 : 0 < 1 < 10 ^ 21) by (split; reflexivity).
  assert (H2 : 0 < 2 < 10 ^ 21) by (split; reflexivity).
  split; [exact H1|]. split; [exact H2|].
  split; [reflexivity|]. split; [reflexivity|].
  destruct (Backend.push node18 "alice" (Line 1 2) Backend.init)
    as [st' [c|]] eqn:Hp; [|vm_compute in Hp; discriminate Hp].
  exists st', c.
  destruct (proj1 (proj2 (proj2 (proj2 (proj2 (proj2
              (list_after_add node18 "alice" Backend.init))))))
              1 2 st' c H1 H2 eq_refl eq_refl Hp) as (items & Hi & Hl).
  exists items. auto.
Defined.

(** ** Removing from the cart *)

Lemma findIndex_None {A : Type} (p : A -> bool) (l : list A) :
  Backend.findIndex p l = None <-> forallb (fun x => negb (p x)) l = true.
Proof.
  induction l as [|x r IH]; simpl; [tauto|].
  destruct (p x); simpl.
  - split; discriminate.
  - rewrite <- IH. destruct (Backend.findIndex p r); simpl; split; congruence.
Qed.

(** [findIndex] finds the first element that satisfies the test. *)
Lemma findIndex_first {A : Type} (p : A -> bool) (before after : list A) (x : A) :
  forallb (fun y => negb (p y)) before = true -> p x = true ->
  Backend.findIndex p (before ++ x :: after) = Some (length before).
Proof.
  intros Hb Hx. induction before as [|y r IH]; simpl in *.
  - rewrite Hx. reflexivity.
  - apply andb_true_iff in Hb as [Hy Hr]. apply negb_true_iff in Hy.
    rewrite Hy, (IH Hr). reflexivity.
Qed.

Section Remove.

Variable Array_prototype : string -> option nat.

Lemma delete_invalid (u : string) (req : request) (st : Backend.state) :
  Backend.positive_integer (Backend.coerce (body_field req "itemId")) = None ->
  Backend.delete_cart_items Array_prototype u req st =
  (Response 400 (Error "Invalid item ID, must be a positive integer"), st).
Proof. intros H. unfold Backend.delete_cart_items. rewrite H. reflexivity. Qed.

(** [global.carts[u] || []], as the list and remove handlers read it. *)
Lemma cart_array_entry (st : Backend.state) (o : Globals.store Z) (u : string) :
  Backend.carts st = Some o ->
  Backend.cart_array Array_prototype o u =
  match Globals.or_empty (entry Array_prototype st u) with
  | Globals.Array c => Some c
  | _ => None
  end.
Proof. intros Ho. unfold Backend.cart_array, entry. rewrite Ho. reflexivity. Qed.

Lemma delete_no_match (u : string) (req : request) (st : Backend.state)
    (i : Z) (lines : list (line Z)) :
  Backend.positive_integer (Backend.coerce (body_field req "itemId")) = Some i ->
  Backend.carts st <> None ->
  entry Array_prototype st u = Globals.Array lines \/
  (Globals.to_boolean (entry Array_prototype st u) = false /\ lines = []) ->
  forallb (fun item => negb (itemId item =? i)) lines = true ->
  Backend.delete_cart_items Array_prototype u req st =
  (Response 400 (Error "Item not found in the cart"), st).
Proof.
  intros Hi Hs He Hb. unfold Backend.delete_cart_items. rewrite Hi.
  destruct (Backend.carts st) as [o|] eqn:Ho; [|congruence].
  rewrite (cart_array_entry st o u Ho).
  apply or_empty_array in He. rewrite He.
  apply findIndex_None in Hb. rewrite Hb. reflexivity.
Qed.

Lemma delete_first_match (u : string) (req : request) (st : Backend.state)
    (i : Z) (before after : list (line Z)) (x : line Z) :
  Backend.positive_integer (Backend.coerce (body_field req "itemId")) = Some i ->
  entry Array_prototype st u = Globals.Array (before ++ x :: after) ->
  forallb (fun item => negb (itemId item =? i)) before = true ->
  itemId x = i ->
  Backend.delete_cart_items Array_prototype u req st =
  (Response 200 (Deleted "Item deleted from the cart" (Some (Backend.to_json x))),
   Backend.State
     (Some (Globals.mutate (default Globals.empty (Backend.carts st)) u
              (before ++ after)%list))
     (Backend.checkoutCompleted st)).
Proof.
  intros Hi He Hb Hx. unfold Backend.delete_cart_items. rewrite Hi.
  destruct (entry_array_store Array_prototype st u _ He) as (o & Ho & _).
  rewrite Ho, (cart_array_entry st o u Ho), He.
  cbn [Globals.or_empty Globals.to_boolean].
  rewrite (findIndex_first (fun item => itemId item =? i) before after x Hb)
    by (rewrite Hx; apply Z.eqb_refl).
  cbv zeta. rewrite list_lookup_middle by reflexivity.
  rewrite delete_middle. reflexivity.
Qed.

(** A value that is not an array and not falsy: [findIndex] is not a
    function of it, the handler throws. *)
Lemma delete_throws (u : string) (req : request) (st : Backend.state) (i : Z) :
  Backend.positive_integer (Backend.coerce (body_field req "itemId")) = Some i ->
  Globals.to_boolean (entry Array_prototype st u) = true ->
  (forall lines, entry Array_prototype st u <> Globals.Array lines) ->
  Backend.delete_cart_items Array_prototype u req st = (internal_error, st).
Proof.
  intros Hi Ht Hn. unfold Backend.delete_cart_items. rewrite Hi.
  destruct (Backend.carts st) as [o|] eqn:Ho; [|reflexivity].
  rewrite (cart_array_entry st o u Ho). unfold Globals.or_empty. rewrite Ht.
  destruct (entry Array_prototype st u) as [|lines| | | |]; try reflexivity.
  exfalso. exact (Hn lines eq_refl).
Qed.

End Remove.

(** Claim C5.  Where [global.carts] gives an array under the name of the
    identity, remove takes out the first line whose [itemId] equals the
    requested one and returns it, the lines before and after it staying as
    they are; when no line matches, or [global.carts] exists and gives
    nothing, it is answered 400 and nothing changes.  Before the first
    add of the process [global.carts] is [undefined]: the handler throws
    on reading it and the request for a well-formed [itemId] is answered
    500 instead of 400.  The same 500 is the answer when [global.carts]
    gives a value that is no array, as it does under the names it
    inherits. *)
Theorem remove_first_match (Array_prototype : string -> option nat)
    (u : string) (req : request) (st : Backend.state) (i : Z) :
  Backend.positive_integer (Backend.coerce (body_field req "itemId")) = Some i ->
  (forall before x after,
     entry Array_prototype st u = Globals.Array (before ++ x :: after) ->
     forallb (fun item => negb (itemId item =? i)) before = true ->
     itemId x = i ->
     let (resp, st') := Backend.delete_cart_items Array_prototype u req st in
     resp = Response 200
              (Deleted "Item deleted from the cart" (Some (Backend.to_json x))) /\
     cart Array_prototype st' u = (before ++ after)%list /\
     Backend.checkoutCompleted st' = Backend.checkoutCompleted st) /\
  (forall lines,
     Backend.carts st <> None ->
     entry Array_prototype st u = Globals.Array lines \/
     (Globals.to_boolean (entry Array_prototype st u) = false /\ lines = []) ->
     forallb (fun item => negb (itemId item =? i)) lines = true ->
     Backend.delete_cart_items Array_prototype u req st =
     (Response 400 (Error "Item not found in the cart"), st)) /\
  (Backend.carts st = None ->
   Backend.delete_cart_items Array_prototype u req st =
   (Response 500 (Error "Internal server error"), st)) /\
  (Globals.to_boolean (entry Array_prototype st u) = true ->
   (forall lines, entry Array_prototype st u <> Globals.Array lines) ->
   Backend.delete_cart_items Array_prototype u req st =
   (Response 500 (Error "Internal server error"), st)).
Proof.
  intros Hi. split; [|split; [|split]].
  - intros before x after He Hb Hx.
    rewrite (delete_first_match Array_prototype u req st i before after x Hi He Hb Hx).
    split; [reflexivity|]. split; [|reflexivity].
    unfold cart. rewrite entry_mutate. reflexivity.
  - intros lines. apply (delete_no_match Array_prototype u req st i lines Hi).
  - intros Hn. unfold Backend.delete_cart_items. rewrite Hi, Hn. reflexivity.
  - apply (delete_throws Array_prototype u req st i Hi).
Qed.

Lemma remove_first_match_witness :
  let req := Request None None [("itemId", JNum (NInt 1))] in
  Backend.positive_integer (Backend.coerce (body_field req "itemId")) = Some 1 /\
  Backend.carts Backend.init = None /\
  Backend.delete_cart_items node18 "alice" req Backend.init =
  (Response 500 (Error "Internal server error"), Backend.init).
Proof.
  intros req.
  assert (Hi : Backend.positive_integer (Backend.coerce (body_field req "itemId"))
               = Some 1) by reflexivity.
  split; [exact Hi|]. split; [reflexivity|].
  exact (proj1 (proj2 (proj2
           (remove_first_match node18 "alice" req Backend.init 1 Hi))) eq_refl).
Defined.

(** Removing item 1 from [1, 2, 1] leaves [2, 1]; and once [alice] has a
    cart, a remove for a user called [constructor] is answered 500. *)
Example remove_keeps_later_matches :
  let st := Backend.State
              (Some (Globals.Store
                       {[ "alice" := Globals.Array [Line 1 5; Line 2 1; Line 1 7] ]}
                       None)) ∅ in
  let req := Request None None [("itemId", JStr "1")] in
  let (resp, st') := Backend.delete_cart_items node18 "alice" req st in
  resp = Response 200
           (Deleted "Item deleted from the cart"
              (Some (Line (JNum (NInt 1)) (JNum (NInt 5))))) /\
  cart node18 st' "alice" = [Line 2 1; Line 1 7] /\
  Backend.delete_cart_items node18 "constructor" req st =
  (Response 500 (Error "Internal server error"), st) /\
  Backend.get_cart_items node18 "constructor" st =
  (Response 500 (Error "Internal server error"), st).
Proof. vm_compute. repeat split; reflexivity. Qed.

(** ** Missing credentials *)

Lemma backend_auth_missing (req : request) :
  present (authorization req) = None \/ present (x_user req) = None ->
  Backend.authMiddleware req =
  Ret (Backend.Reply (Response 401 (Error "Missing Authorization or X-User header"))).
Proof.
  unfold Backend.authMiddleware. intros [-> | ->]; [reflexivity|].
  destruct (present (authorization req)); reflexivity.
Qed.

Lemma storefront_auth_missing (sha256 : string -> string) (e : env) (req : request) :
  present (authorization req) = None \/ present (x_user req) = None ->
  Storefront.authMiddleware sha256 e req =
  Storefront.Reply (Response 401 (Error "Missing Authorization or X-User header")).
Proof.
  unfold Storefront.authMiddleware. intros [-> | ->]; [reflexivity|].
  destruct (present (authorization req)); reflexivity.
Qed.

(** The admin gateway answers a request that names no identity from what
    the role store says about [undefined]; here the store knows no such
    user and the reply is 404, not 401. *)
Lemma management_missing_identity :
  let req := Request (Some "Bearer 0123") None [] in
  let answer := fun _ => Rejected (Some 404%nat) in
  let e := Env (Some "mySuperSecretKey") (Date 2024 3 7 9 5 0 42) in
  present (x_user req) = None /\
  calls answer (Management.authMiddleware (fun s => s) e req) = [UserRole None] /\
  run answer (Management.authMiddleware (fun s => s) e req) =
  Management.Reply (Response 404 (Error "User not found")).
Proof. vm_compute. repeat split; reflexivity. Qed.

(** Claim C7, as the code has it.  Both storefronts answer a request that
    lacks the authorization header or the identity header with 401, without
    any call to another service and without touching the state.  The admin
    gateway answers 401, without asking the role store, when the
    authorization header is missing; when only the identity is missing it
    asks the role store about the absent identity and the answer of the
    store decides the reply. *)
Theorem missing_credentials (req : request) :
  (present (authorization req) = None \/ present (x_user req) = None ->
   (forall Array_prototype sha256 e r st,
      Storefront.serve Array_prototype sha256 e r req st =
      (Response 401 (Error "Missing Authorization or X-User header"), st)) /\
   (forall Array_prototype r,
      Backend.serve Array_prototype r req =
      Ret (Backend.answer_with
             (Response 401 (Error "Missing Authorization or X-User header"))))) /\
  (forall sha256 e,
     present (authorization req) = None ->
     Management.authMiddleware sha256 e req =
     Ret (Management.Reply (Response 401 (Error "Missing Authorization header")))) /\
  (forall sha256 e answer status,
     present (authorization req) <> None ->
     calls answer (Management.authMiddleware sha256 e req) = [UserRole (x_user req)] /\
     (answer (UserRole (x_user req)) = Rejected status ->
      exists msg,
        run answer (Management.authMiddleware sha256 e req) =
        Management.Reply (Response (Management.error_status status) (Error msg)))).
Proof.
  split; [|split].
  - intros H. split.
    + intros Array_prototype sha256 e r st. unfold Storefront.serve.
      rewrite (storefront_auth_missing sha256 e req H). reflexivity.
    + intros Array_prototype r. unfold Backend.serve.
      rewrite (backend_auth_missing req H). reflexivity.
  - intros sha256 e H. unfold Management.authMiddleware. rewrite H. reflexivity.
  - intros sha256 e answer status H. unfold Management.authMiddleware.
    destruct (present (authorization req)) as [authHeader|]; [|congruence].
    cbn [calls run]. split.
    + destruct (answer _) as [data|s]; [|reflexivity].
      destruct (get_field data "role") as [role|]; [|reflexivity].
      destruct (negb (Management.is_admin role)); [reflexivity|].
      destruct (token_matches _ _); reflexivity.
    + intros ->. eexists. reflexivity.
Qed.

Lemma missing_credentials_witness :
  let req := Request (Some "Bearer 0123") None [] in
  (present (authorization req) = None \/ present (x_user req) = None) /\
  Backend.serve node18 Backend.PostCheckout req =
  Ret (Backend.answer_with
         (Response 401 (Error "Missing Authorization or X-User header"))).
Proof.
  intros req.
  assert (H : present (authorization req) = None \/ present (x_user req) = None)
    by (right; reflexivity).
  split; [exact H|].
  exact (proj2 (proj1 (missing_credentials req) H) node18 Backend.PostCheckout).
Defined.

(** ** The admin gateway: role before token *)

(** Claim C8.  For a request that presents a credential, once the role
    store answers with a role other than [admin] the admin gateway replies
    "Forbidden: Admins only", whatever the presented token is; the token is
    compared only for an admin, and a wrong one is then answered
    "Forbidden: Invalid token". *)
Theorem role_check_precedes_token_check
    (sha256 : string -> string) (e : env) (req : request)
    (answer : call -> reply) (authHeader : string) (data role : jsval) :
  present (authorization req) = Some authHeader ->
  answer (UserRole (x_user req)) = Resolved data ->
  get_field data "role" = Some role ->
  (Management.is_admin role = false ->
   run answer (Management.authMiddleware sha256 e req) =
   Management.Reply (Response 403 (Error "Forbidden: Admins only"))) /\
  (Management.is_admin role = true ->
   providedToken authHeader <>
   Some (generateDynamicToken sha256 e (x_user req)) ->
   run answer (Management.authMiddleware sha256 e req) =
   Management.Reply (Response 403 (Error "Forbidden: Invalid token"))) /\
  (Management.is_admin role = true ->
   providedToken authHeader =
   Some (generateDynamicToken sha256 e (x_user req)) ->
   run answer (Management.authMiddleware sha256 e req) = Management.Next).
Proof.
  intros Ha Hr Hf. unfold Management.authMiddleware. rewrite Ha.
  cbn [run]. rewrite Hr, Hf. split; [|split].
  - intros ->. reflexivity.
  - intros -> Hne. cbn [negb].
    destruct (token_matches _ _) eqn:Hm; [|reflexivity].
    apply token_matches_iff in Hm. contradiction.
  - intros -> Heq. cbn [negb].
    apply token_matches_iff in Heq. rewrite Heq. reflexivity.
Qed.

Lemma role_check_precedes_token_check_witness :
  let e := Env (Some "mySuperSecretKey") (Date 2024 3 7 9 5 0 42) in
  let valid := "Bearer asmith4562024-03-07mySuperSecretKey" in
  let answer := fun _ => Resolved (JObj [("role", JStr "user")]) in
  present (Some valid) = Some valid /\
  providedToken valid =
  Some (generateDynamicToken (fun s => s) e (Some "asmith456")) /\
  run answer (Management.authMiddleware (fun s => s) e
                (Request (Some valid) (Some "asmith456") [])) =
  Management.Reply (Response 403 (Error "Forbidden: Admins only")) /\
  run answer (Management.authMiddleware (fun s => s) e
                (Request (Some "Bearer 0123") (Some "asmith456") [])) =
  Management.Reply (Response 403 (Error "Forbidden: Admins only")).
Proof.
  intros e valid answer.
  split; [reflexivity|]. split; [reflexivity|]. split.
  - exact (proj1 (role_check_precedes_token_check (fun s => s) e
                    (Request (Some valid) (Some "asmith456") [])
                    answer valid (JObj [("role", JStr "user")]) (JStr "user")
                    eq_refl eq_refl eq_refl) eq_refl).
  - exact (proj1 (role_check_precedes_token_check (fun s => s) e
                    (Request (Some "Bearer 0123") (Some "asmith456") [])
                    answer "Bearer 0123" (JObj [("role", JStr "user")])
                    (JStr "user") eq_refl eq_refl eq_refl) eq_refl).
Defined.

(** ** The two storefronts *)


(** ** The two storefronts *)

Section Json.

Variable Array_prototype : string -> option nat.

Lemma element_from_json (P : list (line Z)) (k : string) (i : nat) :
  Globals.element_from i (map Backend.to_json P) k =
  Backend.to_json <$> Globals.element_from i P k.
Proof.
  revert i. induction P as [|l r IH]; intros i; [reflexivity|]. simpl.
  destruct (String.eqb (digits i) k); [reflexivity|]. apply IH.
Qed.

Lemma from_Object_prototype_json (k : string) :
  value_to_json (Globals.from_Object_prototype k) = Globals.from_Object_prototype k.
Proof.
  unfold Globals.from_Object_prototype.
  destruct (Globals.inherited_function k); reflexivity.
Qed.

(** Reading the store of lines seen as JSON is reading the store. *)
Lemma lookup_json (o : Globals.store Z) (k : string) :
  Globals.lookup Array_prototype (store_to_json o) k =
  value_to_json (Globals.lookup Array_prototype o k).
Proof.
  unfold Globals.lookup, store_to_json. cbn [Globals.own Globals.proto].
  destruct (String.eqb k "__proto__").
  - destruct (Globals.proto o); reflexivity.
  - rewrite lookup_fmap. destruct (Globals.own o !! k) as [v|]; [reflexivity|].
    cbn. destruct (Globals.proto o) as [P|]; cbn.
    + destruct (String.eqb k "length"); [rewrite length_map; reflexivity|].
      rewrite element_from_json.
      destruct (Globals.element_from 0 P k); [reflexivity|]. cbn.
      destruct (Array_prototype k); [reflexivity|].
      symmetry. apply from_Object_prototype_json.
    + symmetry. apply from_Object_prototype_json.
Qed.

Lemma assign_json (o : Globals.store Z) (k : string) (v : Globals.value Z) :
  store_to_json (Globals.assign o k v) =
  Globals.assign (store_to_json o) k (value_to_json v).
Proof.
  unfold Globals.assign, store_to_json.
  destruct (String.eqb k "__proto__").
  - destruct v; reflexivity.
  - cbn. rewrite fmap_insert. reflexivity.
Qed.

Lemma to_boolean_json (v : Globals.value Z) :
  Globals.to_boolean (value_to_json v) = Globals.to_boolean v.
Proof. destruct v as [| | |[|n]| |]; reflexivity. Qed.

Lemma or_empty_json (v : Globals.value Z) :
  Globals.or_empty (value_to_json v) = value_to_json (Globals.or_empty v).
Proof.
  unfold Globals.or_empty. rewrite to_boolean_json.
  destruct (Globals.to_boolean v); reflexivity.
Qed.

Lemma length_of_json (v : Globals.value Z) :
  Globals.length_of (value_to_json v) = Globals.length_of v.
Proof. destruct v; cbn; rewrite ?length_map; reflexivity. Qed.

Lemma default_json (c : option (Globals.store Z)) :
  default Globals.empty (store_to_json <$> c) =
  store_to_json (default Globals.empty c).
Proof.
  destruct c as [o|]; [reflexivity|].
  unfold store_to_json, Globals.empty. cbn. rewrite fmap_empty. reflexivity.
Qed.

(** The three statements of the add do the same to both stores. *)
Lemma append_json (c : option (Globals.store Z)) (k : string) (l : line Z) :
  Globals.append Array_prototype (store_to_json <$> c) k (Backend.to_json l) =
  (store_to_json (fst (Globals.append Array_prototype c k l)),
   map Backend.to_json <$> snd (Globals.append Array_prototype c k l)).
Proof.
  unfold Globals.append. cbv zeta.
  rewrite default_json, lookup_json, or_empty_json.
  destruct (Globals.or_empty
              (Globals.lookup Array_prototype (default Globals.empty c) k))
    as [|lines| | | |] eqn:Ho; cbn [value_to_json fst snd];
    unfold Globals.mutate; rewrite !assign_json; cbn [value_to_json];
    try reflexivity.
  cbn. rewrite map_app. reflexivity.
Qed.

Lemma nothing_to_check_out_json (c : option (Globals.store Z)) (k : string) :
  Globals.nothing_to_check_out Array_prototype (store_to_json <$> c) k =
  Globals.nothing_to_check_out Array_prototype c k.
Proof.
  destruct c as [o|]; [|reflexivity]. cbn.
  rewrite lookup_json, to_boolean_json, length_of_json. reflexivity.
Qed.

Lemma coerce_falsy (v : jsval) : truthy v = false -> truthy (Backend.coerce v) = false.
Proof.
  destruct v as [| |b|n|s|l|f]; try (intros H; exact H).
  cbn [truthy]. intros H. apply negb_false_iff, String.eqb_eq in H. subst s.
  reflexivity.
Qed.

End Json.

(** Payment with no checkout before it, an add with a quantity that is not
    a number, and an add of an item the catalog does not have: [Backend]
    refuses each, the storefront of [part_004] accepts each. *)
Lemma storefronts_differ :
  let missing := fun _ : call => Rejected (Some 404%nat) in
  let found := fun _ : call => Resolved (JObj [("id", JNum (NInt 1))]) in
  let words := Request None None
                 [("itemId", JNum (NInt 1)); ("quantity", JStr "many")] in
  let plain := Request None None
                 [("itemId", JNum (NInt 1)); ("quantity", JNum (NInt 2))] in
  (status (fst (Backend.post_payment "alice" Backend.init)) = 400%nat /\
   status (fst (Storefront.post_payment "alice" Storefront.init)) = 200%nat) /\
  (status (fst (run found (Backend.post_cart node18 "alice" words) Backend.init))
   = 400%nat /\
   status (fst (Storefront.post_cart node18 "alice" words Storefront.init))
   = 200%nat) /\
  (status (fst (run missing (Backend.post_cart node18 "alice" plain) Backend.init))
   = 404%nat /\
   status (fst (Storefront.post_cart node18 "alice" plain Storefront.init))
   = 200%nat).
Proof. vm_compute. repeat split; reflexivity. Qed.

(** Claim C9, as the code has it.  On the same carts the two storefronts
    answer a checkout with the same status and are left with the same
    carts.  An add whose [itemId] and [quantity] are positive JSON
    integers, for an item the catalog returns, gets the same status from
    both and leaves the same carts, and when that status is 200 the same
    reply.  An add in which a field is falsy gets the same 400 reply from
    both and changes neither.  Payment is where they part: the storefront
    of [part_004] accepts it in every state and changes nothing. *)
Theorem storefronts_agree_on_valid_requests
    (Array_prototype : string -> option nat)
    (u : string) (sb : Backend.state) (ss : Storefront.state) :
  same_carts sb ss ->
  (let (rb, sb') := Backend.post_checkout Array_prototype u sb in
   let (rs, ss') := Storefront.post_checkout Array_prototype u ss in
   status rb = status rs /\ same_carts sb' ss') /\
  (forall req answer i q data,
     body_field req "itemId" = JNum (NInt i) -> 0 < i ->
     body_field req "quantity" = JNum (NInt q) -> 0 < q ->
     answer (GetItem ("/items/" +:+ Number_toString i)) = Resolved data ->
     truthy data = true ->
     let (rb, sb') := run answer (Backend.post_cart Array_prototype u req) sb in
     let (rs, ss') := Storefront.post_cart Array_prototype u req ss in
     status rb = status rs /\ same_carts sb' ss' /\
     (status rb = 200%nat -> rb = rs)) /\
  (forall req answer,
     truthy (body_field req "itemId") = false \/
     truthy (body_field req "quantity") = false ->
     run answer (Backend.post_cart Array_prototype u req) sb =
     (Response 400 (Error "Item ID and quantity are required"), sb) /\
     Storefront.post_cart Array_prototype u req ss =
     (Response 400 (Error "Item ID and quantity are required"), ss)) /\
  Storefront.post_payment u ss =
  (Response 200 (Message "Payment processed successfully (simulated)."), ss).
Proof.
  destruct sb as [cb fb], ss as [cs]. unfold same_carts. simpl. intros ->.
  split; [|split; [|split; [|reflexivity]]].
  - unfold Backend.post_checkout, Storefront.post_checkout. simpl.
    destruct cb as [o|]; [|simpl; auto].
    change (Some (store_to_json o)) with (store_to_json <$> Some o).
    rewrite nothing_to_check_out_json.
    destruct (Globals.nothing_to_check_out Array_prototype (Some o) u);
      simpl; [auto|].
    rewrite assign_json. auto.
  - intros req answer i q data Hi Hpi Hq Hpq Ha Ht.
    unfold Backend.post_cart, Storefront.post_cart. rewrite Hi, Hq.
    cbn [Backend.coerce truthy Backend.positive_integer].
    destruct (Z.eqb_spec i 0); [lia|]. destruct (Z.eqb_spec q 0); [lia|].
    destruct (Z.leb_spec i 0); [lia|]. destruct (Z.leb_spec q 0); [lia|].
    cbn [negb orb run]. rewrite Ha, Ht. cbn [run]. cbv beta.
    unfold Backend.push. cbn [Backend.carts Storefront.carts Backend.checkoutCompleted].
    change (Line (JNum (NInt i)) (JNum (NInt q))) with (Backend.to_json (Line i q)).
    rewrite append_json.
    destruct (Globals.append Array_prototype cb u (Line i q)) as [o [c|]];
      cbn; repeat split; try reflexivity; discriminate.
  - intros req answer H.
    unfold Backend.post_cart, Storefront.post_cart.
    assert (Hb : negb (truthy (Backend.coerce (body_field req "itemId")))
                 || negb (truthy (Backend.coerce (body_field req "quantity")))
                 = true).
    { destruct H as [H|H]; rewrite (coerce_falsy _ H); cbn;
        [reflexivity | apply orb_true_r]. }
    assert (Hs : negb (truthy (body_field req "itemId"))
                 || negb (truthy (body_field req "quantity")) = true).
    { destruct H as [H|H]; rewrite H; cbn; [reflexivity | apply orb_true_r]. }
    rewrite Hb, Hs. auto.
Qed.

Lemma storefronts_agree_on_valid_requests_witness :
  let req := Request None None
               [("itemId", JNum (NInt 1)); ("quantity", JNum (NInt 2))] in
  let answer := fun _ : call => Resolved (JObj [("id", JNum (NInt 1))]) in
  same_carts Backend.init Storefront.init /\
  let (rb, sb') := run answer (Backend.post_cart node18 "alice" req) Backend.init in
  let (rs, ss') := Storefront.post_cart node18 "alice" req Storefront.init in
  status rb = status rs /\ same_carts sb' ss' /\ (status rb = 200%nat -> rb = rs).
Proof.
  intros req answer.
  assert (Hs : same_carts Backend.init Storefront.init) by reflexivity.
  split; [exact Hs|].
  refine (proj1 (proj2 (storefronts_agree_on_valid_requests node18 "alice"
                          Backend.init Storefront.init Hs))
            req answer 1 2 (JObj [("id", JNum (NInt 1))])
            eq_refl _ eq_refl _ eq_refl eq_refl); reflexivity.
Defined.
(** * Further properties of the services *)

(** ** What the validating storefront keeps true *)

Section Invariants.

Variable Array_prototype : string -> option nat.

Lemma positive_element (P : list (line Z)) (k : string) (i : nat) (l : line Z) :
  Forall positive P -> Globals.element_from i P k = Some l -> positive l.
Proof.
  intros H. revert i. induction H as [|x r Hx Hr IH]; intros i; simpl;
    [discriminate|].
  destruct (String.eqb (digits i) k); [congruence|]. apply IH.
Qed.

Lemma positive_lookup (o : Globals.store Z) (k : string) :
  positive_store o -> positive_value (Globals.lookup Array_prototype o k).
Proof.
  intros [Hown Hproto]. unfold Globals.lookup.
  destruct (String.eqb k "__proto__").
  - destruct (Globals.proto o) as [P|] eqn:HP; cbn; auto.
  - destruct (Globals.own o !! k) as [v|] eqn:Hv; [exact (Hown k v Hv)|].
    assert (Hobj : positive_value (Globals.from_Object_prototype (A := Z) k)).
    { unfold Globals.from_Object_prototype.
      destruct (Globals.inherited_function k); exact I. }
    destruct (Globals.proto o) as [P|] eqn:HP; [|exact Hobj].
    destruct (String.eqb k "length"); [exact I|].
    destruct (Globals.element_from 0 P k) as [l|] eqn:Hl.
    + exact (positive_element P k 0 l (Hproto P eq_refl) Hl).
    + destruct (Array_prototype k); [exact I|exact Hobj].
Qed.

Lemma positive_assign (o : Globals.store Z) (k : string) (v : Globals.value Z) :
  positive_store o -> positive_value v -> positive_store (Globals.assign o k v).
Proof.
  intros [Hown Hproto] Hv. unfold Globals.assign.
  destruct (String.eqb k "__proto__").
  - destruct v as [|P| | | |]; try (split; assumption).
    split; [exact Hown|]. cbn. intros P' [= <-]. exact Hv.
  - split; [|exact Hproto]. cbn. intros k' v'.
    destruct (decide (k = k')) as [->|Hne].
    + rewrite lookup_insert_eq. intros [= <-]. exact Hv.
    + rewrite lookup_insert_ne by exact Hne. apply Hown.
Qed.

Lemma positive_empty : positive_store Globals.empty.
Proof.
  split; cbn.
  - intros k v. rewrite lookup_empty. discriminate.
  - discriminate.
Qed.

Lemma positive_default (c : option (Globals.store Z)) :
  (forall o, c = Some o -> positive_store o) ->
  positive_store (default Globals.empty c).
Proof. destruct c as [o|]; cbn; [auto|intros _; exact positive_empty]. Qed.

Lemma positive_append (c : option (Globals.store Z)) (k : string) (l : line Z) :
  (forall o, c = Some o -> positive_store o) -> positive l ->
  positive_store (fst (Globals.append Array_prototype c k l)).
Proof.
  intros Hc Hl. apply positive_default in Hc.
  pose proof (positive_lookup _ k Hc) as Hv.
  unfold Globals.append. cbv zeta.
  set (v := Globals.lookup Array_prototype (default Globals.empty c) k) in *.
  assert (Hor : positive_value (Globals.or_empty v)).
  { unfold Globals.or_empty. destruct (Globals.to_boolean v); [exact Hv|constructor]. }
  pose proof (positive_assign _ k _ Hc Hor) as Ho.
  destruct (Globals.or_empty v) as [|lines| | | |]; cbn [fst]; try exact Ho.
  apply positive_assign; [exact Ho|].
  apply Forall_app. split; [exact Hor|]. repeat constructor; apply Hl.
Qed.

Lemma Forall_delete_at {A : Type} (P : A -> Prop) (k : nat) (l : list A) :
  Forall P l -> Forall P (delete k l).
Proof.
  intros H. revert k. induction H as [|x l Hx Hl IH]; intros [|k]; simpl;
    try constructor; auto.
Qed.

Lemma handler_positive_lines (r : Backend.route) (u : string) (req : request)
    (answer : call -> reply) (st : Backend.state) :
  positive_lines st ->
  positive_lines (snd (run answer (Backend.handler Array_prototype r u req) st)).
Proof.
  intros H. destruct r; cbn [Backend.handler run].
  - unfold Backend.post_cart.
    destruct (negb _ || negb _); [exact H|].
    destruct (Backend.positive_integer (Backend.coerce (body_field req "itemId")))
      as [i|] eqn:Hi; [|exact H].
    destruct (Backend.positive_integer (Backend.coerce (body_field req "quantity")))
      as [q|] eqn:Hq; [|exact H].
    apply positive_integer_Some in Hi as [_ Hi].
    apply positive_integer_Some in Hq as [_ Hq].
    cbn [run]. case_catalog_reply answer; try exact H.
    cbn [run]. cbv beta. unfold Backend.push.
    pose proof (positive_append (Backend.carts st) u (Line i q) H
                  (conj Hi Hq)) as Ha.
    destruct (Globals.append Array_prototype (Backend.carts st) u (Line i q))
      as [o [c|]]; cbn [fst snd] in *; intros o' [= <-]; exact Ha.
  - rewrite get_cart_items_state. exact H.
  - unfold Backend.delete_cart_items.
    destruct (Backend.positive_integer _) as [i|]; [|exact H].
    destruct (Backend.carts st) as [o|] eqn:Ho; [|exact H].
    pose proof (positive_lookup o u (H o Ho)) as Hv.
    unfold Backend.cart_array.
    destruct (Globals.or_empty (Globals.lookup Array_prototype o u))
      as [|cart| | | |] eqn:Hc; try exact H.
    destruct (Backend.findIndex _ _) as [k|]; [|exact H]. cbn [snd].
    intros o' [= <-]. apply positive_assign; [exact (H o Ho)|].
    apply Forall_delete_at. unfold Globals.or_empty in Hc.
    destruct (Globals.to_boolean _); [rewrite Hc in Hv; exact Hv|].
    injection Hc as <-. constructor.
  - unfold Backend.post_checkout.
    destruct (Backend.carts st) as [o|] eqn:Ho; [|exact H].
    destruct (Globals.nothing_to_check_out _ _ _); [exact H|]. cbn [snd].
    intros o' [= <-]. apply positive_assign; [exact (H o Ho)|constructor].
  - unfold Backend.post_payment. destruct (negb _); exact H.
Qed.

Lemma serve_positive_lines (r : Backend.route) (req : request)
    (answer : call -> reply) (st : Backend.state) :
  positive_lines st ->
  positive_lines (snd (run answer (Backend.serve Array_prototype r req) st)).
Proof.
  intros H. rewrite serve_cases.
  destruct (run answer (Backend.authMiddleware req)) as [u|resp]; [|exact H].
  apply handler_positive_lines, H.
Qed.

(** X1.  Whatever requests the storefront has served since it started, and
    whatever the other services answered, every line in every cart has a
    positive item id and a positive quantity. *)
Theorem carts_hold_positive_lines (xs : list exchange) :
  positive_lines (replay Array_prototype xs Backend.init).
Proof.
  assert (H : forall st, positive_lines st ->
                         positive_lines (replay Array_prototype xs st)).
  { induction xs as [|x rest IH]; intros st Hst; simpl; [exact Hst|].
    apply IH, serve_positive_lines, Hst. }
  apply H. intros o. discriminate.
Qed.

Lemma handler_keeps_store (r : Backend.route) (u : string) (req : request)
    (answer : call -> reply) (st : Backend.state) :
  Backend.carts st <> None ->
  Backend.carts (snd (run answer (Backend.handler Array_prototype r u req) st))
  <> None.
Proof.
  intros H. destruct r; cbn [Backend.handler run].
  - unfold Backend.post_cart.
    destruct (negb _ || negb _); [exact H|].
    destruct (Backend.positive_integer _) as [i|]; [|exact H].
    destruct (Backend.positive_integer _) as [q|]; [|exact H].
    cbn [run]. case_catalog_reply answer; try exact H.
    cbn [run]. cbv beta. unfold Backend.push.
    destruct (Globals.append _ _ _ _) as [o [c|]]; discriminate.
  - rewrite get_cart_items_state. exact H.
  - unfold Backend.delete_cart_items.
    destruct (Backend.positive_integer _) as [i|]; [|exact H].
    destruct (Backend.carts st) as [o|] eqn:Ho; [|congruence].
    destruct (Backend.cart_array _ _ _) as [cart|]; [|cbn; congruence].
    destruct (Backend.findIndex _ _) as [k|]; cbn; congruence.
  - unfold Backend.post_checkout.
    destruct (Backend.carts st) as [o|] eqn:Ho; [|congruence].
    destruct (Globals.nothing_to_check_out _ _ _); cbn; congruence.
  - unfold Backend.post_payment. destruct (negb _); exact H.
Qed.

Lemma replay_keeps_store (xs : list exchange) (st : Backend.state) :
  Backend.carts st <> None ->
  Backend.carts (replay Array_prototype xs st) <> None.
Proof.
  revert st. induction xs as [|x rest IH]; intros st H; simpl; [exact H|].
  apply IH. rewrite serve_cases.
  destruct (run (upstream_of x) (Backend.authMiddleware (request_of x)))
    as [u|resp]; [|exact H].
  apply handler_keeps_store, H.
Qed.

End Invariants.

Lemma list_status (Array_prototype : string -> option nat)
    (u : string) (st : Backend.state) :
  Backend.carts st <> None ->
  (exists lines, entry Array_prototype st u = Globals.Array lines) \/
  Globals.to_boolean (entry Array_prototype st u) = false ->
  exists lines,
    Backend.get_cart_items Array_prototype u st =
    (Response 200 (Items (map Backend.parsed lines)), st) /\
    cart Array_prototype st u = lines.
Proof.
  intros Hs He. unfold Backend.get_cart_items.
  destruct (Backend.carts st) as [o|] eqn:Ho; [|congruence].
  rewrite (cart_array_entry Array_prototype st o u Ho). unfold cart.
  destruct He as [[lines He] | Hf].
  - rewrite He. exists lines. auto.
  - unfold Globals.or_empty. rewrite Hf. exists [].
    split; [reflexivity|].
    destruct (entry Array_prototype st u); try reflexivity; discriminate.
Qed.

(** X2.  An add that is answered 200 leaves [global.carts] created, and
    once it exists it stays: after any further requests, for a user under
    whose name [global.carts] gives an array or nothing, the list is
    answered 200 with the lines of the cart and a remove is never answered
    500. *)
Theorem store_exists_after_first_add (Array_prototype : string -> option nat)
    (st : Backend.state) :
  (forall u req answer,
     status (fst (run answer (Backend.post_cart Array_prototype u req) st)) = 200%nat ->
     Backend.carts (snd (run answer (Backend.post_cart Array_prototype u req) st))
     <> None) /\
  (Backend.carts st <> None ->
   forall xs, Backend.carts (replay Array_prototype xs st) <> None) /\
  (Backend.carts st <> None ->
   forall xs u req,
     let st' := replay Array_prototype xs st in
     (exists lines, entry Array_prototype st' u = Globals.Array lines) \/
     Globals.to_boolean (entry Array_prototype st' u) = false ->
     Backend.get_cart_items Array_prototype u st' =
     (Response 200 (Items (map Backend.parsed (cart Array_prototype st' u))), st') /\
     status (fst (Backend.delete_cart_items Array_prototype u req st')) <> 500%nat).
Proof.
  split; [|split].
  - intros u req answer Hs.
    destruct (post_cart_success Array_prototype u req answer st Hs)
      as (i & q & c & _ & _ & Hp & _).
    apply push_Some in Hp as (lines & _ & _ & ->). discriminate.
  - intros H xs. apply replay_keeps_store, H.
  - intros H xs u req st' He.
    pose proof (replay_keeps_store Array_prototype xs st H) as Hx.
    fold st' in Hx.
    destruct (list_status Array_prototype u st' Hx He) as (lines & -> & ->).
    split; [reflexivity|].
    unfold Backend.delete_cart_items.
    destruct (Backend.positive_integer _) as [i|]; [|discriminate].
    destruct (Backend.carts st') as [o|] eqn:Ho; [|congruence].
    rewrite (cart_array_entry Array_prototype st' o u Ho).
    destruct He as [[ls He] | Hf].
    + rewrite He. cbn. destruct (Backend.findIndex _ _); discriminate.
    + unfold Globals.or_empty. rewrite Hf. cbn. discriminate.
Qed.

Lemma store_exists_after_first_add_witness :
  let st := fst (Backend.push node18 "alice" (Line 1 2) Backend.init) in
  Backend.carts st <> None /\
  Backend.get_cart_items node18 "bob" st = (Response 200 (Items []), st).
Proof.
  intros st.
  assert (H : Backend.carts st <> None) by discriminate.
  split; [exact H|].
  exact (proj1 (proj2 (proj2 (store_exists_after_first_add node18 st)) H []
                  "bob" (Request None None []) (or_intror eq_refl))).
Defined.

(** X3.  Adding a line and then removing its item gives the line back and
    leaves the cart, the flags and what [global.carts] gives under every
    other name as they were, provided the add went through and no line
    already in the cart has that item (otherwise the older line would
    go). *)
Theorem remove_undoes_add (Array_prototype : string -> option nat)
    (u : string) (i q : Z) (req : request)
    (st st1 : Backend.state) (c : list (line Z)) :
  Backend.positive_integer (Backend.coerce (body_field req "itemId")) = Some i ->
  Backend.push Array_prototype u (Line i q) st = (st1, Some c) ->
  forallb (fun x => negb (itemId x =? i)) (cart Array_prototype st u) = true ->
  let (resp, st') := Backend.delete_cart_items Array_prototype u req st1 in
  resp = Response 200
           (Deleted "Item deleted from the cart"
              (Some (Backend.to_json (Line i q)))) /\
  cart Array_prototype st' u = cart Array_prototype st u /\
  Backend.checkoutCompleted st' = Backend.checkoutCompleted st /\
  (forall v, v <> u -> entry Array_prototype st' v = entry Array_prototype st v).
Proof.
  intros Hi Hp Hall.
  destruct (cart_after_push Array_prototype u _ st st1 c Hp) as (-> & He1 & _).
  apply push_Some in Hp as (lines & He & _ & ->).
  pose proof (cart_or_empty Array_prototype u st lines He) as Hc.
  rewrite Hc in *.
  rewrite (delete_first_match Array_prototype u req _ i lines [] (Line i q)
             Hi He1 Hall eq_refl).
  cbn [Backend.carts Backend.checkoutCompleted].
  set (o := default Globals.empty (Backend.carts st)) in *.
  change (default Globals.empty (Some ?x)) with x.
  rewrite app_nil_r.
  split; [reflexivity|]. split.
  { unfold cart, entry. cbn [Backend.carts].
    change (default Globals.empty (Some ?x)) with x.
    rewrite lookup_mutate. reflexivity. }
  split; [reflexivity|].
  intros v Hv. unfold entry. cbn [Backend.carts].
  change (default Globals.empty (Some ?x)) with x. fold o.
  unfold Globals.mutate.
  destruct (String.eqb_spec u "__proto__") as [->|Hu].
  - (* the array is the prototype itself *)
    destruct He as [He | [Hf _]].
    + unfold entry, Globals.lookup in He. fold o in He. cbn in He.
      destruct (Globals.proto o) as [P|] eqn:HP; [|discriminate].
      injection He as ->.
      unfold Globals.lookup, Globals.assign. cbn. rewrite HP. reflexivity.
    + unfold entry, Globals.lookup in Hf. fold o in Hf. cbn in Hf.
      destruct (Globals.proto o); discriminate.
  - rewrite !lookup_assign_ne by congruence. reflexivity.
Qed.

Lemma remove_undoes_add_witness :
  let st := Backend.State
              (Some (Globals.Store {[ "alice" := Globals.Array [Line 7 1] ]} None))
              ∅ in
  let req := Request None None [("itemId", JStr "3")] in
  let st1 := fst (Backend.push node18 "alice" (Line 3 5) st) in
  Backend.positive_integer (Backend.coerce (body_field req "itemId")) = Some 3 /\
  Backend.push node18 "alice" (Line 3 5) st = (st1, Some [Line 7 1; Line 3 5]) /\
  forallb (fun x => negb (itemId x =? 3)) (cart node18 st "alice") = true /\
  let (resp, st') := Backend.delete_cart_items node18 "alice" req st1 in
  resp = Response 200
           (Deleted "Item deleted from the cart"
              (Some (Backend.to_json (Line 3 5)))) /\
  cart node18 st' "alice" = cart node18 st "alice".
Proof.
  intros st req st1.
  assert (Hi : Backend.positive_integer
                 (Backend.coerce (body_field req "itemId")) = Some 3)
    by reflexivity.
  assert (Hp : Backend.push node18 "alice" (Line 3 5) st
               = (st1, Some [Line 7 1; Line 3 5]))
    by (vm_compute; reflexivity).
  assert (Hall : forallb (fun x => negb (itemId x =? 3)) (cart node18 st "alice")
                 = true)
    by (vm_compute; reflexivity).
  split; [exact Hi|]. split; [exact Hp|]. split; [exact Hall|].
  pose proof (remove_undoes_add node18 "alice" 3 5 req st st1 _ Hi Hp Hall) as H.
  destruct (Backend.delete_cart_items node18 "alice" req st1) as [resp st'].
  destruct H as (Hr & Hc & _). split; [exact Hr|exact Hc].
Defined.

(** ** Requests that are not let through *)

(** X4.  Unless the token verifier answers with a truthy [valid], the
    validating storefront answers 401, 403 or 500, leaves the state as it
    is, and calls no service other than the verifier. *)
Theorem unverified_requests_change_nothing
    (Array_prototype : string -> option nat)
    (r : Backend.route) (req : request) (answer : call -> reply)
    (st : Backend.state) :
  (forall a u data v,
     present (authorization req) = Some a ->
     present (x_user req) = Some u ->
     answer (VerifyToken u (providedToken a)) = Resolved data ->
     get_field data "valid" = Some v ->
     truthy v = false) ->
  exists resp,
    run answer (Backend.serve Array_prototype r req) st = (resp, st) /\
    In (status resp) [401; 403; 500]%nat /\
    forall c, In c (calls answer (Backend.serve Array_prototype r req)) ->
      exists u t, c = VerifyToken u t.
Proof.
  intros H. unfold Backend.serve, Backend.authMiddleware.
  destruct (present (authorization req)) as [a|] eqn:Ha;
    [destruct (present (x_user req)) as [u|] eqn:Hu|].
  - cbn [bind run calls]. specialize (H a u).
    destruct (answer (VerifyToken u (providedToken a))) as [data|s] eqn:Hr.
    + destruct (get_field data "valid") as [v|] eqn:Hv.
      * rewrite (H data v eq_refl eq_refl eq_refl Hv). cbn.
        eexists. split; [reflexivity|]. split; [simpl; auto|].
        intros c [<-|[]]. eauto.
      * cbn. eexists. split; [reflexivity|]. split; [simpl; auto|].
        intros c [<-|[]]. eauto.
    + cbn. eexists. split; [reflexivity|]. split; [simpl; auto|].
      intros c [<-|[]]. eauto.
  - cbn. eexists. split; [reflexivity|]. split; [simpl; auto|]. intros c [].
  - destruct (present (x_user req)); cbn; eexists;
      (split; [reflexivity|]); (split; [simpl; auto|]); intros c [].
Qed.

Lemma unverified_requests_change_nothing_witness :
  let req := Request (Some "Bearer 0123") (Some "alice")
               [("itemId", JNum (NInt 1)); ("quantity", JNum (NInt 2))] in
  let answer := fun _ : call => Resolved (JObj [("valid", JBool false)]) in
  exists resp,
    run answer (Backend.serve node18 Backend.PostCart req) Backend.init
    = (resp, Backend.init) /\
    In (status resp) [401; 403; 500]%nat.
Proof.
  intros req answer.
  assert (H : forall a u data v,
            present (authorization req) = Some a ->
            present (x_user req) = Some u ->
            answer (VerifyToken u (providedToken a)) = Resolved data ->
            get_field data "valid" = Some v ->
            truthy v = false).
  { intros a u data v _ _ Hd Hv. injection Hd as <-. injection Hv as <-.
    reflexivity. }
  destruct (unverified_requests_change_nothing node18 Backend.PostCart req answer
              Backend.init H) as (resp & Hr & Hs & _).
  exists resp. split; [exact Hr|exact Hs].
Defined.

(** X5.  The storefront of [part_004] changes its state only for a request
    whose token is the one derived for its user, and never for a
    payment. *)
Theorem storefront_state_changes_need_token
    (Array_prototype : string -> option nat)
    (sha256 : string -> string) (e : env) (r : Storefront.route)
    (req : request) (st : Storefront.state) :
  snd (Storefront.serve Array_prototype sha256 e r req st) <> st ->
  r <> Storefront.PostPayment /\
  exists a u,
    present (authorization req) = Some a /\
    present (x_user req) = Some u /\
    providedToken a = Some (generateDynamicToken sha256 e (Some u)).
Proof.
  unfold Storefront.serve, Storefront.authMiddleware.
  destruct (present (authorization req)) as [a|];
    [destruct (present (x_user req)) as [u|]|]; try (intros []; reflexivity).
  - destruct (token_matches _ _) eqn:Hm; [|intros []; reflexivity].
    apply token_matches_iff in Hm. intros Hne. split.
    + intros ->. apply Hne. reflexivity.
    + exists a, u. auto.
Qed.

Lemma storefront_state_changes_need_token_witness :
  let e := Env None (Date 2024 3 7 9 5 0 42) in
  let req := Request (Some "Bearer alice2024-03-07default_secret") (Some "alice")
               [("itemId", JNum (NInt 1)); ("quantity", JStr "two")] in
  snd (Storefront.serve node18 (fun s => s) e Storefront.PostCart req
         Storefront.init)
  <> Storefront.init /\
  Storefront.PostCart <> Storefront.PostPayment.
Proof.
  intros e req.
  assert (H : snd (Storefront.serve node18 (fun s => s) e Storefront.PostCart req
                     Storefront.init) <> Storefront.init)
    by (vm_compute; discriminate).
  split; [exact H|].
  exact (proj1 (storefront_state_changes_need_token node18 (fun s => s) e
                  Storefront.PostCart req Storefront.init H)).
Defined.

(** ** The token *)

(** X6.  Within the four-digit years the token of a user depends on the
    clock through the UTC calendar day only: two services with the same
    secret derive the same token at any two times of the same day.  An
    empty [TOKEN_SECRET] is the same as none. *)
Theorem token_is_per_day (sha256 : string -> string) (e1 e2 : env)
    (username : option string) :
  secret e1 = secret e2 ->
  year (now e1) = year (now e2) ->
  month (now e1) = month (now e2) ->
  day (now e1) = day (now e2) ->
  Z.of_nat (year (now e1)) <= 9999 ->
  (month (now e1) <= 99)%nat -> (day (now e1) <= 99)%nat ->
  generateDynamicToken sha256 e1 username =
  generateDynamicToken sha256 e2 username /\
  secret (Env (Some "") (now e1)) = secret (Env None (now e1)).
Proof.
  intros Hs Hy Hm Hd Ly Lm Ld. split; [|reflexivity].
  unfold generateDynamicToken. rewrite Hs.
  rewrite (currentDate_calendar e1 Ly Lm Ld).
  rewrite (currentDate_calendar e2) by congruence.
  unfold calendar_date. rewrite Hy, Hm, Hd. reflexivity.
Qed.

Lemma token_is_per_day_witness :
  let e1 := Env (Some "k") (Date 2024 3 7 0 0 0 0) in
  let e2 := Env (Some "k") (Date 2024 3 7 23 59 59 999) in
  generateDynamicToken (fun s => s) e1 (Some "alice") =
  generateDynamicToken (fun s => s) e2 (Some "alice").
Proof.
  intros e1 e2.
  refine (proj1 (token_is_per_day (fun s => s) e1 e2 (Some "alice")
                   eq_refl eq_refl eq_refl eq_refl _ _ _)).
  - vm_compute. discriminate.
  - vm_compute. lia.
  - vm_compute. lia.
Defined.

Example parseInt_any_examples :
  map parseInt_any ["12"; " 7up"; "0x1F"; "-0x10"; "0x"; "abc"; ""; "010"; "-3"]
  = [Fin 12; Fin 7; Fin 31; Fin (-16); NaN; NaN; NaN; Fin 10; Fin (-3)].
Proof. vm_compute. reflexivity. Qed.

(** ** Credentials: the data-access service and the login relay *)

Section Credentials.

Variable sha256 : string -> string.
Variable e : env.
Variable ToString : jsval -> string.

(** X7.  The credential check asks the database once, for the given user
    name.  A user the database does not know and a wrong password get the
    very same 401 answer; the 200 answer with the token of the given user
    name is sent exactly when the first row's password is strictly equal to
    the given one. *)
Theorem validate_hides_which_part_is_wrong
    (body username password : jsval)
    (db : nat -> Adapter.effect -> Adapter.dbreply) :
  get_field body "username" = Some username ->
  get_field body "password" = Some password ->
  let ask := Adapter.Query "SELECT * FROM users WHERE username = $1;" [username] in
  let (o, asked) :=
    exec db 0%nat (Adapter.users_validate sha256 e ToString body) in
  asked = [ask] /\
  (db 0%nat ask = Adapter.Rows [] -> o = invalid_credentials) /\
  (forall user rest stored id name role,
     db 0%nat ask = Adapter.Rows (user :: rest) ->
     get_field user "password" = Some stored ->
     get_field user "id" = Some id ->
     get_field user "username" = Some name ->
     get_field user "role" = Some role ->
     (Adapter.strict_eq stored password = false -> o = invalid_credentials) /\
     (Adapter.strict_eq stored password = true ->
      o = Sent (Answer 200
                  (object [("id", id); ("username", name); ("role", role);
                           ("token",
                            JStr (Adapter.generateDynamicToken sha256 e ToString
                                    username))])))) /\
  (forall a, o = Sent a -> status_code a = 200%nat ->
     exists user rest stored,
       db 0%nat ask = Adapter.Rows (user :: rest) /\
       get_field user "password" = Some stored /\
       Adapter.strict_eq stored password = true).
Proof.
  intros Hu Hp ask. unfold Adapter.users_validate. rewrite Hu, Hp.
  cbn [exec]. fold ask.
  destruct (db 0%nat ask) as [[|user rest]|err] eqn:Hdb; cbn [exec].
  - split; [reflexivity|]. split; [reflexivity|]. split; [discriminate|].
    intros a [= <-]. discriminate.
  - destruct (get_field user "password") as [stored|] eqn:H1;
      [destruct (get_field user "id") as [id|] eqn:H2;
       [destruct (get_field user "username") as [name|] eqn:H3;
        [destruct (get_field user "role") as [role|] eqn:H4|]|]|];
      cbn [exec];
      try (split; [reflexivity|]; split; [discriminate|];
           split;
           [ intros user' rest' stored' id' name' role' [= <- <-] E1 E2 E3 E4;
             congruence
           | intros a [= <-]; discriminate ]).
    destruct (Adapter.strict_eq stored password) eqn:Hs; cbn [negb exec].
    + split; [reflexivity|]. split; [discriminate|]. split.
      * intros user' rest' stored' id' name' role' [= <- <-] E1 E2 E3 E4.
        assert (stored' = stored) as -> by congruence.
        assert (id' = id) as -> by congruence.
        assert (name' = name) as -> by congruence.
        assert (role' = role) as -> by congruence.
        split; [congruence|reflexivity].
      * intros a _ _. exists user, rest, stored. auto.
    + split; [reflexivity|]. split; [discriminate|]. split.
      * intros user' rest' stored' id' name' role' [= <- <-] E1 E2 E3 E4.
        assert (stored' = stored) as -> by congruence.
        split; [reflexivity|congruence].
      * intros a [= <-]. discriminate.
  - split; [reflexivity|]. split; [discriminate|]. split; [discriminate|].
    intros a [= <-]. discriminate.
Qed.

End Credentials.

Lemma validate_hides_which_part_is_wrong_witness :
  let body := JObj [("username", JStr "jdoe123"); ("password", JStr "guess")] in
  let db := fun (_ : nat) (_ : Adapter.effect) =>
    Adapter.Rows [JObj [("id", JNum (NInt 1)); ("username", JStr "jdoe123");
                        ("role", JStr "admin"); ("password", JStr "jdoe@123")]] in
  get_field body "username" = Some (JStr "jdoe123") /\
  get_field body "password" = Some (JStr "guess") /\
  fst (exec db 0%nat
         (Adapter.users_validate (fun s => s)
            (Env None (Date 2024 3 7 9 5 0 42)) (fun _ => "") body))
  = invalid_credentials.
Proof.
  intros body db.
  split; [reflexivity|]. split; [reflexivity|].
  pose proof (validate_hides_which_part_is_wrong (fun s => s)
                (Env None (Date 2024 3 7 9 5 0 42)) (fun _ => "")
                body (JStr "jdoe123") (JStr "guess") db eq_refl eq_refl) as H.
  destruct (exec db 0%nat _) as [o asked].
  destruct H as (_ & _ & H & _).
  exact (proj1 (H _ _ (JStr "jdoe@123") (JNum (NInt 1)) (JStr "jdoe123")
                  (JStr "admin") eq_refl eq_refl eq_refl eq_refl eq_refl)
           eq_refl).
Defined.

Lemma truthy_defined (v : jsval) : truthy v = true -> defined v = true.
Proof. destruct v; simpl; congruence. Qed.

(** X8.  The login relay answers 400, without calling the data-access
    service, when the user name or the password is falsy; otherwise it makes
    one call, with the two values and nothing else.  The token of a 2xx
    answer is passed on; an upstream 401 becomes the fixed "Invalid
    credentials" answer; every other upstream error keeps its status and
    its message, and is left unanswered when its body is [null]; a 2xx
    answer without a body and no answer at all both give 500. *)
Theorem login_relays_the_verdict (req : request)
    (oracle : nat -> outgoing -> result) :
  let username := body_field req "username" in
  let password := body_field req "password" in
  let sent := Outgoing "post" "/users/validate"
                (JObj [("username", username); ("password", password)])
                JUndefined in
  let (o, asked) := exec oracle 0%nat (Relay.login req) in
  (truthy username && truthy password = false ->
   asked = [] /\
   o = Sent (Answer 400 (error_body "Username and password are required"))) /\
  (truthy username && truthy password = true ->
   asked = [sent] /\
   (forall d, oracle 0%nat sent = Err 401 d -> o = invalid_credentials) /\
   (forall s d token,
      oracle 0%nat sent = Ok s d -> get_field d "token" = Some token ->
      o = Sent (Answer 200 (object [("token", token)]))) /\
   (forall s d,
      oracle 0%nat sent = Ok s d -> get_field d "token" = None ->
      o = Sent (Answer 500 (error_body "Internal server error during login"))) /\
   (forall s d x,
      oracle 0%nat sent = Err s d -> s <> 401%nat ->
      get_field d "error" = Some x ->
      o = Sent (Answer s
                  (object [("error",
                            or_else x (JStr "Error validating credentials"))]))) /\
   (forall s d,
      oracle 0%nat sent = Err s d -> s <> 401%nat ->
      get_field d "error" = None -> o = Hang) /\
   (oracle 0%nat sent = NoResponse ->
    o = Sent (Answer 500 (error_body "Internal server error during login")))).
Proof.
  intros username password sent. unfold Relay.login.
  fold username password.
  destruct (truthy username) eqn:Hu; [destruct (truthy password) eqn:Hp|];
    cbn [negb orb andb exec];
    try (split; [auto|discriminate]).
  assert (Hobj : object [("username", username); ("password", password)]
                 = JObj [("username", username); ("password", password)]).
  { unfold object. cbn [List.filter snd].
    rewrite (truthy_defined _ Hu), (truthy_defined _ Hp). reflexivity. }
  rewrite Hobj. fold sent.
  destruct (oracle 0%nat sent) as [s d|s d|] eqn:Ho.
  - destruct (get_field d "token") as [token|] eqn:Ht; cbn [exec];
      (split; [discriminate|]); intros _;
      (split; [reflexivity|]);
      repeat (split; [try discriminate|]); try discriminate;
      try (intros s' d' token' [= <- <-] E; congruence);
      try (intros s' d' [= <- <-] E; congruence).
  - destruct (Nat.eqb_spec s 401) as [->|Hne].
    + cbn [exec]. split; [discriminate|]. intros _.
      split; [reflexivity|].
      repeat (split; [try discriminate|]); try discriminate;
        try reflexivity;
        try (intros s' d' x [= <- <-] Hs; contradiction);
        try (intros s' d' [= <- <-] Hs; contradiction).
    + destruct (get_field d "error") as [x|] eqn:He; cbn [exec];
        (split; [discriminate|]); intros _;
        (split; [reflexivity|]);
        repeat (split; [try discriminate|]); try discriminate;
        try (intros d' [= -> _]; contradiction);
        try (intros s' d' x' [= <- <-] _ E; congruence);
        try (intros s' d' [= <- <-] _ E; congruence).
  - cbn [exec]. split; [discriminate|]. intros _.
    split; [reflexivity|].
    repeat (split; [try discriminate|]); try discriminate; reflexivity.
Qed.

Lemma login_relays_the_verdict_witness :
  let req := Request None None
               [("username", JStr "jdoe123"); ("password", JStr "jdoe@123")] in
  let oracle := fun (_ : nat) (_ : outgoing) =>
                  Ok 200 (JObj [("token", JStr "0123")]) in
  truthy (body_field req "username") && truthy (body_field req "password") = true /\
  fst (exec oracle 0%nat (Relay.login req))
  = Sent (Answer 200 (object [("token", JStr "0123")])).
Proof.
  intros req oracle.
  assert (H : truthy (body_field req "username")
              && truthy (body_field req "password") = true) by reflexivity.
  split; [exact H|].
  pose proof (login_relays_the_verdict req oracle) as L.
  destruct (exec oracle 0%nat (Relay.login req)) as [o asked].
  destruct L as [_ L]. destruct (L H) as (_ & _ & Hok & _).
  exact (Hok 200%nat (JObj [("token", JStr "0123")]) (JStr "0123")
           eq_refl eq_refl).
Defined.

(** X9.  Registration never forwards a role of the caller's choosing: the
    one request it sends creates a user with role [user], whatever the body
    says, and it is sent only when the four required fields are truthy;
    otherwise the answer is 400.  A 2xx answer of the data-access service
    is passed on with its status; every error answer is reported as 500
    with the upstream body as its message; when the data-access service
    does not answer, nothing is sent back. *)
Theorem register_creates_plain_users (req : request)
    (oracle : nat -> outgoing -> result) :
  let (o, asked) := exec oracle 0%nat (Relay.register req) in
  (forall c, In c asked ->
     get_field (data c) "role" = Some (JStr "user") /\
     url c = "/users" /\ asked = [c] /\
     truthy (body_field req "username") = true /\
     truthy (body_field req "firstname") = true /\
     truthy (body_field req "surname") = true /\
     truthy (body_field req "password") = true) /\
  (asked = [] ->
   o = Sent (Answer 400
               (error_body "Username, firstname, surname and password are required"))) /\
  (truthy (body_field req "username") && truthy (body_field req "firstname")
   && truthy (body_field req "surname") && truthy (body_field req "password")
   = true -> exists c, asked = [c]) /\
  (forall c s d, asked = [c] -> oracle 0%nat c = Ok s d -> o = Sent (Answer s d)) /\
  (forall c s d, asked = [c] -> oracle 0%nat c = Err s d ->
     o = Sent (Answer 500
                 (object [("error", JStr "Internal server error");
                          ("message", d)]))) /\
  (forall c, asked = [c] -> oracle 0%nat c = NoResponse -> o = Hang).
Proof.
  unfold Relay.register.
  destruct (truthy (body_field req "username")) eqn:H1;
    [destruct (truthy (body_field req "firstname")) eqn:H2;
     [destruct (truthy (body_field req "surname")) eqn:H3;
      [destruct (truthy (body_field req "password")) eqn:H4|]|]|];
    cbn [negb orb andb exec];
    try (split; [intros c []|split; [reflexivity|];
         split; [discriminate|]; repeat split; discriminate]).
  assert (Hobj : forall x,
            object [("username", body_field req "username"); ("role", x);
                    ("firstname", body_field req "firstname");
                    ("surname", body_field req "surname");
                    ("password", body_field req "password")]
            = JObj ([("username", body_field req "username")]
                    ++ (if defined x then [("role", x)] else [])
                    ++ [("firstname", body_field req "firstname");
                        ("surname", body_field req "surname");
                        ("password", body_field req "password")])).
  { intros x. unfold object. cbn [List.filter snd].
    rewrite (truthy_defined _ H1), (truthy_defined _ H2),
      (truthy_defined _ H3), (truthy_defined _ H4).
    destruct (defined x); reflexivity. }
  rewrite Hobj. cbn [defined app].
  match goal with |- context [oracle 0%nat ?c] => set (sent := c) end.
  destruct (oracle 0%nat sent) as [s d|s d|] eqn:Ho; cbn [exec];
    (split; [intros c [<-|[]]; repeat split; reflexivity|]);
    (split; [discriminate|]);
    (split; [intros _; eexists; reflexivity|]);
    repeat split;
    try (intros c s' d' [= <-] Ho'; congruence);
    try (intros c [= <-] Ho'; congruence).
Qed.

Lemma split_no_space (t : string) : no_space t -> split " " t = [t].
Proof.
  unfold no_space. induction t as [|c r IH]; simpl; [reflexivity|].
  intros H. apply andb_true_iff in H as [Hc Hr].
  destruct (Ascii.eqb c " "); [discriminate|].
  rewrite (IH Hr). reflexivity.
Qed.

Lemma providedToken_bearer_exact (t : string) :
  no_space t -> providedToken ("Bearer " +:+ t) = Some t.
Proof.
  intros H. unfold providedToken.
  change (split " " ("Bearer " +:+ t)) with ("Bearer" :: split " " t).
  rewrite (split_no_space t H). reflexivity.
Qed.

Lemma exec_Ask {C R A : Type} (oracle : nat -> C -> R) (n : nat) (c : C)
    (k : R -> prog C R A) :
  exec oracle n (Ask c k) =
  (fst (exec oracle (S n) (k (oracle n c))),
   c :: snd (exec oracle (S n) (k (oracle n c)))).
Proof. cbn [exec]. destruct (exec oracle (S n) (k (oracle n c))). reflexivity. Qed.

Lemma users_validate_accepts (sha256 : string -> string) (e : env)
    (ToString : jsval -> string)
    (db : nat -> Adapter.effect -> Adapter.dbreply) (u : string)
    (password user stored id name role : jsval) (rest : list jsval) :
  db 0%nat (Adapter.Query "SELECT * FROM users WHERE username = $1;" [JStr u])
  = Adapter.Rows (user :: rest) ->
  get_field user "password" = Some stored ->
  get_field user "id" = Some id ->
  get_field user "username" = Some name ->
  get_field user "role" = Some role ->
  Adapter.strict_eq stored password = true ->
  fst (exec db 0%nat
         (Adapter.users_validate sha256 e ToString
            (JObj [("username", JStr u); ("password", password)])))
  = Sent (Answer 200
            (object [("id", id); ("username", name); ("role", role);
                     ("token", JStr (Token.generateDynamicToken sha256 e (Some u)))])).
Proof.
  intros Hdb Hs Hid Hn Hr Heq.
  unfold Adapter.users_validate.
  change (get_field (JObj [("username", JStr u); ("password", password)]) "username")
    with (Some (JStr u)).
  change (get_field (JObj [("username", JStr u); ("password", password)]) "password")
    with (Some password).
  cbv beta iota.
  rewrite exec_Ask, Hdb, Hs, Hid, Hn, Hr, Heq. reflexivity.
Qed.

Lemma login_accepts (req : request) (u t : string) (password data : jsval)
    (oracle : nat -> outgoing -> result) :
  body_field req "username" = JStr u -> u <> "" ->
  body_field req "password" = password -> truthy password = true ->
  oracle 0%nat (Outgoing "post" "/users/validate"
                  (JObj [("username", JStr u); ("password", password)]) JUndefined)
  = Ok 200 data ->
  get_field data "token" = Some (JStr t) ->
  fst (exec oracle 0%nat (Relay.login req))
  = Sent (Answer 200 (JObj [("token", JStr t)])).
Proof.
  intros Hu Hne Hp Ht Ho Htok.
  unfold Relay.login. rewrite Hu, Hp, Ht.
  assert (Htu : truthy (JStr u) = true).
  { simpl. destruct (String.eqb_spec u ""); [contradiction|reflexivity]. }
  rewrite Htu. cbn [negb orb].
  assert (Hobj : object [("username", JStr u); ("password", password)]
                 = JObj [("username", JStr u); ("password", password)]).
  { unfold object. cbn [List.filter snd defined].
    rewrite (truthy_defined _ Ht). reflexivity. }
  rewrite Hobj, exec_Ask, Ho, Htok. reflexivity.
Qed.

Section LoginRoundTrip.

Variable sha256 : string -> string.
Variable e : env.
Variable ToString : jsval -> string.

(** The digest is written in hexadecimal: it has no space. *)
Hypothesis digest_no_space : forall s, no_space (sha256 s).

(** X10.  A user who logs in with the stored password gets a token that
    the storefront of [part_004] accepts: when the database holds the user
    with that password, the data-access service answers the login relay,
    the relay answers 200 with a token, and a request that presents
    [Bearer <token>] for the same user name on the same day, with the same
    secret, is let through. *)
Theorem login_token_is_accepted (req : request) (u : string) (password : jsval)
    (db : nat -> Adapter.effect -> Adapter.dbreply)
    (user stored id name role : jsval) (rest : list jsval) :
  body_field req "username" = JStr u -> u <> "" ->
  body_field req "password" = password -> truthy password = true ->
  db 0%nat (Adapter.Query "SELECT * FROM users WHERE username = $1;" [JStr u])
  = Adapter.Rows (user :: rest) ->
  get_field user "password" = Some stored ->
  get_field user "id" = Some id ->
  get_field user "username" = Some name ->
  get_field user "role" = Some role ->
  Adapter.strict_eq stored (wire password) = true ->
  let sent := Outgoing "post" "/users/validate"
                (JObj [("username", JStr u); ("password", password)])
                JUndefined in
  exists r t,
    validate_over_http sha256 e ToString db sent = Some r /\
    forall oracle, oracle 0%nat sent = r ->
      fst (exec oracle 0%nat (Relay.login req))
      = Sent (Answer 200 (JObj [("token", JStr t)])) /\
      forall body,
        Storefront.authMiddleware sha256 e
          (Request (Some ("Bearer " +:+ t)) (Some u) body)
        = Storefront.Next u.
Proof.
  intros Hu Hne Hp Ht Hdb Hs Hid Hn Hr Heq sent.
  set (t := Token.generateDynamicToken sha256 e (Some u)).
  assert (Hw : wire (data sent)
               = JObj [("username", JStr u); ("password", wire password)]).
  { simpl. rewrite (truthy_defined _ Ht). reflexivity. }
  assert (Hv : fst (exec db 0%nat
                      (Adapter.users_validate sha256 e ToString (wire (data sent))))
               = Sent (Answer 200
                         (object [("id", id); ("username", name); ("role", role);
                                  ("token", JStr t)]))).
  { rewrite Hw.
    exact (users_validate_accepts sha256 e ToString db u (wire password)
             user stored id name role rest Hdb Hs Hid Hn Hr Heq). }
  eexists _, t. split.
  - unfold validate_over_http. rewrite Hv. reflexivity.
  - intros oracle Ho. split.
    + refine (login_accepts req u t password
                (wire (object [("id", id); ("username", name); ("role", role);
                               ("token", JStr t)]))
                oracle Hu Hne Hp Ht _ _).
      * refine (eq_trans Ho _). reflexivity.
      * unfold object. cbn [List.filter snd].
        destruct (defined id) eqn:D1, (defined name) eqn:D2,
          (defined role) eqn:D3; cbn; rewrite ?D1, ?D2, ?D3; reflexivity.
    + intros body. apply (storefront_auth_next sha256 e _ ("Bearer " +:+ t) u).
      * reflexivity.
      * simpl. destruct (String.eqb_spec u ""); [contradiction|reflexivity].
      * apply providedToken_bearer_exact, digest_no_space.
Qed.

End LoginRoundTrip.

Lemma login_token_is_accepted_witness :
  let sha := fun _ : string => "c0ffee" in
  let e := Env (Some "mySuperSecretKey") (Date 2024 3 7 9 5 0 42) in
  let req := Request None None
               [("username", JStr "jdoe123"); ("password", JStr "jdoe@123")] in
  let db := fun (_ : nat) (_ : Adapter.effect) =>
    Adapter.Rows [JObj [("id", JNum (NInt 1)); ("username", JStr "jdoe123");
                        ("role", JStr "admin"); ("password", JStr "jdoe@123")]] in
  let sent := Outgoing "post" "/users/validate"
                (JObj [("username", JStr "jdoe123");
                       ("password", JStr "jdoe@123")]) JUndefined in
  (forall s, no_space (sha s)) /\
  exists r t,
    validate_over_http sha e (fun _ => "") db sent = Some r /\
    forall oracle, oracle 0%nat sent = r ->
      fst (exec oracle 0%nat (Relay.login req))
      = Sent (Answer 200 (JObj [("token", JStr t)])) /\
      forall body,
        Storefront.authMiddleware sha e
          (Request (Some ("Bearer " +:+ t)) (Some "jdoe123") body)
        = Storefront.Next "jdoe123".
Proof.
  intros sha e req db sent.
  assert (Hd : forall s, no_space (sha s)) by (intros s; reflexivity).
  split; [exact Hd|].
  exact (login_token_is_accepted sha e (fun _ => "") Hd req "jdoe123"
           (JStr "jdoe@123") db _ (JStr "jdoe@123") (JNum (NInt 1))
           (JStr "jdoe123") (JStr "admin") []
           eq_refl ltac:(discriminate) eq_refl eq_refl eq_refl
           eq_refl eq_refl eq_refl eq_refl eq_refl).
Defined.

(** ** The admin gateway *)





(** X12.  A forwarded request is sent once, with the body and the query it
    came with.  A 2xx answer is relayed with its body, as 201 on the three
    creating routes and with the upstream status elsewhere; an error answer
    is relayed with the upstream status, and nothing is sent back for it
    only when the upstream error has no JSON body to read; when the
    data-access service does not answer the reply is 500. *)
Theorem forward_keeps_the_upstream_status
    (r : Gateway.route) (body query : jsval)
    (oracle : nat -> outgoing -> result) :
  let (o, asked) := exec oracle 0%nat (Gateway.forward r body query) in
  exists c,
    asked = [c] /\ data c = body /\ params c = query /\
    match oracle 0%nat c with
    | Ok s d =>
        o = Sent (Answer
                    match r with
                    | Gateway.PostUsers | Gateway.PostItems
                    | Gateway.PostItemsBatch => 201%nat
                    | _ => s
                    end d)
    | Err s d =>
        (forall a, o = Sent a -> status_code a = s) /\
        (o = Hang -> get_field d "error" = None)
    | NoResponse => exists msg, o = Sent (Answer 500 (error_body msg))
    end.
Proof.
  destruct r; cbn [Gateway.forward Gateway.forwardRequest exec];
    match goal with |- context [oracle 0%nat ?c] => set (sent := c) end;
    destruct (oracle 0%nat sent) as [s d|s d|] eqn:Ho; cbn [exec];
    exists sent; (split; [reflexivity|]); (split; [reflexivity|]);
    (split; [reflexivity|]); rewrite Ho;
    try reflexivity; try (eexists; reflexivity);
    unfold Gateway.handleAxiosError; cbn [Gateway.notFoundMsg Gateway.text truthy];
    cbn [String.eqb negb andb];
    try (destruct (Nat.eqb_spec s 404) as [->|Hne]; cbn [andb]);
    try (split; [intros a [= <-]; reflexivity | discriminate]);
    rewrite ?andb_false_r;
    (destruct (get_field d "error") as [x|];
     [split; [intros a [= <-]; reflexivity | discriminate]
     |split; [discriminate | reflexivity]]).
Qed.

(** ** Paging in the data-access service *)




Lemma limit_of_capped (ToString : jsval -> string) (limit : jsval) :
  match Adapter.limit_of ToString limit with
  | Fin l => l <= 1000
  | Inf negative => negative = true
  | NaN => False
  end.
Proof.
  unfold Adapter.limit_of.
  destruct (parseInt_any (Adapter.render ToString limit)) as [z|[|]|]; simpl; lia.
Qed.

(** X13.  The listing of the data-access service never asks the database
    for more than 1000 rows, whatever [limit] the query string carries: of
    its two queries the first has no values and the second has a limit that
    is a number at most 1000 (or minus infinity, never [NaN]). *)
Theorem items_page_is_capped (ToString : jsval -> string) (page limit : jsval)
    (db : nat -> Adapter.effect -> Adapter.dbreply) (n : nat) :
  Forall (fun c =>
            match c with
            | Adapter.Query _ [] => True
            | Adapter.Query _ [JNum (NInt l); _] => l <= 1000
            | Adapter.Query _ [JNum (NInf negative); _] => negative = true
            | _ => False
            end)
         (snd (exec db n (Adapter.get_items ToString page limit))).
Proof.
  pose proof (limit_of_capped ToString limit) as Hcap.
  unfold Adapter.get_items. rewrite exec_Ask. cbn [snd].
  constructor; [exact I|].
  destruct (db n _) as [[|first rest]|msg]; try (cbn; constructor).
  destruct (get_field first "count") as [count|]; [|cbn; constructor].
  rewrite exec_Ask. cbn [snd].
  constructor.
  - destruct (Adapter.limit_of ToString limit) as [l|s|]; cbn; tauto.
  - destruct (db (S n) _); cbn; constructor.
Qed.



(** ** The batch insert of the data-access service *)







(** ** Seeding and start-up of the data-access service *)

Lemma seed_items_aligned (parseFloat : jsval -> jsval) (items : list jsval) :
  forall acc s : Adapter.seed,
  Adapter.seed_items parseFloat acc items = Some s ->
  length (Adapter.params acc) = (3 * length (Adapter.insertValues acc))%nat ->
  Adapter.paramIndex acc = (1 + 3 * length (Adapter.insertValues acc))%nat ->
  (forall i, (i < length (Adapter.insertValues acc))%nat ->
             nth i (Adapter.insertValues acc) "" = Adapter.placeholder (1 + 3 * i)) ->
  length (Adapter.params s) = (3 * length (Adapter.insertValues s))%nat /\
  Adapter.paramIndex s = (1 + 3 * length (Adapter.insertValues s))%nat /\
  (forall i, (i < length (Adapter.insertValues s))%nat ->
             nth i (Adapter.insertValues s) "" = Adapter.placeholder (1 + 3 * i)) /\
  length (Adapter.insertValues s) =
  (length (Adapter.insertValues acc) +
   length (List.filter
             (fun item =>
                match Adapter.batch_item_ok item with
                | Some true => true
                | _ => false
                end) items))%nat.
Proof.
  induction items as [|item rest IH]; intros acc s Hs Hp Hi Hn.
  - cbn in Hs. injection Hs as <-. cbn. repeat split; try assumption. lia.
  - cbn [Adapter.seed_items] in Hs.
    destruct (Adapter.seed_item parseFloat acc item) as [acc'|] eqn:Hitem;
      [|discriminate].
    unfold Adapter.seed_item in Hitem.
    cbn [List.filter]. unfold Adapter.batch_item_ok at 1.
    destruct (get_field item "name") as [name|]; [|discriminate].
    destruct (get_field item "price") as [price|]; [|discriminate].
    destruct (get_field item "description") as [description|]; [|discriminate].
    destruct (truthy name); destruct (defined price); cbn in Hitem;
      injection Hitem as <-; cbn [andb];
      try (destruct (IH acc s Hs Hp Hi Hn) as (H1 & H2 & H3 & H4);
           repeat split; assumption).
    specialize (IH _ s Hs). cbn [Adapter.params Adapter.insertValues Adapter.paramIndex] in IH.
    rewrite !length_app in IH. cbn [length] in IH.
    destruct IH as (H1 & H2 & H3 & H4).
    + lia.
    + lia.
    + intros i Hlt.
      destruct (Nat.eq_dec i (length (Adapter.insertValues acc))) as [->|Hne].
      * rewrite app_nth2 by lia. rewrite Nat.sub_diag. cbn [nth].
        rewrite Hi. reflexivity.
      * rewrite app_nth1 by lia. apply Hn. lia.
    + repeat split; try assumption. rewrite H4. cbn [length]. lia.
Qed.

(** X16.  When the seeding loop gets through the catalog, its statement
    has one placeholder group per valid item and no other: the groups are
    numbered [($1, $2, $3)], [($4, $5, $6)], ... without gaps, there are
    exactly three parameters per group, and an item without a name or a
    price is skipped without using up a number. *)
Theorem seeding_numbers_every_parameter (parseFloat : jsval -> jsval)
    (items : list jsval) (s : Adapter.seed) :
  Adapter.seed_items parseFloat Adapter.seed_start items = Some s ->
  length (Adapter.params s) = (3 * length (Adapter.insertValues s))%nat /\
  Adapter.paramIndex s = (1 + 3 * length (Adapter.insertValues s))%nat /\
  (forall i, (i < length (Adapter.insertValues s))%nat ->
             nth i (Adapter.insertValues s) "" = Adapter.placeholder (1 + 3 * i)) /\
  length (Adapter.insertValues s) =
  length (List.filter
            (fun item =>
               match Adapter.batch_item_ok item with
               | Some true => true
               | _ => false
               end) items).
Proof.
  intros Hs.
  destruct (seed_items_aligned parseFloat items Adapter.seed_start s Hs)
    as (H1 & H2 & H3 & H4); try reflexivity.
  - cbn. intros i Hi. lia.
  - repeat split; assumption.
Qed.

Lemma seeding_numbers_every_parameter_witness :
  let items :=
    [JObj [("name", JStr "pen"); ("price", JNum (NInt 2))];
     JObj [("name", JStr ""); ("price", JNum (NInt 1))];
     JObj [("name", JStr "ink"); ("description", JStr "blue");
           ("price", JStr "3.50")]] in
  let s :=
    Adapter.Seed ["($1, $2, $3)"; "($4, $5, $6)"]
      [JStr "pen"; JStr ""; JNum (NInt 2); JStr "ink"; JStr "blue"; JStr "3.50"]
      7 in
  Adapter.seed_items (fun v => v) Adapter.seed_start items = Some s /\
  (length (Adapter.params s) = (3 * length (Adapter.insertValues s))%nat /\
   Adapter.paramIndex s = (1 + 3 * length (Adapter.insertValues s))%nat /\
   (forall i, (i < length (Adapter.insertValues s))%nat ->
              nth i (Adapter.insertValues s) "" = Adapter.placeholder (1 + 3 * i)) /\
   length (Adapter.insertValues s) =
   length (List.filter
             (fun item =>
                match Adapter.batch_item_ok item with
                | Some true => true
                | _ => false
                end) items)).
Proof.
  cbn zeta. split; [vm_compute; reflexivity|].
  apply (seeding_numbers_every_parameter (fun v => v)). vm_compute. reflexivity.
Defined.

(** X17.  Waiting for the database makes at most [retries] attempts and
    stops at the first that succeeds: every attempt before it failed and
    was followed by the full delay.  It gives up only after [retries]
    failed attempts, each followed by the full delay, the last one
    included. *)
Theorem waitForPostgres_attempts (retries : nat) (delay : Z) :
  forall (db : nat -> Adapter.effect -> Adapter.dbreply) (n : nat),
  let r := exec db n (Adapter.waitForPostgres retries delay) in
  let attempt := [Adapter.Query "SELECT 1" []; Adapter.Sleep delay] in
  let failed j :=
    exists msg, db (n + 2 * j)%nat (Adapter.Query "SELECT 1" []) = Adapter.Fails msg in
  if fst r then
    exists k, (k < retries)%nat /\
      snd r = (concat (repeat attempt k) ++ [Adapter.Query "SELECT 1" []])%list /\
      (forall j, (j < k)%nat -> failed j) /\
      (exists rows, db (n + 2 * k)%nat (Adapter.Query "SELECT 1" []) = Adapter.Rows rows)
  else
    snd r = concat (repeat attempt retries) /\
    (forall j, (j < retries)%nat -> failed j).
Proof.
  induction retries as [|remaining IH]; intros db n; cbn zeta.
  - split; [reflexivity|]. intros j Hj. lia.
  - cbn [Adapter.waitForPostgres]. rewrite exec_Ask.
    destruct (db n _) as [rows|msg] eqn:Hdb.
    + cbn. exists 0%nat. split; [lia|]. split; [reflexivity|].
      split; [intros j Hj; lia|].
      exists rows. rewrite <- Hdb. f_equal. lia.
    + rewrite exec_Ask. cbn [fst snd].
      specialize (IH db (S (S n))). cbn zeta in IH.
      assert (Hfirst : forall m j,
                (forall i, (i < m)%nat ->
                   exists msg', db (S (S n) + 2 * i)%nat
                                  (Adapter.Query "SELECT 1" []) = Adapter.Fails msg') ->
                (j < S m)%nat ->
                exists msg', db (n + 2 * j)%nat (Adapter.Query "SELECT 1" [])
                             = Adapter.Fails msg').
      { intros m [|j] Hm Hj.
        - exists msg. rewrite <- Hdb. f_equal. lia.
        - destruct (Hm j ltac:(lia)) as [msg' Hmsg]. exists msg'.
          rewrite <- Hmsg. f_equal. lia. }
      destruct (fst (exec db (S (S n)) (Adapter.waitForPostgres remaining delay))).
      * destruct IH as (k & Hk & Ht & Hfail & rows & Hrows).
        exists (S k). split; [lia|]. split; [rewrite Ht; reflexivity|].
        split; [intros j Hj; exact (Hfirst k j Hfail Hj)|].
        exists rows. rewrite <- Hrows. f_equal. lia.
      * destruct IH as [Ht Hfail].
        split; [rewrite Ht; reflexivity|].
        intros j Hj. exact (Hfirst remaining j Hfail Hj).
Qed.

(** ** The SOAP operations *)





(** X19.  [GetItem] asks the storefront only for an [id] that is a number
    other than [0] and [NaN], and asks once.  Its fault is 400 exactly when
    the [id] is refused, with nothing asked; 404 only when the storefront
    answered 404; and 500 otherwise.  An item it returns has a description
    that is truthy or the empty string. *)
Theorem GetItem_faults (args : jsval)
    (oracle : nat -> Soap.request -> result) (n : nat) :
  let r := exec oracle n (Soap.GetItem args) in
  (snd r = [] \/
   exists id, snd r = [Soap.ItemById id] /\
              get_field args "id" = Some (JNum id) /\ truthy (JNum id) = true) /\
  match fst r with
  | Soap.Returns v =>
      exists id name description price,
        v = JObj [("item", JObj [("id", id); ("name", name);
                                 ("description", description); ("price", price)])] /\
        (truthy description = true \/ description = JStr "")
  | Soap.Fault _ errorcode =>
      (errorcode = 400%nat /\ snd r = []) \/
      (errorcode = 404%nat /\
       exists id data, snd r = [Soap.ItemById id] /\
                       oracle n (Soap.ItemById id) = Err 404 data) \/
      errorcode = 500%nat
  end.
Proof.
  cbn zeta. unfold Soap.GetItem.
  destruct (get_field args "id") as [id|] eqn:Hid; [|cbn; tauto].
  destruct id as [| | |num| | |]; try (cbn; tauto).
  destruct (truthy (JNum num)) eqn:Htruthy; cbn [negb]; [|cbn; tauto].
  rewrite exec_Ask. cbn [fst snd].
  assert (Hasked : forall t : list Soap.request, t = [] ->
             Soap.ItemById num :: t = [] \/
             exists id, Soap.ItemById num :: t = [Soap.ItemById id] /\
                        Some (JNum num) = Some (JNum id) /\ truthy (JNum id) = true).
  { intros t ->. right. exists num. tauto. }
  destruct (oracle n (Soap.ItemById num)) as [status data|status data|] eqn:Hreply.
  - destruct (truthy data); cbn [negb]; [|cbn; split; [apply Hasked; reflexivity | tauto]].
    unfold Soap.item_of.
    destruct (get_field data "id") as [i|];
      [|cbn; split; [apply Hasked; reflexivity | tauto]].
    destruct (get_field data "name") as [name|];
      [|cbn; split; [apply Hasked; reflexivity | tauto]].
    destruct (get_field data "description") as [description|];
      [|cbn; split; [apply Hasked; reflexivity | tauto]].
    destruct (get_field data "price") as [price|];
      [|cbn; split; [apply Hasked; reflexivity | tauto]].
    cbn [exec fst snd]. split; [apply Hasked; reflexivity|].
    eexists _, _, _, _. split; [reflexivity|].
    unfold or_else. destruct (truthy description) eqn:Hd; [left; exact Hd | right; reflexivity].
  - destruct (Nat.eqb status 404) eqn:Hstatus; unfold Soap.internal;
      cbn [exec fst snd]; (split; [apply Hasked; reflexivity|]); [|tauto].
    apply Nat.eqb_eq in Hstatus. subst status.
    right. left. split; [reflexivity|]. exists num, data. tauto.
  - cbn. split; [apply Hasked; reflexivity | tauto].
Qed.

(** ** The services put together *)

Lemma is_admin_inv (role : jsval) :
  Management.is_admin role = true -> role = JStr "admin".
Proof.
  destruct role; try discriminate. cbn.
  intros H. apply String.eqb_eq in H. congruence.
Qed.

(** X20.  With the data-access service behind it, the admin gateway
    decides by the users table: a user the table does not have gets 404
    [User not found], a failing database gets 500, and a request is only
    ever forwarded when the first row found for the user carries the role
    [admin].  In the first two cases the role lookup is the only call. *)
Theorem admin_is_what_the_table_says
    (sha256 : string -> string) (e : env) (r : Gateway.route)
    (req : request) (body query : jsval)
    (db : nat -> Adapter.effect -> Adapter.dbreply)
    (oracle : nat -> call + outgoing -> result) (res : result) :
  role_over_http db (x_user req) = Some res ->
  oracle 0%nat (inl (UserRole (x_user req))) = res ->
  let ask := Adapter.Query "SELECT role FROM users WHERE username = $1;"
               [Gateway.text (x_user req)] in
  let ran := exec oracle 0%nat (Gateway.serve sha256 e r req body query) in
  (present (authorization req) <> None ->
   db 0%nat ask = Adapter.Rows [] ->
   ran = (Sent (Answer 404 (error_body "User not found")),
          [inl (UserRole (x_user req))])) /\
  (present (authorization req) <> None ->
   forall msg, db 0%nat ask = Adapter.Fails msg ->
   ran = (Sent (Answer 500 (error_body "Error retrieving user role")),
          [inl (UserRole (x_user req))])) /\
  (forall c, In (inr c) (snd ran) ->
   exists row rest,
     db 0%nat ask = Adapter.Rows (row :: rest) /\
     get_field (wire row) "role" = Some (JStr "admin")).
Proof.
  intros Hres Horacle ask ran. subst ran.
  unfold role_over_http, Adapter.user_role in Hres.
  assert (Hbody : get_field (wire (object [("username", Gateway.text (x_user req))]))
                    "username" = Some (Gateway.text (x_user req))).
  { destruct (x_user req); reflexivity. }
  rewrite Hbody, exec_Ask in Hres. fold ask in Hres. cbn [fst] in Hres.
  unfold Gateway.serve, Management.authMiddleware.
  destruct (present (authorization req)) as [a|] eqn:Ha.
  2:{ cbn. split; [congruence|]. split; [congruence|]. intros c []. }
  cbn [lift]. rewrite exec_Ask, Horacle.
  destruct (db 0%nat ask) as [[|row rest]|msg] eqn:Hdb.
  - cbn in Hres. injection Hres as <-. cbn.
    split; [reflexivity|]. split; [discriminate|].
    intros c [H|[]]. discriminate.
  - cbn [exec fst] in Hres. injection Hres as <-.
    split; [discriminate|]. split; [discriminate|].
    intros c Hin. exists row, rest. split; [reflexivity|].
    change (forget (as_result (Answer 200 row))) with (Resolved (wire row)) in Hin.
    cbv beta iota in Hin.
    destruct (get_field (wire row) "role") as [role|] eqn:Hrole.
    2:{ cbn in Hin. destruct Hin as [H|[]]. discriminate. }
    destruct (Management.is_admin role) eqn:Hadm.
    2:{ cbn in Hin. destruct Hin as [H|[]]. discriminate. }
    rewrite (is_admin_inv role Hadm). reflexivity.
  - cbn in Hres. injection Hres as <-. cbn.
    split; [discriminate|]. split; [reflexivity|].
    intros c [H|[]]. discriminate.
Qed.

Lemma admin_is_what_the_table_says_witness :
  let e := Env (Some "mySuperSecretKey") (Date 2024 3 7 9 5 0 42) in
  let req := Request (Some "Bearer abc") (Some "nobody") [] in
  let db := fun (_ : nat) (_ : Adapter.effect) => Adapter.Rows [] in
  let res := Err 404 (JObj [("error", JStr "User not found")]) in
  let oracle := fun (_ : nat) (_ : call + outgoing) => res in
  role_over_http db (x_user req) = Some res /\
  exec oracle 0%nat
    (Gateway.serve (fun s => s) e Gateway.GetUsers req JNull (JObj []))
  = (Sent (Answer 404 (error_body "User not found")),
     [inl (UserRole (Some "nobody"))]).
Proof.
  intros e req db res oracle.
  split; [reflexivity|].
  apply (admin_is_what_the_table_says (fun s => s) e Gateway.GetUsers req
           JNull (JObj []) db oracle res eq_refl eq_refl);
    [discriminate | reflexivity].
Defined.

(** X21.  Through a storefront, the SOAP [GetItem] faults with 404
    [Item not found] exactly when the data-access service answered the
    storefront's request for that item with 404; when the data-access
    service does not answer at all the fault is 500. *)
Theorem soap_not_found_comes_from_the_catalog
    (ToString : jsval -> string) (args : jsval) (id : jsnum)
    (upstream : nat -> outgoing -> result)
    (oracle : nat -> Soap.request -> result) (n : nat) :
  get_field args "id" = Some (JNum id) ->
  truthy (JNum id) = true ->
  oracle n (Soap.ItemById id) = item_over_http ToString upstream id ->
  let sent := Outgoing "get" ("/items/" +:+ Adapter.render ToString (JNum id))
                JUndefined JUndefined in
  let fault := fst (exec oracle n (Soap.GetItem args)) in
  (fault = Soap.Fault "Item not found" 404 <->
   exists d, upstream 0%nat sent = Err 404 d) /\
  (upstream 0%nat sent = NoResponse -> fault = Soap.Fault "Internal server error" 500).
Proof.
  intros Hid Htruthy Horacle sent fault. subst fault.
  unfold Soap.GetItem. rewrite Hid, Htruthy. cbn [negb].
  rewrite exec_Ask, Horacle. cbn [fst].
  unfold item_over_http, Relay.get_item. rewrite exec_Ask. fold sent. cbn [fst].
  destruct (upstream 0%nat sent) as [status data|status data|] eqn:Hup.
  - cbn [exec fst].
    assert (Hok : as_result (Answer 200 data) = Ok 200 (wire data)) by reflexivity.
    rewrite Hok.
    split; [|discriminate].
    split; [|intros [d [=]]].
    destruct (truthy (wire data)); cbn [negb];
      [destruct (Soap.item_of (wire data))|];
      cbn [exec fst]; unfold Soap.internal; intros H; discriminate H.
  - destruct (Nat.eqb status 404) eqn:Hs.
    + apply Nat.eqb_eq in Hs. subst status.
      split; [|discriminate]. split; [intros _; eexists; reflexivity|].
      intros _. reflexivity.
    + split; [|discriminate].
      split; [|intros [d [= E _]]; subst status; discriminate].
      destruct (get_field data "error") as [err|].
      * cbn [exec fst]. unfold as_result. cbn [status_code content].
        destruct (Nat.leb 200 status && Nat.ltb status 300).
        -- match goal with
           | |- context [negb (truthy ?w)] =>
               destruct (truthy w); cbn [negb]; [destruct (Soap.item_of w)|]
           end;
             cbn [exec fst]; unfold Soap.internal; intros H; discriminate H.
        -- rewrite Hs. cbn [exec fst]. unfold Soap.internal.
           intros H; discriminate H.
      * cbn [exec fst]. unfold Soap.internal. intros H; discriminate H.
  - split; [|intros _; reflexivity].
    split; [|intros [d [=]]].
    cbn [exec fst]. unfold Soap.internal. intros H; discriminate H.
Qed.

Lemma soap_not_found_comes_from_the_catalog_witness :
  let args := JObj [("id", JNum (NInt 7))] in
  let upstream := fun (_ : nat) (_ : outgoing) =>
                    Err 404 (JObj [("error", JStr "Item not found")]) in
  let oracle := fun (_ : nat) (_ : Soap.request) =>
                  item_over_http (fun _ => "") upstream (NInt 7) in
  fst (exec oracle 0%nat (Soap.GetItem args)) = Soap.Fault "Item not found" 404.
Proof.
  intros args upstream oracle.
  apply (soap_not_found_comes_from_the_catalog (fun _ => "") args (NInt 7)
           upstream oracle 0%nat eq_refl eq_refl eq_refl).
  eexists. reflexivity.
Defined.
